(** * Task manager back end: reminder scheduler, task and category models

    A shallow embedding of the server side of the task-management
    application:

    - the Task model ([taskSchema] and its [pre('save')] middleware) and
      the Category model ([server/models/Category.js]);
    - the task routes ([POST /api/tasks], [PUT /api/tasks/:id]) and the
      category routes ([POST], [PUT] and [DELETE /api/categories/:id]);
    - [server/services/notificationService.js]: the cron-driven reminder
      scan, the daily due-soon job and the weekly summary job;
    - the route tables of the two routers, the pagination of
      [GET /api/tasks] and the date windows of
      [GET /api/analytics/overview];
    - of the client, the reducer of [AuthContext.js], the two route
      guards and the response interceptor of the API module.

    Dates are milliseconds since the Unix epoch, as [Date.prototype.getTime]
    returns them.  A MongoDB collection is a finite map from [_id] to
    document.  Asynchronous code is sequential here: every [await] is a
    bind of the effect monad [M] defined below. *)

From Stdlib Require Import ZArith Lia Floats.SpecFloat.
From stdpp Require Import base option list gmap fin_maps fin_sets strings pretty.

Local Open Scope string_scope.
Local Open Scope list_scope.
Local Open Scope Z_scope.

(** ** Dates *)

Module Date.

(** Milliseconds since 1970-01-01T00:00:00Z. *)
Definition t := Z.

Definition MS_PER_MINUTE : Z := 60 * 1000.
Definition MS_PER_HOUR : Z := 60 * 60 * 1000.
Definition MS_PER_DAY : Z := 24 * 60 * 60 * 1000.

(** Number of days between 1970-01-01 and the given proleptic Gregorian
    date (month 1..12, day 1..31).  This is the arithmetic behind the
    built-in [Date.UTC]. *)
Definition days_from_civil (y m d : Z) : Z :=
  let y' := if m <=? 2 then y - 1 else y in
  let era := y' / 400 in
  let yoe := y' - era * 400 in
  let mp := if 2 <? m then m - 3 else m + 9 in
  let doy := (153 * mp + 2) / 5 + d - 1 in
  let doe := yoe * 365 + yoe / 4 - yoe / 100 + doy in
  era * 146097 + doe - 719468.

(** The inverse: year, month and day of a day number. *)
Definition civil_from_days (z : Z) : Z * Z * Z :=
  let z := z + 719468 in
  let era := z / 146097 in
  let doe := z - era * 146097 in
  let yoe := (doe - doe / 1460 + doe / 36524 - doe / 146096) / 365 in
  let y := yoe + era * 400 in
  let doy := doe - (365 * yoe + yoe / 4 - yoe / 100) in
  let mp := (5 * doy + 2) / 153 in
  let d := doy - (153 * mp + 2) / 5 + 1 in
  let m := if mp <? 10 then mp + 3 else mp - 9 in
  (if m <=? 2 then y + 1 else y, m, d).

(** [date.getUTCFullYear()] *)
Definition getUTCFullYear (date : t) : Z :=
  (civil_from_days (date / MS_PER_DAY)).1.1.

(** [Date.UTC(y, m - 1, d, hh, mm)]: months are 1-based here. *)
Definition UTC (y m d hh mm : Z) : t :=
  days_from_civil y m d * MS_PER_DAY + hh * MS_PER_HOUR + mm * MS_PER_MINUTE.

Definition digit (z : Z) : string :=
  String (Ascii.ascii_of_nat (48 + Z.to_nat (z mod 10))) EmptyString.

Definition pad2 (z : Z) : string := digit (z / 10) +:+ digit z.
Definition pad4 (z : Z) : string := pad2 (z / 100) +:+ pad2 z.

(** MongoDB's [$dateToString] with format ['%Y-%m-%d'] and the default
    time zone (UTC), for a date in the years 0 to 9999.  For a date
    outside these years the aggregation raises an error instead of
    rendering it: such a run is one in which the database rejects the
    operation, and the text computed here (the year modulo 10000) is not
    what any run shows.  Statements that read the rendered date assume
    the years 0 to 9999. *)
Definition dateToString (date : t) : string :=
  let '(y, m, d) := civil_from_days (date / MS_PER_DAY) in
  pad4 y +:+ "-" +:+ pad2 m +:+ "-" +:+ pad2 d.

End Date.

(** ** Numbers

    A JavaScript number is an IEEE 754 double.  Where the source divides
    or rounds, the model computes as the double arithmetic is specified
    ([SpecFloat], round to nearest, ties to even). *)

Module Number.

Definition prec : Z := 53.
Definition emax : Z := 1024.

(** The double nearest to an integer; exact below [2^53]. *)
Definition ofZ (z : Z) : spec_float :=
  match z with
  | Z0 => S754_zero false
  | _ => binary_normalize prec emax z 0 false
  end.

Definition add (x y : spec_float) : spec_float := SFadd prec emax x y.
Definition div (x y : spec_float) : spec_float := SFdiv prec emax x y.
Definition mul (x y : spec_float) : spec_float := SFmul prec emax x y.

(** The value of a double that is an integer. *)
Definition toZ (x : spec_float) : Z :=
  match x with
  | S754_finite s m e =>
      let n := if s then Z.neg m else Z.pos m in
      if 0 <=? e then n * 2 ^ e else n / 2 ^ (- e)
  | _ => 0
  end.

(** [n + 1] for an integer [n]: the sum is exact below [2^53] and is
    rounded above. *)
Definition succ (n : Z) : Z :=
  if Z.abs n <? 2 ^ 53 then n + 1 else toZ (add (ofZ n) (ofZ 1)).

End Number.

Module Math.

(** [Math.round(x)]: the integer nearest to [x], a half going up. *)
Definition round (x : spec_float) : Z :=
  match x with
  | S754_finite s m e =>
      let n := if s then Z.neg m else Z.pos m in
      if 0 <=? e then n * 2 ^ e
      else (2 * n + 2 ^ (- e)) / 2 ^ (1 - e)
  | _ => 0
  end.

End Math.

(** ** Data model *)

(** A MongoDB [ObjectId]. *)
Abbreviation ObjectId := positive.

(** Modelled from the spec: the [User] model, whose file is not among the
    sources.  "User: name, email (unique), hashed password, preferences
    {theme, emailNotifications, pushNotifications, defaultCategory}."
    The notification service reads [name], [email] and
    [preferences.emailNotifications]; [_id] is the key of the
    collection. *)
Module User.

Record Preferences := mkPreferences {
  theme : string;
  emailNotifications : bool;
  pushNotifications : bool;
  defaultCategory : string
}.

Record t := mk {
  name : string;
  email : string;
  password : string;
  preferences : Preferences
}.

End User.

(** [taskSchema].  The fields kept are the ones some modelled operation
    reads or writes; [description], [priority], [dueTime], [subtasks],
    [tags], [order], the two durations and [notes] are plain data that no
    operation below depends on.  A missing date is [None] ([null] or
    [undefined] in the source). *)
Module Task.

Record t := mk {
  title : string;
  completed : bool;
  category : string;
  dueDate : option Date.t;
  reminderDate : option Date.t;
  userId : ObjectId;
  completedAt : option Date.t;
  createdAt : Date.t
}.

Definition set_title (v : string) (x : t) : t :=
  mk v (completed x) (category x) (dueDate x) (reminderDate x) (userId x)
     (completedAt x) (createdAt x).
Definition set_completed (v : bool) (x : t) : t :=
  mk (title x) v (category x) (dueDate x) (reminderDate x) (userId x)
     (completedAt x) (createdAt x).
Definition set_category (v : string) (x : t) : t :=
  mk (title x) (completed x) v (dueDate x) (reminderDate x) (userId x)
     (completedAt x) (createdAt x).
Definition set_dueDate (v : option Date.t) (x : t) : t :=
  mk (title x) (completed x) (category x) v (reminderDate x) (userId x)
     (completedAt x) (createdAt x).
Definition set_reminderDate (v : option Date.t) (x : t) : t :=
  mk (title x) (completed x) (category x) (dueDate x) v (userId x)
     (completedAt x) (createdAt x).
Definition set_userId (v : ObjectId) (x : t) : t :=
  mk (title x) (completed x) (category x) (dueDate x) (reminderDate x)
     v (completedAt x) (createdAt x).
Definition set_completedAt (v : option Date.t) (x : t) : t :=
  mk (title x) (completed x) (category x) (dueDate x) (reminderDate x)
     (userId x) v (createdAt x).
Definition set_createdAt (v : Date.t) (x : t) : t :=
  mk (title x) (completed x) (category x) (dueDate x) (reminderDate x)
     (userId x) (completedAt x) v.

End Task.

(** [categorySchema]. *)
Module Category.

Record t := mk {
  name : string;
  color : string;
  icon : string;
  description : option string;
  userId : ObjectId;
  isDefault : bool;
  order : Z
}.

Definition set_name (v : string) (x : t) : t :=
  mk v (color x) (icon x) (description x) (userId x) (isDefault x) (order x).
Definition set_color (v : string) (x : t) : t :=
  mk (name x) v (icon x) (description x) (userId x) (isDefault x) (order x).
Definition set_icon (v : string) (x : t) : t :=
  mk (name x) (color x) v (description x) (userId x) (isDefault x) (order x).
Definition set_description (v : option string) (x : t) : t :=
  mk (name x) (color x) (icon x) v (userId x) (isDefault x) (order x).
Definition set_userId (v : ObjectId) (x : t) : t :=
  mk (name x) (color x) (icon x) (description x) v (isDefault x) (order x).
Definition set_isDefault (v : bool) (x : t) : t :=
  mk (name x) (color x) (icon x) (description x) (userId x) v (order x).
Definition set_order (v : Z) (x : t) : t :=
  mk (name x) (color x) (icon x) (description x) (userId x) (isDefault x) v.

End Category.

(** The database: one finite map per collection. *)
Record Db := mkDb {
  tasks : gmap ObjectId Task.t;
  users : gmap ObjectId User.t;
  categories : gmap ObjectId Category.t
}.

Definition set_tasks (f : gmap ObjectId Task.t → gmap ObjectId Task.t)
    (s : Db) : Db :=
  mkDb (f (tasks s)) (users s) (categories s).

Definition set_categories
    (f : gmap ObjectId Category.t → gmap ObjectId Category.t) (s : Db) : Db :=
  mkDb (tasks s) (users s) (f (categories s)).

(** ** Mongoose documents

    A document in memory: its [_id], its current field values, whether it
    has been stored yet, and the paths assigned since it was loaded or
    constructed.  [set] is the behaviour of an assignment [doc[path] = v]:
    on a new document every assigned path counts as modified, on a stored
    one an assignment that does not change the value leaves the path
    unmodified.  [isModified] is the method the [pre('save')] hooks call. *)
Module Doc.

Record t (A : Type) := mk {
  _id : ObjectId;
  val : A;
  isNew : bool;
  modifiedPaths : list string
}.
Arguments mk {A} _ _ _ _.
Arguments _id {A} _.
Arguments val {A} _.
Arguments isNew {A} _.
Arguments modifiedPaths {A} _.

Definition isModified {A} (path : string) (d : t A) : bool :=
  bool_decide (path ∈ modifiedPaths d).

(** A document as [find] and [findOne] return it. *)
Definition hydrate {A} (id : ObjectId) (a : A) : t A := mk id a false [].

(** A document as [new Model(...)] builds it, before any path is set. *)
Definition create {A} (id : ObjectId) (defaults : A) : t A :=
  mk id defaults true [].

Definition set {A V} `{EqDecision V} (path : string) (get : A → V)
    (put : V → A → A) (v : V) (d : t A) : t A :=
  if isNew d || bool_decide (get (val d) ≠ v)
  then mk (_id d) (put v (val d)) (isNew d) (path :: modifiedPaths d)
  else d.

End Doc.

(** ** Effects

    What a handler or a job does besides computing: it reads and writes the
    database, sends mail through the nodemailer transporter, writes to the
    console, and may throw.  The environment fixes how the outside world
    answers: whether a transporter was configured, which [sendMail] calls
    reject, and which database operations reject. *)

(** The content a mail template is rendered from; the HTML text itself is
    string interpolation over these values. *)
Record WeeklyStats := mkWeeklyStats {
  completedTasks : nat;
  createdTasks : nat;
  completionRate : Z;
  streak : nat;
  topCategory : option (string * nat)
}.

Inductive Template :=
| ReminderEmailTemplate (user : User.t) (task : Task.t)
| DueSoonEmailTemplate (user : User.t) (due : list Task.t)
| WeeklySummaryTemplate (user : User.t) (summary : WeeklyStats).

Record Mail := mkMail {
  from : string;
  to : string;
  subject : string;
  html : Template
}.

(** Database operations, one constructor per call site. *)
Inductive DbOp :=
| Task_find_reminders
| Task_find_dueSoon (userId : ObjectId)
| Task_findOne (id userId : ObjectId)
| Task_save (id : ObjectId)
| Task_count_completedSince (userId : ObjectId)
| Task_count_createdSince (userId : ObjectId)
| Task_count_total (userId : ObjectId)
| Task_count_allCompleted (userId : ObjectId)
| Task_aggregate_topCategory (userId : ObjectId)
| Task_aggregate_recentDays (userId : ObjectId)
| Task_count_inCategory (userId : ObjectId) (name : string)
| User_find_emailNotifications
| Category_findOne (id userId : ObjectId)
| Category_findOne_byName (userId : ObjectId) (name : string)
| Category_findOne_last (userId : ObjectId)
| Category_updateMany_clearDefault (userId id : ObjectId)
| Category_save (id : ObjectId)
| Category_findByIdAndDelete (id : ObjectId).

Inductive Error :=
| DbError (op : DbOp)
| MailError (m : Mail)
| ValidationError (path : string).

(** The methods of the notification dispatcher, recorded when called. *)
Inductive Call :=
| sendTaskReminder_called (userId taskId : ObjectId)
| sendTaskDueSoonNotification_called (userId : ObjectId) (n : nat)
| sendWeeklySummary_called (userId : ObjectId).

(** What a run leaves behind, in order: the database operations it
    issued and whether each was answered, the dispatcher methods it
    called, the mails it handed to the transporter and whether each was
    accepted, and its console output. *)
Inductive Event :=
| EvDb (op : DbOp) (ok : bool)
| EvCall (c : Call)
| EvSendMail (m : Mail) (ok : bool)
| EvConsole (msg : string).

Record Env := mkEnv {
  transporter : bool;
  EMAIL_USER : string;
  sendMail_rejects : Mail → bool;
  db_rejects : DbOp → bool
}.

Inductive Result (A : Type) :=
| Ok (a : A)
| Throw (e : Error).
Arguments Ok {A} _.
Arguments Throw {A} _.

(** State over the database, a writer of events, and exceptions. *)
Definition M (A : Type) : Type := Db → Result A * Db * list Event.

Definition result {A} (o : Result A * Db * list Event) : Result A := o.1.1.
Definition final {A} (o : Result A * Db * list Event) : Db := o.1.2.
Definition events {A} (o : Result A * Db * list Event) : list Event := o.2.

#[global] Instance M_ret : MRet M := λ A a s, (Ok a, s, []).

#[global] Instance M_bind : MBind M := λ A B f m s,
  match m s with
  | (Ok a, s1, t1) =>
      match f a s1 with
      | (r, s2, t2) => (r, s2, t1 ++ t2)
      end
  | (Throw e, s1, t1) => (Throw e, s1, t1)
  end.

Definition throw {A} (e : Error) : M A := λ s, (Throw e, s, []).

(** [try { m } catch (e) { h e }] *)
Definition try_catch {A} (m : M A) (h : Error → M A) : M A := λ s,
  match m s with
  | (Ok a, s1, t1) => (Ok a, s1, t1)
  | (Throw e, s1, t1) =>
      match h e s1 with
      | (r, s2, t2) => (r, s2, t1 ++ t2)
      end
  end.

Definition emit (e : Event) : M unit := λ s, (Ok tt, s, [e]).
Definition gets {A} (f : Db → A) : M A := λ s, (Ok (f s), s, []).
Definition modify (f : Db → Db) : M unit := λ s, (Ok tt, f s, []).

(** A round trip to the database: it rejects when the environment says so,
    before any effect on the collections. *)
Definition db (env : Env) (op : DbOp) : M unit := λ s,
  if db_rejects env op then (Throw (DbError op), s, [EvDb op false])
  else (Ok tt, s, [EvDb op true]).

(** [for (const x of l) { await body(x) }] *)
Fixpoint for_of {A} (l : list A) (body : A → M unit) : M unit :=
  match l with
  | [] => mret tt
  | x :: rest => body x ;; for_of rest body
  end.

Definition console (msg : string) : M unit := emit (EvConsole msg).

(** [transporter.sendMail(m)] *)
Definition sendMail (env : Env) (m : Mail) : M unit :=
  if sendMail_rejects env m then
    emit (EvSendMail m false) ;; throw (MailError m)
  else emit (EvSendMail m true).

(** ** Models *)

(** [doc[key] = value] for a key the request may or may not carry. *)
Definition set_opt {A V} `{EqDecision V} (path : string) (get : A → V)
    (put : V → A → A) (v : option V) (d : Doc.t A) : Doc.t A :=
  match v with
  | Some v => Doc.set path get put v d
  | None => d
  end.

Module TaskModel.

(** [taskSchema.pre('save')]: the middleware that stamps [completedAt]. *)
Definition pre_save (now : Date.t) (this : Doc.t Task.t) : Doc.t Task.t :=
  if Doc.isModified "completed" this then
    if Task.completed (Doc.val this) then
      Doc.set "completedAt" Task.completedAt Task.set_completedAt (Some now) this
    else
      Doc.set "completedAt" Task.completedAt Task.set_completedAt None this
  else this.

(** The [timestamps: true] option: [createdAt] is stamped on first save. *)
Definition timestamps (now : Date.t) (this : Doc.t Task.t) : Doc.t Task.t :=
  if Doc.isNew this
  then Doc.mk (Doc._id this) (Task.set_createdAt now (Doc.val this))
         (Doc.isNew this) (Doc.modifiedPaths this)
  else this.

(** [task.save()]: middleware first, then the write.  Schema validation
    is left out: it only concerns fields no operation below changes to
    an invalid value.  Two simplifications: the write is issued also when
    no path of the document is modified (Mongoose then sends nothing, so
    that nothing can reject), and [updatedAt], which [timestamps] bumps
    on every write, is not among the fields of [Task.t]. *)
Definition save (env : Env) (now : Date.t) (this : Doc.t Task.t) : M unit :=
  let this := timestamps now (pre_save now this) in
  db env (Task_save (Doc._id this)) ;;
  modify (set_tasks (<[Doc._id this := Doc.val this]>)).

(** [Task.findOne({ _id: id, userId })] *)
Definition findOne (env : Env) (id userId : ObjectId)
    : M (option (Doc.t Task.t)) :=
  db env (Task_findOne id userId) ;;
  gets (λ s,
    match tasks s !! id with
    | Some x =>
        if decide (Task.userId x = userId) then Some (Doc.hydrate id x)
        else None
    | None => None
    end).

(** The documents of a collection that match a query, as [find] lists
    them. *)
Definition find (q : Task.t → bool) (coll : gmap ObjectId Task.t)
    : list (ObjectId * Task.t) :=
  map_to_list (filter (λ kv, q kv.2 = true) coll).

(** [countDocuments(q)] *)
Definition countDocuments (q : Task.t → bool) (coll : gmap ObjectId Task.t)
    : nat :=
  length (find q coll).

(** [{ completed: false, reminderDate: { $gte: now, $lte: reminderWindow } }];
    a comparison against a missing date does not match. *)
Definition reminder_query (now reminderWindow : Date.t) (x : Task.t) : bool :=
  negb (Task.completed x) &&
  match Task.reminderDate x with
  | Some r => (now <=? r) && (r <=? reminderWindow)
  | None => false
  end.

(** [{ userId, completed: false, dueDate: { $lte: tomorrow } }] *)
Definition dueSoon_query (userId : ObjectId) (tomorrow : Date.t) (x : Task.t)
    : bool :=
  bool_decide (Task.userId x = userId) && negb (Task.completed x) &&
  match Task.dueDate x with
  | Some d => d <=? tomorrow
  | None => false
  end.

(** [{ userId, completed: true, completedAt: { $gte: startDate } }] *)
Definition completedSince_query (userId : ObjectId) (startDate : Date.t)
    (x : Task.t) : bool :=
  bool_decide (Task.userId x = userId) && Task.completed x &&
  match Task.completedAt x with
  | Some c => startDate <=? c
  | None => false
  end.

(** [{ userId, createdAt: { $gte: startDate } }] *)
Definition createdSince_query (userId : ObjectId) (startDate : Date.t)
    (x : Task.t) : bool :=
  bool_decide (Task.userId x = userId) && (startDate <=? Task.createdAt x).

(** [{ userId }] and [{ userId, completed: true }] *)
Definition owner_query (userId : ObjectId) (x : Task.t) : bool :=
  bool_decide (Task.userId x = userId).
Definition ownerCompleted_query (userId : ObjectId) (x : Task.t) : bool :=
  bool_decide (Task.userId x = userId) && Task.completed x.

(** [{ userId, category: name }] *)
Definition inCategory_query (userId : ObjectId) (name : string) (x : Task.t)
    : bool :=
  bool_decide (Task.userId x = userId) && bool_decide (Task.category x = name).

End TaskModel.

Module CategoryModel.

(** [updateMany({ userId, _id: { $ne: id } }, { $set: { isDefault: false } })] *)
Definition clearDefault (userId id : ObjectId)
    (coll : gmap ObjectId Category.t) : gmap ObjectId Category.t :=
  map_imap (λ i c,
    Some (if bool_decide (Category.userId c = userId ∧ i ≠ id)
          then Category.set_isDefault false c else c)) coll.

(** [categorySchema.pre('save')]: a category that becomes the default
    takes the flag away from the user's other categories. *)
Definition pre_save (env : Env) (this : Doc.t Category.t) : M unit :=
  if Category.isDefault (Doc.val this) && Doc.isModified "isDefault" this then
    let userId := Category.userId (Doc.val this) in
    db env (Category_updateMany_clearDefault userId (Doc._id this)) ;;
    modify (set_categories (clearDefault userId (Doc._id this)))
  else mret tt.

(** [category.save()] *)
Definition save (env : Env) (this : Doc.t Category.t) : M unit :=
  pre_save env this ;;
  db env (Category_save (Doc._id this)) ;;
  modify (set_categories (<[Doc._id this := Doc.val this]>)).

(** [Category.findOne({ _id: id, userId })] *)
Definition findOne (env : Env) (id userId : ObjectId)
    : M (option (Doc.t Category.t)) :=
  db env (Category_findOne id userId) ;;
  gets (λ s,
    match categories s !! id with
    | Some c =>
        if decide (Category.userId c = userId) then Some (Doc.hydrate id c)
        else None
    | None => None
    end).

Definition find (q : ObjectId → Category.t → bool)
    (coll : gmap ObjectId Category.t) : list (ObjectId * Category.t) :=
  map_to_list (filter (λ kv, q kv.1 kv.2 = true) coll).

(** [Category.findOne({ userId, name, _id: { $ne: except } })]; only
    whether a match exists is used. *)
Definition existsByName (env : Env) (userId : ObjectId) (name : string)
    (except : option ObjectId) : M bool :=
  db env (Category_findOne_byName userId name) ;;
  gets (λ s,
    bool_decide (find (λ i c,
      bool_decide (Category.userId c = userId) &&
      bool_decide (Category.name c = name) &&
      bool_decide (Some i ≠ except)) (categories s) ≠ [])).

(** [Category.findOne({ userId }).sort({ order: -1 })]: the highest
    [order] among the user's categories, if there is any. *)
Definition lastOrder (env : Env) (userId : ObjectId) : M (option Z) :=
  db env (Category_findOne_last userId) ;;
  gets (λ s,
    foldr (λ kv best,
             match best with
             | Some m => Some (Z.max (Category.order kv.2) m)
             | None => Some (Category.order kv.2)
             end)
          None
          (find (λ _ c, bool_decide (Category.userId c = userId))
                (categories s))).

(** [Category.findByIdAndDelete(id)] *)
Definition findByIdAndDelete (env : Env) (id : ObjectId) : M unit :=
  db env (Category_findByIdAndDelete id) ;;
  modify (set_categories (delete id)).

End CategoryModel.

(** ** Route handlers

    A request carries the authenticated user ([req.user._id]), the [:id]
    parameter, whether express-validator found the body well formed
    ([validationResult(req).isEmpty()]) and the body.  The body is typed:
    a key is absent ([None]) or present with a value the validators and
    the schema casts accept.  The validators reject a [null] [dueDate], so
    [dueDate] is absent or a date; [reminderDate] and [completedAt] have no
    validator and may be [null] ([Some None]).

    The handlers copy every key of the body onto the document.  A body
    type lists the keys a request of this model can carry: for a task
    [title], [completed], [category], [dueDate], [reminderDate],
    [completedAt] and [userId]; for a category [name], [color], [icon],
    [description], [isDefault], [userId] and [order].  A request whose
    body carries another key ([_id], [subtasks], [priority] or [tags] of
    a task) is not a request of this model, and statements about "a
    body" are about bodies made of the listed keys. *)

Record Request (B : Type) := mkRequest {
  user : ObjectId;
  params_id : ObjectId;
  validation_isEmpty : bool;
  body : B
}.
Arguments mkRequest {B} _ _ _ _.
Arguments user {B} _.
Arguments params_id {B} _.
Arguments validation_isEmpty {B} _.
Arguments body {B} _.

(** The JSON envelope [{ success, message }] with the HTTP status. *)
Record Response := mkResponse {
  status : Z;
  success : bool;
  message : string
}.

Module TaskBody.

Record t := mk {
  title : option string;
  completed : option bool;
  category : option string;
  dueDate : option Date.t;
  reminderDate : option (option Date.t);
  completedAt : option (option Date.t);
  userId : option ObjectId
}.

Definition set_reminderDate (v : option (option Date.t)) (b : t) : t :=
  mk (title b) (completed b) (category b) (dueDate b) v (completedAt b)
     (userId b).
Definition set_userId (v : option ObjectId) (b : t) : t :=
  mk (title b) (completed b) (category b) (dueDate b) (reminderDate b)
     (completedAt b) v.

End TaskBody.

Module TaskRoutes.

(** [Object.keys(body).forEach(key => { task[key] = body[key] })], also
    what [new Task(body)] does with the keys it is given. *)
Definition assign (b : TaskBody.t) (d : Doc.t Task.t) : Doc.t Task.t :=
  let d := set_opt "title" Task.title Task.set_title (TaskBody.title b) d in
  let d := set_opt "completed" Task.completed Task.set_completed
             (TaskBody.completed b) d in
  let d := set_opt "category" Task.category Task.set_category
             (TaskBody.category b) d in
  let d := set_opt "dueDate" Task.dueDate Task.set_dueDate
             (Some <$> TaskBody.dueDate b) d in
  let d := set_opt "reminderDate" Task.reminderDate Task.set_reminderDate
             (TaskBody.reminderDate b) d in
  let d := set_opt "completedAt" Task.completedAt Task.set_completedAt
             (TaskBody.completedAt b) d in
  set_opt "userId" Task.userId Task.set_userId (TaskBody.userId b) d.

(** The schema defaults of a task owned by [userId]. *)
Definition defaults (userId : ObjectId) : Task.t :=
  Task.mk "" false "" None None userId None 0.

(** [POST /api/tasks].  The [_id] of the new document is one the
    collection does not use yet.  [{ ...req.body, userId: req.user._id }]
    replaces a [userId] the body may carry. *)
Definition post (env : Env) (now : Date.t) (req : Request TaskBody.t)
    : M Response :=
  try_catch
    (if negb (validation_isEmpty req) then
       mret (mkResponse 400 false "Validation failed")
     else
       let taskData := TaskBody.set_userId (Some (user req)) (body req) in
       let taskData :=
         match TaskBody.dueDate taskData with
         | Some dueDate =>
             TaskBody.set_reminderDate
               (Some (Some (dueDate - 60 * 60 * 1000))) taskData
         | None => taskData
         end in
       id ← gets (λ s, fresh (dom (tasks s))) ;
       let task := assign taskData (Doc.create id (defaults (user req))) in
       (if bool_decide (Task.title (Doc.val task) = "") then
          throw (ValidationError "title")
        else if bool_decide (Task.category (Doc.val task) = "") then
          throw (ValidationError "category")
        else mret tt) ;;
       TaskModel.save env now task ;;
       mret (mkResponse 201 true "Task created successfully"))
    (λ error,
       console "Create task error:" ;;
       mret (mkResponse 500 false "Server error creating task")).

(** [PUT /api/tasks/:id] *)
Definition put (env : Env) (now : Date.t) (req : Request TaskBody.t)
    : M Response :=
  try_catch
    (if negb (validation_isEmpty req) then
       mret (mkResponse 400 false "Validation failed")
     else
       found ← TaskModel.findOne env (params_id req) (user req) ;
       match found with
       | None => mret (mkResponse 404 false "Task not found")
       | Some task =>
           let task := assign (body req) task in
           let task :=
             match TaskBody.dueDate (body req) with
             | Some dueDate =>
                 Doc.set "reminderDate" Task.reminderDate
                   Task.set_reminderDate
                   (Some (dueDate - 60 * 60 * 1000)) task
             | None => task
             end in
           TaskModel.save env now task ;;
           mret (mkResponse 200 true "Task updated successfully")
       end)
    (λ error,
       console "Update task error:" ;;
       mret (mkResponse 500 false "Server error updating task")).

End TaskRoutes.

Module CategoryBody.

(** [userId] and [order] are not keys the client is meant to send, but
    the update handler copies every key of the body onto the document. *)
Record t := mk {
  name : option string;
  color : option string;
  icon : option string;
  description : option string;
  isDefault : option bool;
  userId : option ObjectId;
  order : option Z
}.

End CategoryBody.

Module CategoryRoutes.

(** [Object.keys(req.body).forEach(key => { category[key] = req.body[key] })] *)
Definition assign (b : CategoryBody.t) (d : Doc.t Category.t)
    : Doc.t Category.t :=
  let d := set_opt "name" Category.name Category.set_name
             (CategoryBody.name b) d in
  let d := set_opt "color" Category.color Category.set_color
             (CategoryBody.color b) d in
  let d := set_opt "icon" Category.icon Category.set_icon
             (CategoryBody.icon b) d in
  let d := set_opt "description" Category.description
             Category.set_description
             (Some <$> CategoryBody.description b) d in
  let d := set_opt "isDefault" Category.isDefault Category.set_isDefault
             (CategoryBody.isDefault b) d in
  let d := set_opt "userId" Category.userId Category.set_userId
             (CategoryBody.userId b) d in
  set_opt "order" Category.order Category.set_order (CategoryBody.order b) d.

(** The schema defaults of a category owned by [userId]. *)
Definition defaults (userId : ObjectId) : Category.t :=
  Category.mk "" "#3B82F6" "folder" None userId false 0.

(** [value || fallback] on a string: the empty string is falsy. *)
Definition or_string (v : option string) (fallback : string) : string :=
  match v with
  | Some x => if bool_decide (x = "") then fallback else x
  | None => fallback
  end.

(** [POST /api/categories].  [lastCategory.order + 1] is a sum of
    doubles ([Number.succ]). *)
Definition post (env : Env) (req : Request CategoryBody.t) : M Response :=
  try_catch
    (if negb (validation_isEmpty req) then
       mret (mkResponse 400 false "Validation failed")
     else
       let b := body req in
       match CategoryBody.name b with
       | None => throw (ValidationError "name")
       | Some name =>
           existing ← CategoryModel.existsByName env (user req) name None ;
           if existing : bool then
             mret (mkResponse 400 false
                     "Category with this name already exists")
           else
             lastCategory ← CategoryModel.lastOrder env (user req) ;
             let order :=
               match lastCategory with
               | Some o => Number.succ o
               | None => 0
               end in
             id ← gets (λ s, fresh (dom (categories s))) ;
             let category :=
               assign
                 (CategoryBody.mk (Some name) (CategoryBody.color b)
                    (Some (or_string (CategoryBody.icon b) "folder"))
                    (CategoryBody.description b)
                    (Some (default false (CategoryBody.isDefault b)))
                    (Some (user req)) None)
                 (Doc.create id (defaults (user req))) in
             let category :=
               Doc.set "order" Category.order Category.set_order order
                 category in
             CategoryModel.save env category ;;
             mret (mkResponse 201 true "Category created successfully")
       end)
    (λ error,
       console "Create category error:" ;;
       mret (mkResponse 500 false "Server error creating category")).

(** [PUT /api/categories/:id] *)
Definition put (env : Env) (req : Request CategoryBody.t) : M Response :=
  try_catch
    (if negb (validation_isEmpty req) then
       mret (mkResponse 400 false "Validation failed")
     else
       found ← CategoryModel.findOne env (params_id req) (user req) ;
       match found with
       | None => mret (mkResponse 404 false "Category not found")
       | Some category =>
           conflict ←
             match CategoryBody.name (body req) with
             | Some name =>
                 if bool_decide (name ≠ "") &&
                    bool_decide (name ≠ Category.name (Doc.val category))
                 then CategoryModel.existsByName env (user req) name
                        (Some (params_id req))
                 else mret false
             | None => mret false
             end ;
           if conflict : bool then
             mret (mkResponse 400 false
                     "Category with this name already exists")
           else
             let category := assign (body req) category in
             CategoryModel.save env category ;;
             mret (mkResponse 200 true "Category updated successfully")
       end)
    (λ error,
       console "Update category error:" ;;
       mret (mkResponse 500 false "Server error updating category")).

(** [DELETE /api/categories/:id] *)
Definition delete (env : Env) (req : Request unit) : M Response :=
  try_catch
    (found ← CategoryModel.findOne env (params_id req) (user req) ;
     match found with
     | None => mret (mkResponse 404 false "Category not found")
     | Some category =>
         let name := Category.name (Doc.val category) in
         db env (Task_count_inCategory (user req) name) ;;
         tasksInCategory ← gets (λ s,
           TaskModel.countDocuments
             (TaskModel.inCategory_query (user req) name) (tasks s)) ;
         if bool_decide (0 < tasksInCategory)%nat then
           mret (mkResponse 400 false
                   ("Cannot delete category. It contains " +:+
                    pretty tasksInCategory +:+
                    " task(s). Please move or delete the tasks first."))
         else
           CategoryModel.findByIdAndDelete env (params_id req) ;;
           mret (mkResponse 200 true "Category deleted successfully")
     end)
    (λ error,
       console "Delete category error:" ;;
       mret (mkResponse 500 false "Server error deleting category")).

End CategoryRoutes.

(** ** Notification service *)

Module NotificationService.

(** [sendTaskReminder(user, task)] *)
Definition sendTaskReminder (env : Env) (userId : ObjectId) (user : User.t)
    (task : Doc.t Task.t) : M unit :=
  emit (EvCall (sendTaskReminder_called userId (Doc._id task))) ;;
  if negb (transporter env) ||
     negb (User.emailNotifications (User.preferences user))
  then mret tt
  else
    let subject := "Reminder: " +:+ Task.title (Doc.val task) in
    let html := ReminderEmailTemplate user (Doc.val task) in
    try_catch
      (sendMail env (mkMail (EMAIL_USER env) (User.email user) subject html) ;;
       console ("Reminder email sent to " +:+ User.email user +:+
                " for task: " +:+ Task.title (Doc.val task)))
      (λ error, console "Failed to send reminder email:").

(** [sendTaskDueSoonNotification(user, tasks)] *)
Definition sendTaskDueSoonNotification (env : Env) (userId : ObjectId)
    (user : User.t) (due : list Task.t) : M unit :=
  emit (EvCall (sendTaskDueSoonNotification_called userId (length due))) ;;
  if negb (transporter env) ||
     negb (User.emailNotifications (User.preferences user)) ||
     bool_decide (length due = 0%nat)
  then mret tt
  else
    let subject :=
      pretty (length due) +:+ " task" +:+
      (if bool_decide (1 < length due)%nat then "s" else "") +:+
      " due soon" in
    let html := DueSoonEmailTemplate user due in
    try_catch
      (sendMail env (mkMail (EMAIL_USER env) (User.email user) subject html) ;;
       console ("Due soon notification sent to " +:+ User.email user +:+
                " for " +:+ pretty (length due) +:+ " tasks"))
      (λ error, console "Failed to send due soon notification:").

(** [sendWeeklySummary(user, summary)] *)
Definition sendWeeklySummary (env : Env) (userId : ObjectId) (user : User.t)
    (summary : WeeklyStats) : M unit :=
  emit (EvCall (sendWeeklySummary_called userId)) ;;
  if negb (transporter env) ||
     negb (User.emailNotifications (User.preferences user))
  then mret tt
  else
    let subject := "Your Weekly Productivity Summary" in
    let html := WeeklySummaryTemplate user summary in
    try_catch
      (sendMail env (mkMail (EMAIL_USER env) (User.email user) subject html) ;;
       console ("Weekly summary sent to " +:+ User.email user))
      (λ error, console "Failed to send weekly summary:").

(** [.populate('userId')]: the owner's document, or [null] when the user
    no longer exists. *)
Definition populate (s : Db) (entry : ObjectId * Task.t)
    : Doc.t Task.t * option User.t :=
  (Doc.hydrate entry.1 entry.2, users s !! Task.userId entry.2).

(** The body of the loop of [checkAndSendReminders]. *)
Definition remind (env : Env) (now : Date.t)
    (entry : Doc.t Task.t * option User.t) : M unit :=
  let task := entry.1 in
  match entry.2 with
  | Some owner =>
      if User.emailNotifications (User.preferences owner) then
        sendTaskReminder env (Task.userId (Doc.val task)) owner task ;;
        let task :=
          Doc.set "reminderDate" Task.reminderDate Task.set_reminderDate
            None task in
        TaskModel.save env now task
      else mret tt
  | None => mret tt
  end.

(** The tasks a scan at [now] asks the database for. *)
Definition tasksToRemind (now : Date.t) (coll : gmap ObjectId Task.t)
    : list (ObjectId * Task.t) :=
  let reminderWindow := now + 15 * 60 * 1000 in
  TaskModel.find (TaskModel.reminder_query now reminderWindow) coll.

(** [checkAndSendReminders()], run when the clock reads [now]. *)
Definition checkAndSendReminders (env : Env) (now : Date.t) : M unit :=
  try_catch
    (db env Task_find_reminders ;;
     found ← gets (λ s, populate s <$> tasksToRemind now (tasks s)) ;
     for_of found (remind env now))
    (λ error, console "Error checking reminders:").

(** [User.find({ 'preferences.emailNotifications': true })] *)
Definition usersToNotify (coll : gmap ObjectId User.t)
    : list (ObjectId * User.t) :=
  map_to_list
    (filter (λ kv, User.emailNotifications (User.preferences kv.2) = true)
            coll).

(** End of the following day; the server clock is taken to run in UTC. *)
Definition endOfTomorrow (now : Date.t) : Date.t :=
  (now / Date.MS_PER_DAY + 2) * Date.MS_PER_DAY - 1.

(** The body of the loop of [sendDailySummary]. *)
Definition dailyFor (env : Env) (tomorrow : Date.t)
    (entry : ObjectId * User.t) : M unit :=
  db env (Task_find_dueSoon entry.1) ;;
  dueSoonTasks ← gets (λ s,
    take 10 (TaskModel.find (TaskModel.dueSoon_query entry.1 tomorrow)
               (tasks s)).*2) ;
  if bool_decide (0 < length dueSoonTasks)%nat then
    sendTaskDueSoonNotification env entry.1 entry.2 dueSoonTasks
  else mret tt.

(** [sendDailySummary()] *)
Definition sendDailySummary (env : Env) (now : Date.t) : M unit :=
  try_catch
    (let tomorrow := endOfTomorrow now in
     db env User_find_emailNotifications ;;
     found ← gets (λ s, usersToNotify (users s)) ;
     for_of found (dailyFor env tomorrow))
    (λ error, console "Error sending daily summaries:").

(** [$group: { _id: key, count: { $sum: 1 } }]: one group per distinct
    key, with the number of documents that have it. *)
Definition group_count (keys : list string) : gmap string nat :=
  foldr (λ k g, <[k := S (default 0%nat (g !! k))]> g) ∅ keys.

(** [$sort: { count: -1 }] then [$limit: 1]: a group of greatest count
    (the database does not say which one among equals). *)
Definition top (groups : list (string * nat)) : option (string * nat) :=
  foldr (λ g best,
           match best with
           | Some b => if (b.2 <? g.2)%nat then Some g else Some b
           | None => Some g
           end) None groups.

(** [totalTasks > 0 ? Math.round((allCompleted / totalTasks) * 100) : 0] *)
Definition percent (allCompleted totalTasks : nat) : Z :=
  if bool_decide (0 < totalTasks)%nat then
    Math.round
      (Number.mul
         (Number.div (Number.ofZ (Z.of_nat allCompleted))
            (Number.ofZ (Z.of_nat totalTasks)))
         (Number.ofZ 100))
  else 0.

(** The completion days of the window: the aggregation behind [streak]. *)
Definition recentDays (userId : ObjectId) (startDate : Date.t)
    (coll : gmap ObjectId Task.t) : list (string * nat) :=
  map_to_list
    (group_count
       (omap (λ kv, Date.dateToString <$> Task.completedAt kv.2)
          (TaskModel.find (TaskModel.completedSince_query userId startDate)
             coll))).

(** [generateWeeklyStats(userId, startDate)] *)
Definition generateWeeklyStats (env : Env) (userId : ObjectId)
    (startDate : Date.t) : M WeeklyStats :=
  db env (Task_count_completedSince userId) ;;
  completedTasks ← gets (λ s,
    TaskModel.countDocuments
      (TaskModel.completedSince_query userId startDate) (tasks s)) ;
  db env (Task_count_createdSince userId) ;;
  createdTasks ← gets (λ s,
    TaskModel.countDocuments
      (TaskModel.createdSince_query userId startDate) (tasks s)) ;
  db env (Task_count_total userId) ;;
  totalTasks ← gets (λ s,
    TaskModel.countDocuments (TaskModel.owner_query userId) (tasks s)) ;
  db env (Task_count_allCompleted userId) ;;
  allCompleted ← gets (λ s,
    TaskModel.countDocuments (TaskModel.ownerCompleted_query userId)
      (tasks s)) ;
  let completionRate := percent allCompleted totalTasks in
  db env (Task_aggregate_topCategory userId) ;;
  topCategory ← gets (λ s,
    top (map_to_list
           (group_count
              ((λ kv, Task.category kv.2) <$>
               TaskModel.find
                 (TaskModel.completedSince_query userId startDate)
                 (tasks s))))) ;
  db env (Task_aggregate_recentDays userId) ;;
  days ← gets (λ s, recentDays userId startDate (tasks s)) ;
  mret (mkWeeklyStats completedTasks createdTasks completionRate
          (length days) topCategory).

(** Seven days before [now]; the server clock is taken to run in UTC. *)
Definition oneWeekAgo (now : Date.t) : Date.t := now - 7 * Date.MS_PER_DAY.

(** The body of the loop of [sendWeeklySummaries]. *)
Definition weeklyFor (env : Env) (startDate : Date.t)
    (entry : ObjectId * User.t) : M unit :=
  weeklyStats ← generateWeeklyStats env entry.1 startDate ;
  sendWeeklySummary env entry.1 entry.2 weeklyStats.

(** [sendWeeklySummaries()] *)
Definition sendWeeklySummaries (env : Env) (now : Date.t) : M unit :=
  try_catch
    (let oneWeekAgo := oneWeekAgo now in
     db env User_find_emailNotifications ;;
     found ← gets (λ s, usersToNotify (users s)) ;
     for_of found (weeklyFor env oneWeekAgo))
    (λ error, console "Error sending weekly summaries:").

End NotificationService.

(** ** Vocabulary of the statements *)

(** No database operation rejects during the run. *)
Definition reliable (env : Env) : Prop := ∀ op, db_rejects env op = false.

(** A run of reminder scans, one after the other, each with its own
    environment and clock reading; the events of all of them. *)
Fixpoint scans (runs : list (Env * Date.t)) (s : Db) : Db * list Event :=
  match runs with
  | [] => (s, [])
  | (env, now) :: rest =>
      let o := NotificationService.checkAndSendReminders env now s in
      let r := scans rest (final o) in
      (r.1, events o ++ r.2)
  end.

(** What a scan over the database [s] may emit: a call of the dispatcher
    or a mail only for an owner who has notifications enabled. *)
Definition reminder_event_ok (s : Db) (ev : Event) : Prop :=
  match ev with
  | EvCall (sendTaskReminder_called userId _) =>
      ∃ owner, users s !! userId = Some owner ∧
               User.emailNotifications (User.preferences owner) = true
  | EvCall _ => False
  | EvSendMail m _ =>
      ∃ owner x, html m = ReminderEmailTemplate owner x ∧
                 to m = User.email owner ∧
                 User.emailNotifications (User.preferences owner) = true
  | _ => True
  end.

(** The task's reminder is cleared: a state of the database that no
    iteration of the scan ever leaves. *)
Definition cleared (id : ObjectId) (s : Db) : Prop :=
  ∃ x, tasks s !! id = Some x ∧ Task.reminderDate x = None.

(** The daily job got as far as asking for the user's due-soon tasks. *)
Definition processedDaily (userId : ObjectId) (t : list Event) : Prop :=
  ∃ ok, EvDb (Task_find_dueSoon userId) ok ∈ t.

(** The weekly job got as far as the first query of the user's summary. *)
Definition processedWeekly (userId : ObjectId) (t : list Event) : Prop :=
  ∃ ok, EvDb (Task_count_completedSince userId) ok ∈ t.

(** The document [PUT /api/tasks/:id] saves for a stored task [x0]. *)
Definition updated (req : Request TaskBody.t) (x0 : Task.t) : Doc.t Task.t :=
  let task := TaskRoutes.assign (body req) (Doc.hydrate (params_id req) x0) in
  match TaskBody.dueDate (body req) with
  | Some dueDate =>
      Doc.set "reminderDate" Task.reminderDate Task.set_reminderDate
        (Some (dueDate - 60 * 60 * 1000)) task
  | None => task
  end.

(** The document [POST /api/tasks] saves when the database is [s]. *)
Definition created (req : Request TaskBody.t) (s : Db) : Doc.t Task.t :=
  let taskData := TaskBody.set_userId (Some (user req)) (body req) in
  let taskData :=
    match TaskBody.dueDate taskData with
    | Some dueDate =>
        TaskBody.set_reminderDate
          (Some (Some (dueDate - 60 * 60 * 1000))) taskData
    | None => taskData
    end in
  TaskRoutes.assign taskData
    (Doc.create (fresh (dom (tasks s))) (TaskRoutes.defaults (user req))).

(** [completedAt] is present exactly on completed tasks. *)
Definition completedAt_iff_completed (x : Task.t) : Prop :=
  Task.completedAt x ≠ None ↔ Task.completed x = true.

(** Some task of [userId] is filed under the category called [name]. *)
Definition referenced (userId : ObjectId) (name : string)
    (coll : gmap ObjectId Task.t) : Prop :=
  ∃ id x, coll !! id = Some x ∧ Task.userId x = userId ∧
          Task.category x = name.

(** The default categories of a user. *)
Definition defaultsOf (userId : ObjectId) (coll : gmap ObjectId Category.t)
    : gmap ObjectId Category.t :=
  filter (λ kv, Category.userId kv.2 = userId ∧ Category.isDefault kv.2 = true)
         coll.

(** Every user has at most one default category. *)
Definition oneDefaultPerUser (coll : gmap ObjectId Category.t) : Prop :=
  ∀ userId, (size (defaultsOf userId coll) ≤ 1)%nat.

(** ** Sample data

    Alice (user 1) and Carol (user 3) have mail notifications on, Bob
    (user 2) has them off.  Each has one open task due on 2024-01-10 at
    10:00Z with its reminder an hour earlier. *)

Definition alice : User.t :=
  User.mk "Alice" "alice@example.org" "$2a$10$alice"
    (User.mkPreferences "light" true false "Work").
Definition bob : User.t :=
  User.mk "Bob" "bob@example.org" "$2a$10$bob"
    (User.mkPreferences "dark" false false "Health").
Definition carol : User.t :=
  User.mk "Carol" "carol@example.org" "$2a$10$carol"
    (User.mkPreferences "light" true false "Errands").

Definition report : Task.t :=
  Task.mk "Report" false "Work" (Some (Date.UTC 2024 1 10 10 0))
    (Some (Date.UTC 2024 1 10 9 0)) 1%positive None (Date.UTC 2024 1 8 12 0).
Definition gym : Task.t :=
  Task.mk "Gym" false "Health" (Some (Date.UTC 2024 1 10 10 0))
    (Some (Date.UTC 2024 1 10 9 0)) 2%positive None (Date.UTC 2024 1 8 12 0).
Definition taxes : Task.t :=
  Task.mk "Taxes" false "Home" (Some (Date.UTC 2024 1 10 10 0))
    (Some (Date.UTC 2024 1 10 9 0)) 3%positive None (Date.UTC 2024 1 8 12 0).

(** Alice and Bob with their tasks. *)
Definition db0 : Db :=
  mkDb (<[1%positive := report]> (<[2%positive := gym]> ∅))
       (<[1%positive := alice]> (<[2%positive := bob]> ∅))
       ∅.

(** Alice, Bob and Carol with their tasks. *)
Definition db1 : Db :=
  mkDb (<[1%positive := report]> (<[2%positive := gym]>
          (<[3%positive := taxes]> ∅)))
       (<[1%positive := alice]> (<[2%positive := bob]>
          (<[3%positive := carol]> ∅)))
       ∅.

(** Alice's categories "Work" (her default) and "Home", and Carol's
    default category "Errands", next to the tasks of [db1]: the report is
    filed under "Work", nothing under "Home". *)
Definition work : Category.t :=
  Category.mk "Work" "#3B82F6" "briefcase" None 1%positive true 0.
Definition home : Category.t :=
  Category.mk "Home" "#10B981" "folder" None 1%positive false 1.
Definition errands : Category.t :=
  Category.mk "Errands" "#EF4444" "cart" None 3%positive true 0.

Definition db2 : Db :=
  mkDb (tasks db1) (users db1)
       (<[1%positive := work]> (<[2%positive := home]>
          (<[3%positive := errands]> ∅))).

(** Alice's week before Sunday 2024-01-14, 18:00Z: five tasks completed on
    three days (two on the 9th, two on the 11th, one on the 13th), one
    completed on 2023-12-31, one still open; and one task Carol completed
    on the 10th. *)
Definition done_task (title : string) (owner : ObjectId) (at_ : Date.t)
    : Task.t :=
  Task.mk title true "Work" None None owner (Some at_)
    (Date.UTC 2023 12 20 9 0).

Definition db3 : Db :=
  mkDb (list_to_map
          [(1%positive, done_task "a" 1%positive (Date.UTC 2024 1 9 8 0));
           (2%positive, done_task "b" 1%positive (Date.UTC 2024 1 9 20 0));
           (3%positive, done_task "c" 1%positive (Date.UTC 2024 1 11 12 0));
           (4%positive, done_task "d" 1%positive (Date.UTC 2024 1 11 12 30));
           (5%positive, done_task "e" 1%positive (Date.UTC 2024 1 13 9 0));
           (6%positive, done_task "f" 1%positive (Date.UTC 2023 12 31 9 0));
           (7%positive, report);
           (8%positive, done_task "g" 3%positive (Date.UTC 2024 1 10 9 0))])
       (users db1) ∅.

(** Everything works. *)
Definition env0 : Env :=
  mkEnv true "todo@example.org" (λ _, false) (λ _, false).

(** The mail server refuses every message. *)
Definition env_mail_down : Env :=
  mkEnv true "todo@example.org" (λ _, true) (λ _, false).

(** The database rejects the queries made on behalf of Carol, the first
    user the batch jobs come to in [db1]. *)
Definition env_db_down : Env :=
  mkEnv true "todo@example.org" (λ _, false)
    (λ op,
       match op with
       | Task_find_dueSoon 3%positive => true
       | Task_count_completedSince 3%positive => true
       | _ => false
       end).

(** Requests of Alice: create a task due on 2024-01-10 at 10:00Z; move the
    due date of her report by a day; tick her report off; write
    [completedAt] on her report directly. *)
Definition create_req : Request TaskBody.t :=
  mkRequest 1%positive 1%positive true
    (TaskBody.mk (Some "Slides") None (Some "Work")
       (Some (Date.UTC 2024 1 10 10 0)) None None None).
Definition reschedule_req : Request TaskBody.t :=
  mkRequest 1%positive 1%positive true
    (TaskBody.mk None None None (Some (Date.UTC 2024 1 11 10 0)) None None None).
Definition complete_req : Request TaskBody.t :=
  mkRequest 1%positive 1%positive true
    (TaskBody.mk None (Some true) None None None None None).
Definition backdate_req : Request TaskBody.t :=
  mkRequest 1%positive 1%positive true
    (TaskBody.mk None None None None None
       (Some (Some (Date.UTC 2024 1 9 0 0))) None).

(** Alice deletes her category "Work", and her category "Home". *)
Definition delete_work_req : Request unit :=
  mkRequest 1%positive 1%positive true tt.
Definition delete_home_req : Request unit :=
  mkRequest 1%positive 2%positive true tt.

(** Alice sends [{ userId: <Carol's id> }] for her category "Work". *)
Definition giveaway_req : Request CategoryBody.t :=
  mkRequest 1%positive 1%positive true
    (CategoryBody.mk None None None None None (Some 3%positive) None).

(** ** Further vocabulary *)

(** A scan at [now] over the database [s] both selects the task and finds
    its owner with notifications enabled. *)
Definition deliverable (now : Date.t) (s : Db) (x : Task.t) : bool :=
  TaskModel.reminder_query now (now + 15 * 60 * 1000) x &&
  match users s !! Task.userId x with
  | Some owner => User.emailNotifications (User.preferences owner)
  | None => false
  end.

(** Each clock reading of the list is at most [d] after the one before. *)
Fixpoint gaps_within (d : Z) (nows : list Date.t) : Prop :=
  match nows with
  | a :: (b :: _) as rest => b ≤ a + d ∧ gaps_within d rest
  | _ => True
  end.

(** The database rejects the write of task 1, and nothing else. *)
Definition env_save_down : Env :=
  mkEnv true "todo@example.org" (λ _, false)
    (λ op, match op with Task_save 1%positive => true | _ => false end).

(** The same, with a mail server that refuses every message. *)
Definition env_mail_save_down : Env :=
  mkEnv true "todo@example.org" (λ _, true)
    (λ op, match op with Task_save 1%positive => true | _ => false end).

(** Alice writes a [completedAt] in February 2024 on task 6 of [db3],
    which she completed on 2023-12-31. *)
Definition postdate_req : Request TaskBody.t :=
  mkRequest 1%positive 6%positive true
    (TaskBody.mk None None None None None
       (Some (Some (Date.UTC 2024 2 1 9 0))) None).

(** What a mail of the daily job run at [now] over [s] looks like: it goes
    to a user with mail notifications enabled and lists between one and
    ten tasks, each an open task of that user due by the end of the
    following day. *)
Definition digest_ok (now : Date.t) (s : Db) (m : Mail) : Prop :=
  ∃ userId u due,
    users s !! userId = Some u ∧
    User.emailNotifications (User.preferences u) = true ∧
    to m = User.email u ∧
    html m = DueSoonEmailTemplate u due ∧
    subject m =
      pretty (length due) +:+
      (if bool_decide (length due = 1%nat) then " task" else " tasks") +:+
      " due soon" ∧
    (1 ≤ length due ≤ 10)%nat ∧
    ∀ x, x ∈ due →
      ∃ id d, tasks s !! id = Some x ∧ Task.userId x = userId ∧
              Task.completed x = false ∧ Task.dueDate x = Some d ∧
              d ≤ NotificationService.endOfTomorrow now.

(** How many of the tasks of [userId] completed since [startDate] are
    filed under the category called [name]. *)
Definition completionsIn (userId : ObjectId) (startDate : Date.t)
    (coll : gmap ObjectId Task.t) (name : string) : nat :=
  length (filter (λ kv : ObjectId * Task.t, Task.category kv.2 = name)
            (TaskModel.find (TaskModel.completedSince_query userId startDate)
               coll)).

(** Alice's week before Sunday 2024-01-14, 18:00Z, with one task completed
    on each date from Sunday the 7th (in the evening) to Sunday the 14th
    (in the morning). *)
Definition db4 : Db :=
  mkDb (list_to_map
          [(1%positive, done_task "a" 1%positive (Date.UTC 2024 1 7 19 0));
           (2%positive, done_task "b" 1%positive (Date.UTC 2024 1 8 9 0));
           (3%positive, done_task "c" 1%positive (Date.UTC 2024 1 9 9 0));
           (4%positive, done_task "d" 1%positive (Date.UTC 2024 1 10 9 0));
           (5%positive, done_task "e" 1%positive (Date.UTC 2024 1 11 9 0));
           (6%positive, done_task "f" 1%positive (Date.UTC 2024 1 12 9 0));
           (7%positive, done_task "g" 1%positive (Date.UTC 2024 1 13 9 0));
           (8%positive, done_task "h" 1%positive (Date.UTC 2024 1 14 10 0))])
       (users db1) ∅.

(** The task [PUT /api/tasks/:id] stores for a stored task [x0]. *)
Definition stored (now : Date.t) (req : Request TaskBody.t) (x0 : Task.t)
    : Task.t :=
  Doc.val (TaskModel.timestamps now (TaskModel.pre_save now (updated req x0))).

(** The virtual [isOverdue] of the task schema, read when the clock says
    [now]. *)
Definition isOverdue (now : Date.t) (this : Task.t) : bool :=
  match Task.dueDate this with
  | None => false
  | Some dueDate =>
      if Task.completed this then false else dueDate <? now
  end.

(** Alice ticks off a task of Bob's. *)
Definition foreign_req : Request TaskBody.t :=
  mkRequest 1%positive 2%positive true
    (TaskBody.mk None (Some true) None None None None None).

(** Alice sends the due date her report already has. *)
Definition resend_req : Request TaskBody.t :=
  mkRequest 1%positive 1%positive true
    (TaskBody.mk None None None (Some (Date.UTC 2024 1 10 10 0)) None None None).

(** Alice sets her own reminder time for her report. *)
Definition remind_me_req : Request TaskBody.t :=
  mkRequest 1%positive 1%positive true
    (TaskBody.mk None None None None
       (Some (Some (Date.UTC 2024 1 10 7 30))) None None).

(** No user has two categories of the same name: what the unique index
    on [{ userId, name }] demands of every write. *)
Definition uniqueNames (coll : gmap ObjectId Category.t) : Prop :=
  ∀ i j c c', coll !! i = Some c → coll !! j = Some c' →
    Category.userId c = Category.userId c' →
    Category.name c = Category.name c' → i = j.

(** The user has a category called [name], other than [except]. *)
Definition nameTaken (userId : ObjectId) (name : string)
    (except : option ObjectId) (coll : gmap ObjectId Category.t) : Prop :=
  ∃ i c, coll !! i = Some c ∧ Category.userId c = userId ∧
         Category.name c = name ∧ Some i ≠ except.

(** The document [POST /api/categories] saves for the name [name] when
    the database is [s]. *)
Definition createdCategory (req : Request CategoryBody.t) (name : string)
    (order : Z) (s : Db) : Doc.t Category.t :=
  let b := body req in
  Doc.set "order" Category.order Category.set_order order
    (CategoryRoutes.assign
       (CategoryBody.mk (Some name) (CategoryBody.color b)
          (Some (CategoryRoutes.or_string (CategoryBody.icon b) "folder"))
          (CategoryBody.description b)
          (Some (default false (CategoryBody.isDefault b)))
          (Some (user req)) None)
       (Doc.create (fresh (dom (categories s)))
          (CategoryRoutes.defaults (user req)))).

(** What [category.save()] leaves in the collection when the database
    answers. *)
Definition savedCategory (this : Doc.t Category.t)
    (coll : gmap ObjectId Category.t) : gmap ObjectId Category.t :=
  <[Doc._id this := Doc.val this]>
    (if Category.isDefault (Doc.val this) && Doc.isModified "isDefault" this
     then CategoryModel.clearDefault (Category.userId (Doc.val this))
            (Doc._id this) coll
     else coll).

(** Alice renames her category "Work" to "Job". *)
Definition rename_req : Request CategoryBody.t :=
  mkRequest 1%positive 1%positive true
    (CategoryBody.mk (Some "Job") None None None None None None).

(** Alice creates a category "Garden" and makes it her default. *)
Definition create_default_req : Request CategoryBody.t :=
  mkRequest 1%positive 1%positive true
    (CategoryBody.mk (Some "Garden") (Some "#22C55E") None None (Some true)
       None None).

(** Alice sends [{ isDefault: true, userId: <Carol's id> }] for her own
    category "Home". *)
Definition takeover_req : Request CategoryBody.t :=
  mkRequest 1%positive 2%positive true
    (CategoryBody.mk None None None None (Some true) (Some 3%positive) None).

(** Alice sends [{ order: 9007199254740992 }] for her category "Home". *)
Definition last_req : Request CategoryBody.t :=
  mkRequest 1%positive 2%positive true
    (CategoryBody.mk None None None None None None (Some (2 ^ 53))).

(** Alice addresses Carol's category "Errands". *)
Definition foreign_category_req : Request CategoryBody.t :=
  mkRequest 1%positive 3%positive true
    (CategoryBody.mk (Some "Mine") None None None None None None).
Definition foreign_delete_req : Request unit :=
  mkRequest 1%positive 3%positive true tt.

(** The [order] a new category of [userId] gets. *)
Definition nextOrder (userId : ObjectId) (coll : gmap ObjectId Category.t)
    : Z :=
  match foldr (λ kv best,
                 match best with
                 | Some m => Some (Z.max (Category.order kv.2) m)
                 | None => Some (Category.order kv.2)
                 end) None
          (CategoryModel.find
             (λ _ c, bool_decide (Category.userId c = userId)) coll) with
  | Some o => Number.succ o
  | None => 0
  end.

(** The document [PUT /api/categories/:id] saves for a stored category. *)
Definition updatedCategory (req : Request CategoryBody.t) (c : Category.t)
    : Doc.t Category.t :=
  CategoryRoutes.assign (body req) (Doc.hydrate (params_id req) c).

(** Whether [PUT /api/categories/:id] looks for a name conflict: the body
    has a non-empty [name] other than the one the category has. *)
Definition renames (req : Request CategoryBody.t) (c : Category.t) : bool :=
  match CategoryBody.name (body req) with
  | Some name =>
      bool_decide (name ≠ "") && bool_decide (name ≠ Category.name c)
  | None => false
  end.

(** The answer of the name lookup of the category handlers:
    [Category.findOne({ userId, name, _id: { $ne: except } })] found a
    document. *)
Definition nameTakenb (userId : ObjectId) (name : string)
    (except : option ObjectId) (coll : gmap ObjectId Category.t) : bool :=
  bool_decide (CategoryModel.find (λ i c,
    bool_decide (Category.userId c = userId) &&
    bool_decide (Category.name c = name) &&
    bool_decide (Some i ≠ except)) coll ≠ []).

(** ** The routers

    The order in which the two routers register their routes.  Express
    hands a request to the first route whose method and path pattern
    match; the handlers of these routers all answer the request
    themselves and never pass it on.  A path is the list of its
    segments; a parameter ([:id]) matches any non-empty segment, and how
    a literal segment is compared is left open ([lit]). *)

Inductive Method := GET | POST | PUT | DELETE.

Inductive Segment :=
| Literal (s : string)
| Param (name : string).

Fixpoint matches (lit : string → string → bool) (pattern : list Segment)
    (path : list string) : bool :=
  match pattern, path with
  | [], [] => true
  | Literal s :: pattern', x :: path' => lit s x && matches lit pattern' path'
  | Param _ :: pattern', x :: path' =>
      negb (bool_decide (x = "")) && matches lit pattern' path'
  | _, _ => false
  end.

Record Route (H : Type) := mkRoute {
  method : Method;
  pattern : list Segment;
  handler : H
}.
Arguments mkRoute {H} _ _ _.
Arguments method {H} _.
Arguments pattern {H} _.
Arguments handler {H} _.

#[global] Instance Method_eq_dec : EqDecision Method.
Proof. solve_decision. Defined.

Fixpoint dispatch {H} (lit : string → string → bool) (routes : list (Route H))
    (m : Method) (path : list string) : option H :=
  match routes with
  | [] => None
  | r :: rest =>
      if bool_decide (method r = m) && matches lit (pattern r) path
      then Some (handler r)
      else dispatch lit rest m path
  end.

Inductive TaskHandler :=
| getTasks | getTask | createTask | updateTask | deleteTask
| updateSubtask | createSubtask | deleteSubtask | reorderTasks.

Inductive CategoryHandler :=
| getCategories | createCategory | updateCategory | deleteCategory
| reorderCategories | getCategoryStats.

(** The routes of [/api/tasks], in registration order. *)
Definition taskRouter : list (Route TaskHandler) :=
  [ mkRoute GET [] getTasks;
    mkRoute GET [Param "id"] getTask;
    mkRoute POST [] createTask;
    mkRoute PUT [Param "id"] updateTask;
    mkRoute DELETE [Param "id"] deleteTask;
    mkRoute PUT [Param "id"; Literal "subtasks"; Param "subtaskId"]
      updateSubtask;
    mkRoute POST [Param "id"; Literal "subtasks"] createSubtask;
    mkRoute DELETE [Param "id"; Literal "subtasks"; Param "subtaskId"]
      deleteSubtask;
    mkRoute PUT [Literal "reorder"] reorderTasks ].

(** The routes of [/api/categories], in registration order. *)
Definition categoryRouter : list (Route CategoryHandler) :=
  [ mkRoute GET [] getCategories;
    mkRoute POST [] createCategory;
    mkRoute PUT [Param "id"] updateCategory;
    mkRoute DELETE [Param "id"] deleteCategory;
    mkRoute PUT [Literal "reorder"] reorderCategories;
    mkRoute GET [Param "id"; Literal "stats"] getCategoryStats ].

(** ** Pagination of [GET /api/tasks]

    The [pagination] block of the response and the page of tasks, as a
    function of the query parameters ([page] defaults to 1, [limit] to
    50) and of the matching tasks in sort order.  The quotient under
    [Math.ceil] is taken exactly. *)

Record Pagination := mkPagination {
  currentPage : Z;
  totalPages : Z;
  totalTasks : Z;
  hasNextPage : bool;
  hasPrevPage : bool
}.

Definition ceil_div (a b : Z) : Z := (a + b - 1) / b.

Definition paginate {A} (page limit : option Z) (matching : list A)
    : list A * Pagination :=
  let page := default 1 page in
  let limit := default 50 limit in
  let skip := (page - 1) * limit in
  let tasks := take (Z.to_nat limit) (drop (Z.to_nat skip) matching) in
  let totalTasks := Z.of_nat (length matching) in
  let totalPages := ceil_div totalTasks limit in
  (tasks,
   mkPagination page totalPages totalTasks (page <? totalPages) (1 <? page)).

(** ** Analytics: the windows of the overview

    [GET /api/analytics/overview] counts the tasks completed "this
    week", "this month" and "this year" from three dates it computes
    first.  The server clock is taken to run in UTC. *)

Module Analytics.

(** [date.getDay()]: 0 for Sunday (1970-01-01 was a Thursday). *)
Definition getDay (date : Date.t) : Z :=
  (date / Date.MS_PER_DAY + 4) mod 7.

(** [date.getDate()]: the day of the month. *)
Definition getDate (date : Date.t) : Z :=
  let '(_, _, d) := Date.civil_from_days (date / Date.MS_PER_DAY) in d.

(** [date.setDate(v)]: the day of the month is replaced, the time of day
    kept; a value below 1 counts back into the months before. *)
Definition setDate (date : Date.t) (v : Z) : Date.t :=
  let '(y, m, _) := Date.civil_from_days (date / Date.MS_PER_DAY) in
  Date.days_from_civil y m v * Date.MS_PER_DAY + date mod Date.MS_PER_DAY.

(** [new Date(date.getFullYear(), date.getMonth(), 1)] *)
Definition firstOfMonth (date : Date.t) : Date.t :=
  let '(y, m, _) := Date.civil_from_days (date / Date.MS_PER_DAY) in
  Date.days_from_civil y m 1 * Date.MS_PER_DAY.

(** [new Date(date.getFullYear(), 0, 1)] *)
Definition firstOfYear (date : Date.t) : Date.t :=
  let '(y, _, _) := Date.civil_from_days (date / Date.MS_PER_DAY) in
  Date.days_from_civil y 1 1 * Date.MS_PER_DAY.

Record Windows := mkWindows {
  startOfWeek : Date.t;
  startOfMonth : Date.t;
  startOfYear : Date.t
}.

(** The first lines of the handler.  [now.setDate(...)] changes [now]
    itself, and the two lines after it read the changed [now]. *)
Definition windows (now : Date.t) : Windows :=
  let now := setDate now (getDate now - getDay now) in
  let startOfWeek := now in
  let startOfMonth := firstOfMonth now in
  let startOfYear := firstOfYear now in
  mkWindows startOfWeek startOfMonth startOfYear.

(** [completedThisWeek], [completedThisMonth] and [completedThisYear]. *)
Definition completedThisWeek (userId : ObjectId) (now : Date.t)
    (coll : gmap ObjectId Task.t) : nat :=
  TaskModel.countDocuments
    (TaskModel.completedSince_query userId (startOfWeek (windows now))) coll.
Definition completedThisMonth (userId : ObjectId) (now : Date.t)
    (coll : gmap ObjectId Task.t) : nat :=
  TaskModel.countDocuments
    (TaskModel.completedSince_query userId (startOfMonth (windows now))) coll.
Definition completedThisYear (userId : ObjectId) (now : Date.t)
    (coll : gmap ObjectId Task.t) : nat :=
  TaskModel.countDocuments
    (TaskModel.completedSince_query userId (startOfYear (windows now))) coll.

End Analytics.

(** The conversion of a day of the 400-year era into year of era, month
    and day, and back: the check run on every day of an era. *)
Definition era_check (doe : Z) : bool :=
  let yoe := (doe - doe / 1460 + doe / 36524 - doe / 146096) / 365 in
  let doy := doe - (365 * yoe + yoe / 4 - yoe / 100) in
  let mp := (5 * doy + 2) / 153 in
  let d := doy - (153 * mp + 2) / 5 + 1 in
  (0 <=? yoe) && (yoe <? 400) && (0 <=? mp) && (mp <? 12) && (1 <=? d) &&
  (yoe * 365 + yoe / 4 - yoe / 100 + ((153 * mp + 2) / 5 + d - 1) =? doe).

Definition era_step (p : Z * bool) : Z * bool :=
  (p.1 + 1, p.2 && era_check p.1).

(** Alice's task completed in mid-December 2023. *)
Definition db5 : Db :=
  mkDb (<[1%positive := done_task "a" 1%positive (Date.UTC 2023 12 15 9 0)]> ∅)
       (users db1) ∅.

(** ** The client: authentication state

    The reducer of [AuthContext.js] and the route guards of the
    application.  A user object is a finite map from keys to values; the
    payloads of [AUTH_SUCCESS] are the user and the token of a server
    response. *)

Module AuthContext.

Record State := mkState {
  user : option (gmap string string);
  token : option string;
  isAuthenticated : bool;
  isLoading : bool;
  error : option string
}.

Definition initialState : State := mkState None None false true None.

Inductive Action :=
| AUTH_START
| AUTH_SUCCESS (user : gmap string string) (token : string)
| AUTH_FAILURE (payload : string)
| AUTH_LOGOUT
| AUTH_UPDATE_PROFILE (payload : gmap string string)
| AUTH_CLEAR_ERROR
| AUTH_SET_LOADING (payload : bool)
| OTHER (type : string).

(** [{ ...state.user, ...action.payload }]: the keys of the payload win,
    and spreading [null] adds nothing. *)
Definition authReducer (state : State) (action : Action) : State :=
  match action with
  | AUTH_START =>
      mkState (user state) (token state) (isAuthenticated state) true None
  | AUTH_SUCCESS u t => mkState (Some u) (Some t) true false None
  | AUTH_FAILURE payload => mkState None None false false (Some payload)
  | AUTH_LOGOUT => mkState None None false false None
  | AUTH_UPDATE_PROFILE payload =>
      mkState (Some (payload ∪ default ∅ (user state))) (token state)
        (isAuthenticated state) (isLoading state) None
  | AUTH_CLEAR_ERROR =>
      mkState (user state) (token state) (isAuthenticated state)
        (isLoading state) None
  | AUTH_SET_LOADING payload =>
      mkState (user state) (token state) (isAuthenticated state) payload
        (error state)
  | OTHER _ => state
  end.

(** What a route guard renders. *)
Inductive Rendered :=
| LoadingSpinner
| Navigate (to : string)
| Children.

Definition ProtectedRoute (state : State) : Rendered :=
  if isLoading state then LoadingSpinner
  else if negb (isAuthenticated state) then Navigate "/login"
  else Children.

Definition PublicRoute (state : State) : Rendered :=
  if isLoading state then LoadingSpinner
  else if isAuthenticated state then Navigate "/dashboard"
  else Children.

(** What holds of every state the reducer reaches. *)
Definition consistent (state : State) : Prop :=
  (isAuthenticated state = true ↔ is_Some (token state)) ∧
  (isAuthenticated state = true → is_Some (user state)) ∧
  (is_Some (error state) → isAuthenticated state = false).

End AuthContext.

(** ** The client: the response interceptor

    What the interceptor of the HTTP client does with a failed request:
    the message of the error it throws and what it does on the way.
    [response] is [None] when no response arrived; otherwise it holds the
    status and the [message] of the body, if the body has one. *)

Module Api.

Inductive Effect :=
| ConsoleError (msg : string)
| RemoveItem (key : string)
| SetLocationHref (href : string).

Definition onRejected (response : option (Z * option string))
    : list Effect * string :=
  match response with
  | None =>
      ([ConsoleError "Network error:"],
       "Network error. Please check your connection.")
  | Some (status, message) =>
      if bool_decide (status = 401) then
        ([RemoveItem "token"; RemoveItem "user"; SetLocationHref "/login"],
         "Session expired. Please login again.")
      else if bool_decide (status = 403) then
        ([], "Access denied. You do not have permission to perform this action.")
      else if bool_decide (status = 404) then
        ([], "The requested resource was not found.")
      else if bool_decide (500 ≤ status) then
        ([], "Server error. Please try again later.")
      else
        ([], CategoryRoutes.or_string message "An unexpected error occurred")
  end.

(** The failed request a response of the server's handlers amounts to. *)
Definition ofResponse (r : Response) : option (Z * option string) :=
  Some (status r, Some (message r)).

End Api.

(** * Properties *)

(** ** Dates *)

Example UTC_2024_01_10 : Date.UTC 2024 1 10 9 0 = 1704877200000.
Proof. reflexivity. Qed.

Example dateToString_2024_01_10 :
  Date.dateToString (Date.UTC 2024 1 10 9 0) = "2024-01-10".
Proof. reflexivity. Qed.

(** ** Calendar arithmetic *)

Lemma era_checked : Pos.iter era_step (0, true) 146097 = (146097, true).
Proof. vm_compute. reflexivity. Qed.

Lemma era_step_iter (n : positive) :
  ∀ z b,
    (Pos.iter era_step (z, b) n).1 = z + Z.pos n ∧
    ((Pos.iter era_step (z, b) n).2 = true →
     b = true ∧ ∀ i, z ≤ i < z + Z.pos n → era_check i = true).
Proof.
  induction n as [|n IH] using Pos.peano_ind; intros z b.
  - simpl. split; [done|]. intros [-> Hz]%andb_true_iff.
    split; [done|]. intros i Hi. by replace i with z by lia.
  - rewrite Pos.iter_succ. destruct (IH z b) as [IH1 IH2].
    unfold era_step at 1. simpl. rewrite IH1. split; [lia|].
    intros [Hb Hz]%andb_true_iff. destruct (IH2 Hb) as [-> Hall].
    split; [done|]. intros i Hi.
    destruct (decide (i = z + Z.pos n)) as [->|]; [done|].
    apply Hall. lia.
Qed.

Lemma era_check_all doe : 0 ≤ doe < 146097 → era_check doe = true.
Proof.
  intros Hdoe.
  destruct (era_step_iter 146097 0 true) as [_ Hall].
  rewrite era_checked in Hall. destruct (Hall eq_refl) as [_ H].
  apply H. lia.
Qed.

(** The date of a day number: its day of the month is at least 1, and
    converting the date back gives the day number. *)
Lemma civil_roundtrip z :
  ∃ y m d, Date.civil_from_days z = (y, m, d) ∧ 1 ≤ d ∧ 1 ≤ m ≤ 12 ∧
           Date.days_from_civil y m d = z.
Proof.
  unfold Date.civil_from_days. cbv zeta.
  set (era := (z + 719468) / 146097).
  set (doe := z + 719468 - era * 146097).
  assert (0 ≤ doe < 146097) as Hdoe.
  { pose proof (Z.div_mod (z + 719468) 146097 ltac:(lia)).
    pose proof (Z.mod_pos_bound (z + 719468) 146097 ltac:(lia)).
    subst doe era. lia. }
  pose proof (era_check_all doe Hdoe) as Hchk.
  unfold era_check in Hchk. cbv zeta in Hchk.
  set (yoe := (doe - doe / 1460 + doe / 36524 - doe / 146096) / 365) in *.
  set (doy := doe - (365 * yoe + yoe / 4 - yoe / 100)) in *.
  set (mp := (5 * doy + 2) / 153) in *.
  set (d := doy - (153 * mp + 2) / 5 + 1) in *.
  rewrite !andb_true_iff in Hchk.
  destruct Hchk as [[[[[Hy0 Hy1] Hm0] Hm1] Hd] Hrt].
  apply Z.leb_le in Hy0, Hm0, Hd. apply Z.ltb_lt in Hy1, Hm1.
  apply Z.eqb_eq in Hrt.
  eexists _, _, d. split; [done|]. split; [done|].
  assert (z = era * 146097 + doe - 719468) as Hz by (subst doe; lia).
  clearbody era doe. subst z.
  destruct (Z.ltb_spec mp 10) as [Hmp|Hmp].
  - (* March to December *)
    split; [lia|]. unfold Date.days_from_civil.
    destruct (Z.leb_spec (mp + 3) 2) as [?|_]; [lia|].
    destruct (Z.ltb_spec 2 (mp + 3)) as [_|?]; [|lia].
    replace (mp + 3 - 3) with mp by lia. cbv zeta.
    replace ((yoe + era * 400) / 400) with era
      by (rewrite Z.div_add, Z.div_small by lia; lia).
    replace (yoe + era * 400 - era * 400) with yoe by lia.
    lia.
  - (* January and February *)
    split; [lia|]. unfold Date.days_from_civil.
    destruct (Z.leb_spec (mp - 9) 2) as [_|?]; [|lia].
    destruct (Z.ltb_spec 2 (mp - 9)) as [?|_]; [lia|].
    replace (mp - 9 + 9) with mp by lia. cbv zeta.
    replace (yoe + era * 400 + 1 - 1) with (yoe + era * 400) by lia.
    replace ((yoe + era * 400) / 400) with era
      by (rewrite Z.div_add, Z.div_small by lia; lia).
    replace (yoe + era * 400 - era * 400) with yoe by lia.
    lia.
Qed.

(** Day numbers are linear in the day of the month. *)
Lemma days_from_civil_day y m d k :
  Date.days_from_civil y m (d + k) = Date.days_from_civil y m d + k.
Proof. unfold Date.days_from_civil. cbv zeta. lia. Qed.

(** ** The rendering of a date *)

Lemma String_eq a b s t : String a s = String b t → a = b ∧ s = t.
Proof. by intros [= -> ->]. Qed.

Lemma digit_char_inj a b :
  Ascii.ascii_of_nat (48 + Z.to_nat (a mod 10)) =
  Ascii.ascii_of_nat (48 + Z.to_nat (b mod 10)) →
  a mod 10 = b mod 10.
Proof.
  intros H. apply (f_equal Ascii.nat_of_ascii) in H.
  pose proof (Z.mod_pos_bound a 10 ltac:(lia)).
  pose proof (Z.mod_pos_bound b 10 ltac:(lia)).
  rewrite !Ascii.nat_ascii_embedding in H by lia. lia.
Qed.

Lemma pad2_app z s :
  Date.pad2 z +:+ s =
  String (Ascii.ascii_of_nat (48 + Z.to_nat ((z / 10) mod 10)))
    (String (Ascii.ascii_of_nat (48 + Z.to_nat (z mod 10))) s).
Proof. reflexivity. Qed.

(** Two digits determine a number below 100. *)
Lemma pad2_app_inj a b s t :
  0 ≤ a < 100 → 0 ≤ b < 100 →
  Date.pad2 a +:+ s = Date.pad2 b +:+ t → a = b ∧ s = t.
Proof.
  intros Ha Hb. rewrite !pad2_app.
  intros [H1 [H2 H3]%String_eq]%String_eq.
  apply digit_char_inj in H1, H2.
  split; [|done].
  rewrite !Z.mod_small in H1
    by (split; [apply Z.div_pos; lia|apply Z.div_lt_upper_bound; lia]).
  pose proof (Z.div_mod a 10 ltac:(lia)).
  pose proof (Z.div_mod b 10 ltac:(lia)). lia.
Qed.

Lemma pad4_app z s :
  Date.pad4 z +:+ s = Date.pad2 (z / 100) +:+ (Date.pad2 z +:+ s).
Proof. reflexivity. Qed.

Lemma pad2_mod z : Date.pad2 z = Date.pad2 (z mod 100).
Proof.
  assert (∀ n, 0 < n → ∀ x, x = n * (x / n) + x mod n ∧ 0 ≤ x mod n < n) as E.
  { intros n Hn x. split; [apply Z.div_mod; lia|by apply Z.mod_pos_bound]. }
  pose proof (E 100 ltac:(lia) z). pose proof (E 10 ltac:(lia) z).
  pose proof (E 10 ltac:(lia) (z mod 100)).
  pose proof (E 10 ltac:(lia) (z / 10)).
  pose proof (E 10 ltac:(lia) (z mod 100 / 10)).
  unfold Date.pad2, Date.digit.
  replace ((z mod 100) mod 10) with (z mod 10) by lia.
  by replace ((z mod 100 / 10) mod 10) with ((z / 10) mod 10) by lia.
Qed.

(** Four digits determine a number below 10000. *)
Lemma pad4_app_inj a b s t :
  0 ≤ a < 10000 → 0 ≤ b < 10000 →
  Date.pad4 a +:+ s = Date.pad4 b +:+ t → a = b ∧ s = t.
Proof.
  intros Ha Hb. rewrite !pad4_app.
  rewrite (pad2_mod a), (pad2_mod b).
  intros [H1 [H2 H3]%pad2_app_inj]%pad2_app_inj.
  2,3: by apply Z.mod_pos_bound.
  2,3: split; [apply Z.div_pos; lia|apply Z.div_lt_upper_bound; lia].
  split; [|done].
  pose proof (Z.div_mod a 100 ltac:(lia)).
  pose proof (Z.div_mod b 100 ltac:(lia)). lia.
Qed.

(** The day of the month of a day number is at most 31. *)
Lemma civil_day_le z :
  ∃ y m d, Date.civil_from_days z = (y, m, d) ∧ 1 ≤ d ≤ 31 ∧ 1 ≤ m ≤ 12 ∧
           Date.days_from_civil y m d = z.
Proof.
  destruct (civil_roundtrip z) as (y & m & d & E & Hd & Hm & Hz).
  exists y, m, d. split; [done|]. split; [|done]. split; [done|].
  revert E. unfold Date.civil_from_days. cbv zeta.
  set (doe := z + 719468 - (z + 719468) / 146097 * 146097).
  set (yoe := (doe - doe / 1460 + doe / 36524 - doe / 146096) / 365).
  set (doy := doe - (365 * yoe + yoe / 4 - yoe / 100)).
  set (mp := (5 * doy + 2) / 153).
  intros [= _ _ <-].
  pose proof (Z.div_mod (5 * doy + 2) 153 ltac:(lia)).
  pose proof (Z.mod_pos_bound (5 * doy + 2) 153 ltac:(lia)).
  pose proof (Z.div_mod (153 * mp + 2) 5 ltac:(lia)).
  pose proof (Z.mod_pos_bound (153 * mp + 2) 5 ltac:(lia)).
  fold mp in H, H0. lia.
Qed.

(** Within the years 0 to 9999 the rendering tells the days apart. *)
Lemma dateToString_inj (c c' : Date.t) :
  0 ≤ Date.getUTCFullYear c ≤ 9999 →
  0 ≤ Date.getUTCFullYear c' ≤ 9999 →
  Date.dateToString c = Date.dateToString c' →
  c / Date.MS_PER_DAY = c' / Date.MS_PER_DAY.
Proof.
  unfold Date.getUTCFullYear, Date.dateToString.
  destruct (civil_day_le (c / Date.MS_PER_DAY))
    as (y & m & d & -> & Hd & Hm & <-).
  destruct (civil_day_le (c' / Date.MS_PER_DAY))
    as (y' & m' & d' & -> & Hd' & Hm' & <-).
  simpl. intros Hy Hy' E.
  apply pad4_app_inj in E as [-> E]; [|lia|lia].
  apply String_eq in E as [_ E].
  apply pad2_app_inj in E as [-> E]; [|lia|lia].
  apply String_eq in E as [_ E].
  assert (Date.pad2 d +:+ "" = Date.pad2 d' +:+ "") as E'.
  { rewrite !pad2_app. exact E. }
  apply pad2_app_inj in E' as [-> _]; [done|lia|lia].
Qed.

(** ** The effect monad *)

Section monad.
Context {A B : Type}.
Implicit Types (m : M A) (f : A → M B) (s : Db).

Lemma bind_Ok m f s a s1 t1 :
  m s = (Ok a, s1, t1) →
  (m ≫= f) s = (result (f a s1), final (f a s1), t1 ++ events (f a s1)).
Proof.
  intros E. unfold mbind, M_bind. rewrite E.
  by destruct (f a s1) as [[r s2] t2].
Qed.

Lemma try_catch_Ok (m : M A) h s a s1 t1 :
  m s = (Ok a, s1, t1) → try_catch m h s = (Ok a, s1, t1).
Proof. intros E. unfold try_catch. by rewrite E. Qed.

End monad.

Lemma outcome_eta {A} (o : Result A * Db * list Event) :
  o = (result o, final o, events o).
Proof. by destruct o as [[??]?]. Qed.

Section loops.
Context {A : Type} (body : A → M unit).

Lemma for_of_cons x l s :
  for_of (x :: l) body s = (body x ;; for_of l body) s.
Proof. done. Qed.

(** Whatever every iteration's events satisfy, the loop's events do. *)
Lemma for_of_events (P : Event → Prop) l s :
  (∀ x s', x ∈ l → Forall P (events (body x s'))) →
  Forall P (events (for_of l body s)).
Proof.
  revert s. induction l as [|x l IH]; intros s Hbody; [by constructor|].
  rewrite for_of_cons. unfold mbind, M_bind.
  pose proof (Hbody x s ltac:(left)) as Hx.
  destruct (body x s) as [[[[]|e] s1] t1]; simpl in *; [|done].
  specialize (IH s1 (λ y s' Hy, Hbody y s' ltac:(by right))).
  destruct (for_of l body s1) as [[r s2] t2]; simpl in *.
  by apply Forall_app.
Qed.

(** A property of the database every iteration keeps is kept by the loop,
    whether or not it runs to the end. *)
Lemma for_of_final (I : Db → Prop) l s :
  (∀ x s', x ∈ l → I s' → I (final (body x s'))) →
  I s → I (final (for_of l body s)).
Proof.
  revert s. induction l as [|x l IH]; intros s Hbody Hs; [done|].
  rewrite for_of_cons. unfold mbind, M_bind.
  pose proof (Hbody x s ltac:(left) Hs) as Hx.
  destruct (body x s) as [[[[]|e] s1] t1]; simpl in *; [|done].
  specialize (IH s1 (λ y s' Hy, Hbody y s' ltac:(by right)) Hx).
  by destruct (for_of l body s1) as [[r s2] t2].
Qed.

(** When no iteration throws (from a database satisfying [I], which each
    iteration keeps), the loop reaches every element: it runs the
    iterations before it, then this one, then the remaining ones. *)
Lemma for_of_reaches (I : Db → Prop) l1 x l2 s :
  (∀ y s', y ∈ l1 ++ x :: l2 → I s' →
     result (body y s') = Ok tt ∧ I (final (body y s'))) →
  I s →
  ∃ s1 t1,
    I s1 ∧
    for_of (l1 ++ x :: l2) body s =
      (result (for_of l2 body (final (body x s1))),
       final (for_of l2 body (final (body x s1))),
       t1 ++ events (body x s1) ++
         events (for_of l2 body (final (body x s1)))).
Proof.
  revert s. induction l1 as [|y l1 IH]; intros s Hbody Hs.
  - exists s, []. split; [done|]. simpl.
    destruct (Hbody x s ltac:(left) Hs) as [Hr _].
    rewrite (bind_Ok _ _ _ tt (final (body x s)) (events (body x s))); [done|].
    rewrite <-Hr. apply outcome_eta.
  - destruct (Hbody y s ltac:(left) Hs) as [Hr Hi].
    destruct (IH (final (body y s))
                (λ z s' Hz, Hbody z s' ltac:(by right)) Hi)
      as (s1 & t1 & Hs1 & E).
    exists s1, (events (body y s) ++ t1). split; [done|].
    simpl. rewrite (bind_Ok _ _ _ tt (final (body y s)) (events (body y s))).
    + rewrite E. simpl. by rewrite <-app_assoc.
    + rewrite <-Hr. apply outcome_eta.
Qed.

(** When no iteration throws, neither does the loop. *)
Lemma for_of_Ok (I : Db → Prop) l s :
  (∀ y s', y ∈ l → I s' →
     result (body y s') = Ok tt ∧ I (final (body y s'))) →
  I s → result (for_of l body s) = Ok tt.
Proof.
  revert s. induction l as [|y l IH]; intros s Hbody Hs; [done|].
  destruct (Hbody y s ltac:(left) Hs) as [Hr Hi].
  simpl. rewrite (bind_Ok _ _ _ tt (final (body y s)) (events (body y s))).
  - simpl. apply IH; [|done]. intros z s' Hz. apply Hbody. by right.
  - rewrite <-Hr. apply outcome_eta.
Qed.

End loops.

(** ** Queries *)

Lemma find_spec (q : Task.t → bool) (coll : gmap ObjectId Task.t) id x :
  (id, x) ∈ TaskModel.find q coll ↔ coll !! id = Some x ∧ q x = true.
Proof.
  unfold TaskModel.find.
  by rewrite elem_of_map_to_list, map_lookup_filter_Some.
Qed.

Lemma find_NoDup (q : Task.t → bool) (coll : gmap ObjectId Task.t) :
  NoDup (TaskModel.find q coll).*1.
Proof. apply NoDup_fst_map_to_list. Qed.

Lemma reminder_query_spec now reminderWindow x :
  TaskModel.reminder_query now reminderWindow x = true ↔
  Task.completed x = false ∧
  ∃ r, Task.reminderDate x = Some r ∧ now ≤ r ≤ reminderWindow.
Proof.
  unfold TaskModel.reminder_query.
  rewrite andb_true_iff, negb_true_iff.
  destruct (Task.reminderDate x) as [r|].
  - rewrite andb_true_iff, !Z.leb_le. split.
    + intros (? & ? & ?). eauto.
    + intros (? & r' & [= <-] & ? & ?). done.
  - split; [intros [_ [=]]|intros (_ & r & [=] & _)].
Qed.

Lemma tasksToRemind_spec (now : Date.t) (coll : gmap ObjectId Task.t) id x :
  (id, x) ∈ NotificationService.tasksToRemind now coll ↔
  coll !! id = Some x ∧ Task.completed x = false ∧
  ∃ r, Task.reminderDate x = Some r ∧ now ≤ r ≤ now + 15 * Date.MS_PER_MINUTE.
Proof.
  unfold NotificationService.tasksToRemind.
  rewrite find_spec, reminder_query_spec.
  change (15 * Date.MS_PER_MINUTE) with (15 * 60 * 1000). tauto.
Qed.

(** ** Documents and assignments *)

Lemma set_get {A V} `{EqDecision V} path (get : A → V) put v (d : Doc.t A) :
  (∀ a, get (put v a) = v) →
  get (Doc.val (Doc.set path get put v d)) = v.
Proof.
  intros Hput. unfold Doc.set.
  destruct (Doc.isNew d); simpl; [apply Hput|].
  case_bool_decide; simpl; [apply Hput|done].
Qed.

Lemma set_id {A V} `{EqDecision V} path (get : A → V) put v (d : Doc.t A) :
  Doc._id (Doc.set path get put v d) = Doc._id d.
Proof. unfold Doc.set. by case_match. Qed.

Section docs.
Context {A V : Type} `{EqDecision V}.
Implicit Types (d : Doc.t A) (get : A → V) (put : V → A → A).

Lemma set_isNew path get put v d :
  Doc.isNew (Doc.set path get put v d) = Doc.isNew d.
Proof. unfold Doc.set. by case_match. Qed.

Lemma set_other {W} (get' : A → W) path get put v d :
  (∀ a, get' (put v a) = get' a) →
  get' (Doc.val (Doc.set path get put v d)) = get' (Doc.val d).
Proof. intros Hput. unfold Doc.set. case_match; [apply Hput|done]. Qed.

(** A path that was modified stays so, and assigning to one path never
    marks another. *)
Lemma set_isModified_other path' path get put v d :
  path' ≠ path →
  Doc.isModified path' (Doc.set path get put v d) = Doc.isModified path' d.
Proof.
  intros Hne. unfold Doc.set, Doc.isModified. case_match; [|done]. simpl.
  apply bool_decide_ext. rewrite elem_of_cons. intuition congruence.
Qed.

(** On a stored document, assigning marks the path exactly when the value
    changes. *)
Lemma set_isModified_same path get put v d :
  Doc.isNew d = false →
  Doc.isModified path d = false →
  Doc.isModified path (Doc.set path get put v d) =
  bool_decide (get (Doc.val d) ≠ v).
Proof.
  intros Hnew Hmod. unfold Doc.set. rewrite Hnew. simpl.
  case_bool_decide; [|done]. unfold Doc.isModified. simpl.
  apply bool_decide_eq_true. by left.
Qed.

Lemma set_opt_id path get put o d :
  Doc._id (set_opt path get put o d) = Doc._id d.
Proof. destruct o; [apply set_id|done]. Qed.

Lemma set_opt_isNew path get put o d :
  Doc.isNew (set_opt path get put o d) = Doc.isNew d.
Proof. destruct o; [apply set_isNew|done]. Qed.

Lemma set_opt_other {W} (get' : A → W) path get put o d :
  (∀ v a, get' (put v a) = get' a) →
  get' (Doc.val (set_opt path get put o d)) = get' (Doc.val d).
Proof. intros Hput. destruct o; [by apply set_other|done]. Qed.

Lemma set_opt_get path get put o d :
  (∀ v a, get (put v a) = v) →
  get (Doc.val (set_opt path get put o d)) = default (get (Doc.val d)) o.
Proof. intros Hput. destruct o; [by apply set_get|done]. Qed.

Lemma set_opt_isModified_other path' path get put o d :
  path' ≠ path →
  Doc.isModified path' (set_opt path get put o d) = Doc.isModified path' d.
Proof. intros. destruct o; [by apply set_isModified_other|done]. Qed.

End docs.

Ltac assign_other :=
  repeat first
    [ rewrite set_opt_other by done
    | rewrite set_other by done
    | rewrite set_opt_isModified_other by done
    | rewrite set_isModified_other by done
    | rewrite set_opt_isNew
    | rewrite set_isNew
    | rewrite set_opt_id
    | rewrite set_id ].

(** Reading a key of [{ ...req.body, userId }]. *)
Ltac taskData :=
  cbn [TaskBody.title TaskBody.completed TaskBody.category TaskBody.dueDate
       TaskBody.reminderDate TaskBody.completedAt TaskBody.userId
       TaskBody.set_userId TaskBody.set_reminderDate].

Lemma assign_id b d : Doc._id (TaskRoutes.assign b d) = Doc._id d.
Proof. unfold TaskRoutes.assign. by assign_other. Qed.

Lemma assign_title b d :
  Task.title (Doc.val (TaskRoutes.assign b d)) =
  default (Task.title (Doc.val d)) (TaskBody.title b).
Proof.
  unfold TaskRoutes.assign. assign_other. by rewrite set_opt_get.
Qed.

Lemma assign_category b d :
  Task.category (Doc.val (TaskRoutes.assign b d)) =
  default (Task.category (Doc.val d)) (TaskBody.category b).
Proof.
  unfold TaskRoutes.assign. assign_other. rewrite set_opt_get by done.
  by assign_other.
Qed.

Lemma assign_completed b d :
  Task.completed (Doc.val (TaskRoutes.assign b d)) =
  default (Task.completed (Doc.val d)) (TaskBody.completed b).
Proof.
  unfold TaskRoutes.assign. assign_other. rewrite set_opt_get by done.
  by assign_other.
Qed.

Lemma assign_dueDate b d :
  Task.dueDate (Doc.val (TaskRoutes.assign b d)) =
  default (Task.dueDate (Doc.val d)) (Some <$> TaskBody.dueDate b).
Proof.
  unfold TaskRoutes.assign. assign_other. rewrite set_opt_get by done.
  by assign_other.
Qed.

Lemma assign_reminderDate b d :
  Task.reminderDate (Doc.val (TaskRoutes.assign b d)) =
  default (Task.reminderDate (Doc.val d)) (TaskBody.reminderDate b).
Proof.
  unfold TaskRoutes.assign. assign_other. rewrite set_opt_get by done.
  by assign_other.
Qed.

Lemma assign_completedAt b d :
  Task.completedAt (Doc.val (TaskRoutes.assign b d)) =
  default (Task.completedAt (Doc.val d)) (TaskBody.completedAt b).
Proof.
  unfold TaskRoutes.assign. assign_other. rewrite set_opt_get by done.
  by assign_other.
Qed.

Lemma assign_userId b d :
  Task.userId (Doc.val (TaskRoutes.assign b d)) =
  default (Task.userId (Doc.val d)) (TaskBody.userId b).
Proof.
  unfold TaskRoutes.assign. rewrite set_opt_get by done.
  by assign_other.
Qed.

Lemma pre_save_dueDate now d :
  Task.dueDate (Doc.val (TaskModel.pre_save now d)) =
  Task.dueDate (Doc.val d).
Proof.
  unfold TaskModel.pre_save, Doc.set. by repeat (case_match; simpl).
Qed.

Lemma pre_save_completed now d :
  Task.completed (Doc.val (TaskModel.pre_save now d)) =
  Task.completed (Doc.val d).
Proof.
  unfold TaskModel.pre_save, Doc.set. by repeat (case_match; simpl).
Qed.

Lemma timestamps_dueDate now d :
  Task.dueDate (Doc.val (TaskModel.timestamps now d)) =
  Task.dueDate (Doc.val d).
Proof. unfold TaskModel.timestamps. by case_match. Qed.

Lemma timestamps_completed now d :
  Task.completed (Doc.val (TaskModel.timestamps now d)) =
  Task.completed (Doc.val d).
Proof. unfold TaskModel.timestamps. by case_match. Qed.

Lemma timestamps_completedAt now d :
  Task.completedAt (Doc.val (TaskModel.timestamps now d)) =
  Task.completedAt (Doc.val d).
Proof. unfold TaskModel.timestamps. by case_match. Qed.

Lemma pre_save_id now d : Doc._id (TaskModel.pre_save now d) = Doc._id d.
Proof. unfold TaskModel.pre_save. repeat case_match; by rewrite ?set_id. Qed.

Lemma pre_save_reminderDate now d :
  Task.reminderDate (Doc.val (TaskModel.pre_save now d)) =
  Task.reminderDate (Doc.val d).
Proof.
  unfold TaskModel.pre_save, Doc.set. by repeat (case_match; simpl).
Qed.

Lemma timestamps_id now d : Doc._id (TaskModel.timestamps now d) = Doc._id d.
Proof. unfold TaskModel.timestamps. by case_match. Qed.

Lemma timestamps_reminderDate now d :
  Task.reminderDate (Doc.val (TaskModel.timestamps now d)) =
  Task.reminderDate (Doc.val d).
Proof. unfold TaskModel.timestamps. by case_match. Qed.

(** The outcome of [task.save()]. *)
Lemma save_run env now d s :
  TaskModel.save env now d s =
  let d' := TaskModel.timestamps now (TaskModel.pre_save now d) in
  if db_rejects env (Task_save (Doc._id d)) then
    (Throw (DbError (Task_save (Doc._id d))), s, [EvDb (Task_save (Doc._id d)) false])
  else (Ok tt, set_tasks (<[Doc._id d := Doc.val d']>) s, [EvDb (Task_save (Doc._id d)) true]).
Proof.
  unfold TaskModel.save, db, modify, mbind, M_bind. simpl.
  rewrite timestamps_id, pre_save_id. by destruct (db_rejects env _).
Qed.

Lemma save_Ok env now d s :
  reliable env →
  TaskModel.save env now d s =
  (Ok tt,
   set_tasks (<[Doc._id d :=
                  Doc.val (TaskModel.timestamps now
                             (TaskModel.pre_save now d))]>) s,
   [EvDb (Task_save (Doc._id d)) true]).
Proof. intros Hdb. by rewrite save_run, Hdb. Qed.

Lemma findOne_run env id userId s :
  reliable env →
  TaskModel.findOne env id userId s =
  (Ok match tasks s !! id with
      | Some x =>
          if decide (Task.userId x = userId) then Some (Doc.hydrate id x)
          else None
      | None => None
      end, s, [EvDb (Task_findOne id userId) true]).
Proof.
  intros Hdb. unfold TaskModel.findOne, db, gets, mbind, M_bind.
  by rewrite Hdb.
Qed.

(** ** The reminder scan *)

Ltac run_remind :=
  unfold NotificationService.remind, NotificationService.sendTaskReminder,
    TaskModel.save, sendMail, console, emit, throw, modify, gets, db,
    try_catch, mbind, M_bind, mret, M_ret, events, final, result;
  simpl.

Lemma remind_events env now s0 entry s :
  entry.2 = users s0 !! Task.userId (Doc.val entry.1) →
  Forall (reminder_event_ok s0)
         (events (NotificationService.remind env now entry s)).
Proof.
  destruct entry as [task [owner|]]; simpl; intros Ho; run_remind;
    [|by constructor].
  destruct (User.emailNotifications (User.preferences owner)) eqn:En; simpl;
    [|by constructor].
  destruct (transporter env), (sendMail_rejects env _), (db_rejects env _);
    simpl; repeat constructor; simpl; eauto.
Qed.

(** The dispatcher never throws and never touches the database: a failed
    send is caught and logged. *)
Lemma sendTaskReminder_run env userId user task s :
  NotificationService.sendTaskReminder env userId user task s =
  (Ok tt, s,
   EvCall (sendTaskReminder_called userId (Doc._id task)) ::
   if negb (transporter env) ||
      negb (User.emailNotifications (User.preferences user))
   then []
   else
     let m := mkMail (EMAIL_USER env) (User.email user)
                ("Reminder: " +:+ Task.title (Doc.val task))
                (ReminderEmailTemplate user (Doc.val task)) in
     if sendMail_rejects env m
     then [EvSendMail m false; EvConsole "Failed to send reminder email:"]
     else [EvSendMail m true;
           EvConsole ("Reminder email sent to " +:+ User.email user +:+
                      " for task: " +:+ Task.title (Doc.val task))]).
Proof.
  unfold NotificationService.sendTaskReminder, sendMail, console, emit, throw,
    try_catch, mbind, M_bind, mret, M_ret.
  simpl. destruct (negb (transporter env) || _); [done|].
  simpl. by destruct (sendMail_rejects env _).
Qed.

(** One iteration of the scan for a task whose owner has notifications
    enabled: the dispatcher is called, then the task is saved with its
    reminder cleared. *)
Lemma remind_run env now task owner s :
  User.emailNotifications (User.preferences owner) = true →
  NotificationService.remind env now (task, Some owner) s =
  let o1 := NotificationService.sendTaskReminder env
              (Task.userId (Doc.val task)) owner task s in
  let o2 := TaskModel.save env now
              (Doc.set "reminderDate" Task.reminderDate
                 Task.set_reminderDate None task) s in
  (result o2, final o2, events o1 ++ events o2).
Proof.
  intros En. unfold NotificationService.remind. simpl. rewrite En.
  erewrite bind_Ok by apply sendTaskReminder_run.
  by rewrite sendTaskReminder_run.
Qed.

Lemma remind_cleared env now entry s id :
  cleared id s → cleared id (final (NotificationService.remind env now entry s)).
Proof.
  intros (x & Hx & Hr).
  destruct entry as [task [owner|]]; [|by exists x].
  destruct (User.emailNotifications (User.preferences owner)) eqn:En.
  2: { unfold NotificationService.remind. simpl. rewrite En. by exists x. }
  rewrite remind_run by done. simpl.
  rewrite save_run. simpl. rewrite set_id.
  destruct (db_rejects env _); simpl; [by exists x|].
  unfold cleared. simpl.
  destruct (decide (Doc._id task = id)) as [->|];
    [|rewrite lookup_insert_ne by done; eauto].
  rewrite lookup_insert_eq. eexists. split; [done|].
  rewrite timestamps_reminderDate, pre_save_reminderDate.
  by apply set_get.
Qed.

Lemma remind_other env now entry s id :
  id ≠ Doc._id entry.1 →
  tasks (final (NotificationService.remind env now entry s)) !! id = tasks s !! id.
Proof.
  intros Hne.
  destruct entry as [task [owner|]]; [|done].
  destruct (User.emailNotifications (User.preferences owner)) eqn:En.
  2: { unfold NotificationService.remind. simpl. by rewrite En. }
  rewrite remind_run by done. simpl.
  rewrite save_run. simpl. rewrite set_id.
  destruct (db_rejects env _); simpl; [done|].
  by rewrite lookup_insert_ne.
Qed.

Lemma remind_Ok env now entry s :
  reliable env → result (NotificationService.remind env now entry s) = Ok tt.
Proof.
  intros Hdb.
  destruct entry as [task [owner|]]; [|done].
  destruct (User.emailNotifications (User.preferences owner)) eqn:En.
  2: { unfold NotificationService.remind. simpl. by rewrite En. }
  rewrite remind_run by done. simpl.
  rewrite save_run. simpl. by rewrite Hdb.
Qed.

Lemma remind_calls env now entry s userId id :
  EvCall (sendTaskReminder_called userId id)
    ∈ events (NotificationService.remind env now entry s) →
  id = Doc._id entry.1.
Proof.
  destruct entry as [task [owner|]]; [|by intros ?%elem_of_nil].
  destruct (User.emailNotifications (User.preferences owner)) eqn:En.
  2: { unfold NotificationService.remind. simpl. rewrite En.
       by intros ?%elem_of_nil. }
  rewrite remind_run by done. simpl.
  rewrite save_run, sendTaskReminder_run. simpl.
  rewrite elem_of_cons, elem_of_app. intros [[= _ ->]|[H|H]]; [done|..].
  - revert H. repeat case_match; simpl; rewrite ?elem_of_cons, ?elem_of_nil;
      intuition (try discriminate).
  - revert H. repeat case_match; simpl; rewrite ?elem_of_cons, ?elem_of_nil;
      intuition (try discriminate).
Qed.

(** The scan, unfolded: the query, then the loop over what it returned;
    an exception from either ends the run in the job-level handler. *)
Lemma scan_run env now s :
  NotificationService.checkAndSendReminders env now s =
  if db_rejects env Task_find_reminders then
    (Ok tt, s,
     [EvDb Task_find_reminders false; EvConsole "Error checking reminders:"])
  else
    let o := for_of (NotificationService.populate s <$>
                       NotificationService.tasksToRemind now (tasks s))
                    (NotificationService.remind env now) s in
    (Ok tt, final o,
     EvDb Task_find_reminders true :: events o ++
     match result o with
     | Ok _ => []
     | Throw _ => [EvConsole "Error checking reminders:"]
     end).
Proof.
  unfold NotificationService.checkAndSendReminders, try_catch, db, gets,
    console, emit, mbind, M_bind.
  destruct (db_rejects env Task_find_reminders); [done|]. simpl.
  destruct (for_of _ _ s) as [[[[]|e] s1] t1]; simpl; [|done].
  by rewrite !app_nil_r.
Qed.

Lemma scan_events (P : Event → Prop) env now s :
  (∀ op ok, P (EvDb op ok)) →
  (∀ msg, P (EvConsole msg)) →
  (∀ entry s',
     entry ∈ NotificationService.populate s <$>
               NotificationService.tasksToRemind now (tasks s) →
     Forall P (events (NotificationService.remind env now entry s'))) →
  Forall P (events (NotificationService.checkAndSendReminders env now s)).
Proof.
  intros Hdb Hlog Hbody. rewrite scan_run.
  destruct (db_rejects env Task_find_reminders); simpl.
  { by repeat constructor. }
  constructor; [done|]. apply Forall_app. split.
  - by apply for_of_events.
  - case_match; by repeat constructor.
Qed.

Lemma scan_final (I : Db → Prop) env now s :
  (∀ entry s', I s' → I (final (NotificationService.remind env now entry s'))) →
  I s → I (final (NotificationService.checkAndSendReminders env now s)).
Proof.
  intros Hbody Hs. rewrite scan_run.
  destruct (db_rejects env Task_find_reminders); simpl; [done|].
  apply for_of_final; [|done]. intros ?? _. apply Hbody.
Qed.

(** A scan calls the dispatcher only for tasks its query selected. *)
Lemma scan_calls env now s userId id :
  EvCall (sendTaskReminder_called userId id)
    ∈ events (NotificationService.checkAndSendReminders env now s) →
  ∃ x, (id, x) ∈ NotificationService.tasksToRemind now (tasks s).
Proof.
  intros Hin.
  pose proof (scan_events
    (λ ev, ∀ userId id, ev = EvCall (sendTaskReminder_called userId id) →
       ∃ x, (id, x) ∈ NotificationService.tasksToRemind now (tasks s))
    env now s) as H.
  rewrite Forall_forall in H. eapply H; [done|done| |done|done].
  intros entry s' ([i x] & -> & Hx)%list_elem_of_fmap.
  apply Forall_forall. intros ev Hev u i' ->.
  apply remind_calls in Hev as ->. by exists x.
Qed.

(** Once a task's reminder is cleared, no scan dispatches for it. *)
Lemma cleared_scans runs s id :
  cleared id s →
  cleared id (scans runs s).1 ∧
  ∀ userId, EvCall (sendTaskReminder_called userId id) ∉ (scans runs s).2.
Proof.
  revert s. induction runs as [|[env now] runs IH]; intros s Hs; simpl.
  { split; [done|]. intros ?. apply not_elem_of_nil. }
  assert (cleared id
    (final (NotificationService.checkAndSendReminders env now s))) as Hs'.
  { apply scan_final; [|done]. intros. by apply remind_cleared. }
  destruct (IH _ Hs') as [IH1 IH2]. split; [done|].
  intros userId [Hin|Hin]%elem_of_app; [|by eapply IH2].
  apply scan_calls in Hin as (x & Hx).
  apply tasksToRemind_spec in Hx as (Hx & _ & r & Hr & _).
  destruct Hs as (x' & Hx' & Hr'). congruence.
Qed.

Lemma save_cleared_val now id x r :
  Task.reminderDate x = Some r →
  Doc.val (TaskModel.timestamps now (TaskModel.pre_save now
    (Doc.set "reminderDate" Task.reminderDate Task.set_reminderDate None
       (Doc.hydrate id x)))) = Task.set_reminderDate None x.
Proof.
  intros Hr. unfold Doc.set, Doc.hydrate. simpl. rewrite Hr. simpl.
  done.
Qed.

(** The iteration for a selected task whose owner has notifications
    enabled, under a reliable database. *)
Lemma remind_selected env now s s1 id x r owner :
  reliable env →
  Task.reminderDate x = Some r →
  users s !! Task.userId x = Some owner →
  User.emailNotifications (User.preferences owner) = true →
  NotificationService.remind env now
    (NotificationService.populate s (id, x)) s1 =
  (Ok tt, set_tasks (<[id := Task.set_reminderDate None x]>) s1,
   events (NotificationService.sendTaskReminder env (Task.userId x) owner
             (Doc.hydrate id x) s)
     ++ [EvDb (Task_save id) true]).
Proof.
  intros Hdb Hr Hu En. unfold NotificationService.populate. simpl.
  rewrite Hu, remind_run by done. simpl. rewrite save_run. simpl.
  rewrite Hdb. simpl. rewrite (save_cleared_val _ _ _ r) by done.
  by rewrite !sendTaskReminder_run, !set_id.
Qed.

(** Under a reliable database the scan reaches every selected task whose
    owner has notifications enabled: it calls the dispatcher, then saves
    the task with its reminder cleared, and nothing later in the run
    touches that task again. *)
Lemma scan_processes env now s id x owner :
  reliable env →
  (id, x) ∈ NotificationService.tasksToRemind now (tasks s) →
  users s !! Task.userId x = Some owner →
  User.emailNotifications (User.preferences owner) = true →
  let o := NotificationService.checkAndSendReminders env now s in
  result o = Ok tt ∧
  (∃ t1 t3,
     events o =
       t1 ++ events (NotificationService.sendTaskReminder env (Task.userId x)
                       owner (Doc.hydrate id x) s)
          ++ EvDb (Task_save id) true :: t3) ∧
  tasks (final o) !! id = Some (Task.set_reminderDate None x).
Proof.
  intros Hdb Hsel Hu En o. subst o. rewrite scan_run, Hdb.
  pose proof (find_NoDup
    (TaskModel.reminder_query now (now + 15 * 60 * 1000)) (tasks s)) as Hnd.
  pose proof Hsel as (_ & _ & r & Hr & _)%tasksToRemind_spec.
  unfold NotificationService.tasksToRemind in *.
  apply list_elem_of_split in Hsel as (l1 & l2 & Hl). rewrite Hl in *.
  rewrite fmap_app, fmap_cons.
  assert (∀ entry s', True →
    result (NotificationService.remind env now entry s') = Ok tt ∧ True)
    as Hok by (intros; split; [by apply remind_Ok|done]).
  destruct (for_of_reaches (NotificationService.remind env now) (λ _, True)
              (NotificationService.populate s <$> l1)
              (NotificationService.populate s (id, x))
              (NotificationService.populate s <$> l2) s)
    as (s1 & t1 & _ & E); [by intros; apply Hok|done|].
  rewrite E. clear E.
  rewrite (remind_selected env now s s1 id x r owner) by done.
  unfold final at 2 3 4, events at 3. simpl.
  set (o2 := for_of _ _ _).
  assert (result o2 = Ok tt) as Hr2.
  { apply (for_of_Ok _ (λ _, True)); [|done]. by intros; apply Hok. }
  rewrite Hr2. simpl.
  split; [done|split].
  - exists (EvDb Task_find_reminders true :: t1), (events o2). simpl.
    by rewrite app_nil_r, <-!app_assoc.
  - apply (for_of_final _
      (λ s', tasks s' !! id = Some (Task.set_reminderDate None x))).
    + intros entry s' ([i y] & -> & Hy)%list_elem_of_fmap Hs'.
      rewrite remind_other; [done|]. simpl. intros <-.
      rewrite fmap_app, fmap_cons in Hnd. simpl in Hnd.
      apply NoDup_app in Hnd as (_ & _ & Hnd).
      apply NoDup_cons in Hnd as [Hnd _]. apply Hnd.
      apply list_elem_of_fmap. by exists (id, y).
    + simpl. by rewrite lookup_insert_eq.
Qed.

(** C1. The reminder scan run at [now] selects exactly the incomplete
    tasks whose [reminderDate] lies between [now] and fifteen minutes
    later, both ends included.  In any environment the scan dispatches a
    reminder only for such a task.  When the database answers its query,
    the loop of the scan runs over exactly these tasks, each once.  When
    the database answers throughout, a task whose owner has mail
    notifications enabled has its reminder dispatched by the scan if and
    only if it is such a task.  Alice's report, with its reminder due on
    2024-01-10 at 09:00Z, is dispatched by the scan of 08:50Z and not by
    the scan of 08:40Z. *)
Theorem reminder_scan_selects env now s :
  let o := NotificationService.checkAndSendReminders env now s in
  let due (x : Task.t) :=
    Task.completed x = false ∧
    ∃ r, Task.reminderDate x = Some r ∧
         now ≤ r ≤ now + 15 * Date.MS_PER_MINUTE in
  (∀ userId id,
     EvCall (sendTaskReminder_called userId id) ∈ events o →
     ∃ x, tasks s !! id = Some x ∧ due x) ∧
  (db_rejects env Task_find_reminders = false →
   ∃ selected : list (ObjectId * Task.t),
     NoDup selected.*1 ∧
     (∀ id x, (id, x) ∈ selected ↔ tasks s !! id = Some x ∧ due x) ∧
     let loop :=
       for_of (NotificationService.populate s <$> selected)
         (NotificationService.remind env now) s in
     final o = final loop ∧
     events o =
       EvDb Task_find_reminders true :: events loop ++
       match result loop with
       | Ok _ => []
       | Throw _ => [EvConsole "Error checking reminders:"]
       end) ∧
  (reliable env →
   ∀ id x owner,
     tasks s !! id = Some x →
     users s !! Task.userId x = Some owner →
     User.emailNotifications (User.preferences owner) = true →
     (EvCall (sendTaskReminder_called (Task.userId x) id) ∈ events o ↔
      due x)) ∧
  EvCall (sendTaskReminder_called 1%positive 1%positive)
    ∈ events (NotificationService.checkAndSendReminders env0
                (Date.UTC 2024 1 10 8 50) db0) ∧
  EvCall (sendTaskReminder_called 1%positive 1%positive)
    ∉ events (NotificationService.checkAndSendReminders env0
                (Date.UTC 2024 1 10 8 40) db0).
Proof.
  intros o due.
  assert (∀ userId id,
     EvCall (sendTaskReminder_called userId id) ∈ events o →
     ∃ x, tasks s !! id = Some x ∧ due x) as Hsound.
  { intros userId id (x & Hx)%scan_calls. exists x.
    by apply tasksToRemind_spec in Hx. }
  split; [exact Hsound|]. split; [|split; [|split]].
  - intros Hfind.
    exists (NotificationService.tasksToRemind now (tasks s)).
    split; [apply find_NoDup|]. split; [apply tasksToRemind_spec|].
    subst o. by rewrite scan_run, Hfind.
  - intros Hdb id x owner Hx Hu En. split.
    + intros (x' & Hx' & Hdue)%Hsound. by simplify_eq.
    + intros Hdue.
      destruct (scan_processes env now s id x owner)
        as (_ & (t1 & t3 & E) & _); [done| |done|done|].
      { by apply tasksToRemind_spec. }
      subst o. rewrite E, sendTaskReminder_run. simpl.
      apply elem_of_app. right. by left.
  - set (l := events _). vm_compute in l. subst l.
    rewrite !elem_of_cons. tauto.
  - set (l := events _). vm_compute in l. subst l.
    rewrite ?elem_of_cons, elem_of_nil. intuition discriminate.
Qed.

(** C2. In a run in which the database answers every operation, a task
    the scan processes whose owner has notifications enabled gets its
    reminder dispatched (the dispatcher is called and, when a transporter
    is configured, hands the reminder mail to it) and, after that, its
    [reminderDate] set to null in the database; a scan run again on the
    resulting database, at whatever time and in whatever environment,
    does not dispatch a reminder for that task. *)
Theorem reminder_dispatched_then_cleared env now s id x owner :
  reliable env →
  (id, x) ∈ NotificationService.tasksToRemind now (tasks s) →
  users s !! Task.userId x = Some owner →
  User.emailNotifications (User.preferences owner) = true →
  let o := NotificationService.checkAndSendReminders env now s in
  let m := mkMail (EMAIL_USER env) (User.email owner)
             ("Reminder: " +:+ Task.title x)
             (ReminderEmailTemplate owner x) in
  (∃ t1 t2 t3,
     events o =
       t1 ++ EvCall (sendTaskReminder_called (Task.userId x) id)
          :: t2 ++ EvDb (Task_save id) true :: t3 ∧
     (transporter env = true →
      EvSendMail m (negb (sendMail_rejects env m)) ∈ t2)) ∧
  (∃ x', tasks (final o) !! id = Some x' ∧ Task.reminderDate x' = None) ∧
  ∀ env' now' userId,
    EvCall (sendTaskReminder_called userId id)
      ∉ events (NotificationService.checkAndSendReminders env' now' (final o)).
Proof.
  intros Hdb Hsel Hu En o m.
  destruct (scan_processes env now s id x owner Hdb Hsel Hu En)
    as (_ & (t1 & t3 & Hev) & Hfin).
  fold o in Hev, Hfin. split; [|split].
  - rewrite sendTaskReminder_run in Hev. simpl in Hev. fold m in Hev.
    eexists t1, _, t3. split; [exact Hev|].
    intros ->. rewrite En. simpl.
    destruct (sendMail_rejects env m); by left.
  - by exists (Task.set_reminderDate None x).
  - intros env' now' userId Hin.
    apply scan_calls in Hin as (x' & Hx').
    apply tasksToRemind_spec in Hx' as (Hx' & _ & r & Hr & _).
    rewrite Hfin in Hx'. by injection Hx' as <-.
Qed.

Lemma reminder_dispatched_then_cleared_witness :
  reliable env0 ∧
  (1%positive, report)
    ∈ NotificationService.tasksToRemind (Date.UTC 2024 1 10 8 50) (tasks db0) ∧
  users db0 !! Task.userId report = Some alice ∧
  User.emailNotifications (User.preferences alice) = true ∧
  let o := NotificationService.checkAndSendReminders env0
             (Date.UTC 2024 1 10 8 50) db0 in
  let m := mkMail (EMAIL_USER env0) (User.email alice)
             ("Reminder: " +:+ Task.title report)
             (ReminderEmailTemplate alice report) in
  (∃ t1 t2 t3,
     events o =
       t1 ++ EvCall (sendTaskReminder_called (Task.userId report) 1%positive)
          :: t2 ++ EvDb (Task_save 1%positive) true :: t3 ∧
     (transporter env0 = true →
      EvSendMail m (negb (sendMail_rejects env0 m)) ∈ t2)) ∧
  (∃ x', tasks (final o) !! 1%positive = Some x' ∧
         Task.reminderDate x' = None) ∧
  ∀ env' now' userId,
    EvCall (sendTaskReminder_called userId 1%positive)
      ∉ events (NotificationService.checkAndSendReminders env' now' (final o)).
Proof.
  assert (reliable env0) as H1 by (intros op; reflexivity).
  assert ((1%positive, report)
    ∈ NotificationService.tasksToRemind (Date.UTC 2024 1 10 8 50) (tasks db0))
    as H2 by (vm_compute; right; left).
  assert (users db0 !! Task.userId report = Some alice) as H3 by reflexivity.
  assert (User.emailNotifications (User.preferences alice) = true) as H4
    by reflexivity.
  split; [exact H1|]. split; [exact H2|]. split; [exact H3|].
  split; [exact H4|].
  exact (reminder_dispatched_then_cleared env0 (Date.UTC 2024 1 10 8 50)
           db0 1%positive report alice H1 H2 H3 H4).
Defined.

(** C2, as stated, fails: the scan saves the task after the dispatch, and
    nothing catches a rejected save but the handler of the whole job.
    When the database rejects the save of Alice's report, the reminder
    mail has gone out, the report keeps its [reminderDate], and the scan
    run again on the resulting database dispatches the same reminder a
    second time. *)
Lemma reminder_dispatched_twice :
  let now := Date.UTC 2024 1 10 8 50 in
  let m := mkMail "todo@example.org" "alice@example.org" "Reminder: Report"
             (ReminderEmailTemplate alice report) in
  let o := NotificationService.checkAndSendReminders env_save_down now db0 in
  let o' := NotificationService.checkAndSendReminders env0 now (final o) in
  (1%positive, report) ∈ NotificationService.tasksToRemind now (tasks db0) ∧
  users db0 !! Task.userId report = Some alice ∧
  User.emailNotifications (User.preferences alice) = true ∧
  events o =
    [EvDb Task_find_reminders true;
     EvCall (sendTaskReminder_called 1%positive 1%positive);
     EvSendMail m true;
     EvConsole "Reminder email sent to alice@example.org for task: Report";
     EvDb (Task_save 1%positive) false;
     EvConsole "Error checking reminders:"] ∧
  tasks (final o) !! 1%positive = Some report ∧
  Task.reminderDate report = Some (Date.UTC 2024 1 10 9 0) ∧
  events o' =
    [EvDb Task_find_reminders true;
     EvCall (sendTaskReminder_called 1%positive 1%positive);
     EvSendMail m true;
     EvConsole "Reminder email sent to alice@example.org for task: Report";
     EvDb (Task_save 1%positive) true].
Proof.
  intros now m o o'.
  split; [vm_compute; right; left|].
  repeat split; by vm_compute.
Qed.

(** C3. A user whose [emailNotifications] preference is off is never
    handed to the dispatcher by the scan, and no reminder mail rendered
    for that user is sent. *)
Theorem scan_never_dispatches_to_disabled env now s userId owner :
  users s !! userId = Some owner →
  User.emailNotifications (User.preferences owner) = false →
  ∀ ev, ev ∈ events (NotificationService.checkAndSendReminders env now s) →
    (∀ id, ev ≠ EvCall (sendTaskReminder_called userId id)) ∧
    (∀ m ok x, ev = EvSendMail m ok → html m ≠ ReminderEmailTemplate owner x).
Proof.
  intros Hu Hoff ev Hev.
  pose proof (scan_events (reminder_event_ok s) env now s) as H.
  rewrite Forall_forall in H. specialize (H ltac:(done) ltac:(done)).
  assert (reminder_event_ok s ev) as Hok.
  { apply H; [|done].
    intros entry s' ([i y] & -> & _)%list_elem_of_fmap.
    by apply remind_events. }
  split.
  - intros id ->. destruct Hok as (owner' & Hu' & En). congruence.
  - intros m ok x -> Hm. destruct Hok as (owner' & x' & Hm' & _ & En).
    congruence.
Qed.

Lemma scan_never_dispatches_to_disabled_witness :
  users db0 !! 2%positive = Some bob ∧
  User.emailNotifications (User.preferences bob) = false ∧
  ∀ ev,
    ev ∈ events (NotificationService.checkAndSendReminders env0
                   (Date.UTC 2024 1 10 8 50) db0) →
    (∀ id, ev ≠ EvCall (sendTaskReminder_called 2%positive id)) ∧
    (∀ m ok x, ev = EvSendMail m ok → html m ≠ ReminderEmailTemplate bob x).
Proof.
  assert (users db0 !! 2%positive = Some bob) as H1 by reflexivity.
  assert (User.emailNotifications (User.preferences bob) = false) as H2
    by reflexivity.
  split; [exact H1|]. split; [exact H2|].
  exact (scan_never_dispatches_to_disabled env0 (Date.UTC 2024 1 10 8 50)
           db0 2%positive bob H1 H2).
Defined.

(** C10. When the mail server rejects the reminder (and the database
    answers every operation), the dispatcher catches and logs the
    failure, the scan goes on to save the task with its [reminderDate]
    set to null, and no later scan dispatches a reminder for that task:
    the failed reminder is not retried. *)
Theorem failed_reminder_is_consumed env now s id x owner :
  reliable env →
  transporter env = true →
  (id, x) ∈ NotificationService.tasksToRemind now (tasks s) →
  users s !! Task.userId x = Some owner →
  User.emailNotifications (User.preferences owner) = true →
  let m := mkMail (EMAIL_USER env) (User.email owner)
             ("Reminder: " +:+ Task.title x)
             (ReminderEmailTemplate owner x) in
  sendMail_rejects env m = true →
  let o := NotificationService.checkAndSendReminders env now s in
  result o = Ok tt ∧
  (∃ t1 t3,
     events o =
       t1 ++ [EvCall (sendTaskReminder_called (Task.userId x) id);
              EvSendMail m false;
              EvConsole "Failed to send reminder email:";
              EvDb (Task_save id) true] ++ t3) ∧
  tasks (final o) !! id = Some (Task.set_reminderDate None x) ∧
  ∀ runs userId,
    EvCall (sendTaskReminder_called userId id) ∉ (scans runs (final o)).2.
Proof.
  intros Hdb Htr Hsel Hu En m Hrej o.
  destruct (scan_processes env now s id x owner Hdb Hsel Hu En)
    as (Hres & (t1 & t3 & Hev) & Hfin).
  fold o in Hres, Hev, Hfin. split; [done|]. split; [|split; [done|]].
  - rewrite sendTaskReminder_run in Hev. simpl in Hev.
    rewrite Htr, En in Hev. simpl in Hev. fold m in Hev.
    rewrite Hrej in Hev. exists t1, t3. by rewrite Hev.
  - intros runs. apply cleared_scans.
    by exists (Task.set_reminderDate None x).
Qed.

Lemma failed_reminder_is_consumed_witness :
  reliable env_mail_down ∧
  transporter env_mail_down = true ∧
  (1%positive, report)
    ∈ NotificationService.tasksToRemind (Date.UTC 2024 1 10 8 50) (tasks db0) ∧
  users db0 !! Task.userId report = Some alice ∧
  User.emailNotifications (User.preferences alice) = true ∧
  let m := mkMail (EMAIL_USER env_mail_down) (User.email alice)
             ("Reminder: " +:+ Task.title report)
             (ReminderEmailTemplate alice report) in
  sendMail_rejects env_mail_down m = true ∧
  let o := NotificationService.checkAndSendReminders env_mail_down
             (Date.UTC 2024 1 10 8 50) db0 in
  result o = Ok tt ∧
  (∃ t1 t3,
     events o =
       t1 ++ [EvCall (sendTaskReminder_called (Task.userId report) 1%positive);
              EvSendMail m false;
              EvConsole "Failed to send reminder email:";
              EvDb (Task_save 1%positive) true] ++ t3) ∧
  tasks (final o) !! 1%positive = Some (Task.set_reminderDate None report) ∧
  ∀ runs userId,
    EvCall (sendTaskReminder_called userId 1%positive)
      ∉ (scans runs (final o)).2.
Proof.
  assert (reliable env_mail_down) as H1 by (intros op; reflexivity).
  assert (transporter env_mail_down = true) as H2 by reflexivity.
  assert ((1%positive, report)
    ∈ NotificationService.tasksToRemind (Date.UTC 2024 1 10 8 50) (tasks db0))
    as H3 by (vm_compute; right; left).
  assert (users db0 !! Task.userId report = Some alice) as H4 by reflexivity.
  assert (User.emailNotifications (User.preferences alice) = true) as H5
    by reflexivity.
  split; [exact H1|]. split; [exact H2|]. split; [exact H3|].
  split; [exact H4|]. split; [exact H5|]. intros m.
  assert (sendMail_rejects env_mail_down m = true) as H6 by reflexivity.
  split; [exact H6|].
  exact (failed_reminder_is_consumed env_mail_down (Date.UTC 2024 1 10 8 50)
           db0 1%positive report alice H1 H2 H3 H4 H5 H6).
Defined.

(** C10, as stated, fails: when the mail server refuses the reminder and
    the database then rejects the save of the task, the task keeps its
    [reminderDate], and the scan five minutes later tries the same
    reminder again. *)
Lemma failed_reminder_is_retried :
  let m := mkMail "todo@example.org" "alice@example.org" "Reminder: Report"
             (ReminderEmailTemplate alice report) in
  let o := NotificationService.checkAndSendReminders env_mail_save_down
             (Date.UTC 2024 1 10 8 50) db0 in
  let o' := NotificationService.checkAndSendReminders env_mail_down
              (Date.UTC 2024 1 10 8 55) (final o) in
  events o =
    [EvDb Task_find_reminders true;
     EvCall (sendTaskReminder_called 1%positive 1%positive);
     EvSendMail m false;
     EvConsole "Failed to send reminder email:";
     EvDb (Task_save 1%positive) false;
     EvConsole "Error checking reminders:"] ∧
  tasks (final o) !! 1%positive = Some report ∧
  Task.reminderDate report = Some (Date.UTC 2024 1 10 9 0) ∧
  events o' =
    [EvDb Task_find_reminders true;
     EvCall (sendTaskReminder_called 1%positive 1%positive);
     EvSendMail m false;
     EvConsole "Failed to send reminder email:";
     EvDb (Task_save 1%positive) true].
Proof. intros m o o'. repeat split; by vm_compute. Qed.

(** ** The batch jobs *)

Ltac in_trace :=
  repeat first [rewrite elem_of_cons | rewrite elem_of_app]; auto 10.

Lemma sendTaskDueSoonNotification_run env userId user due s :
  NotificationService.sendTaskDueSoonNotification env userId user due s =
  (Ok tt, s,
   EvCall (sendTaskDueSoonNotification_called userId (length due)) ::
   if negb (transporter env) ||
      negb (User.emailNotifications (User.preferences user)) ||
      bool_decide (length due = 0%nat)
   then []
   else
     let m := mkMail (EMAIL_USER env) (User.email user)
                (pretty (length due) +:+ " task" +:+
                 (if bool_decide (1 < length due)%nat then "s" else "") +:+
                 " due soon")
                (DueSoonEmailTemplate user due) in
     if sendMail_rejects env m
     then [EvSendMail m false;
           EvConsole "Failed to send due soon notification:"]
     else [EvSendMail m true;
           EvConsole ("Due soon notification sent to " +:+ User.email user +:+
                      " for " +:+ pretty (length due) +:+ " tasks")]).
Proof.
  unfold NotificationService.sendTaskDueSoonNotification, sendMail, console,
    emit, throw, try_catch, mbind, M_bind, mret, M_ret.
  simpl. destruct (negb (transporter env) || _ || _); [done|].
  simpl. by destruct (sendMail_rejects env _).
Qed.

Lemma sendWeeklySummary_run env userId user summary s :
  NotificationService.sendWeeklySummary env userId user summary s =
  (Ok tt, s,
   EvCall (sendWeeklySummary_called userId) ::
   if negb (transporter env) ||
      negb (User.emailNotifications (User.preferences user))
   then []
   else
     let m := mkMail (EMAIL_USER env) (User.email user)
                "Your Weekly Productivity Summary"
                (WeeklySummaryTemplate user summary) in
     if sendMail_rejects env m
     then [EvSendMail m false; EvConsole "Failed to send weekly summary:"]
     else [EvSendMail m true;
           EvConsole ("Weekly summary sent to " +:+ User.email user)]).
Proof.
  unfold NotificationService.sendWeeklySummary, sendMail, console,
    emit, throw, try_catch, mbind, M_bind, mret, M_ret.
  simpl. destruct (negb (transporter env) || _); [done|].
  simpl. by destruct (sendMail_rejects env _).
Qed.

(** The summary of a user's week, as a function of the task collection. *)
Lemma generateWeeklyStats_run env userId startDate s :
  reliable env →
  NotificationService.generateWeeklyStats env userId startDate s =
  (Ok (mkWeeklyStats
         (TaskModel.countDocuments
            (TaskModel.completedSince_query userId startDate) (tasks s))
         (TaskModel.countDocuments
            (TaskModel.createdSince_query userId startDate) (tasks s))
         (NotificationService.percent
            (TaskModel.countDocuments
               (TaskModel.ownerCompleted_query userId) (tasks s))
            (TaskModel.countDocuments
               (TaskModel.owner_query userId) (tasks s)))
         (length (NotificationService.recentDays userId startDate (tasks s)))
         (NotificationService.top
            (map_to_list
               (NotificationService.group_count
                  ((λ kv, Task.category kv.2) <$>
                   TaskModel.find
                     (TaskModel.completedSince_query userId startDate)
                     (tasks s)))))),
   s,
   [EvDb (Task_count_completedSince userId) true;
    EvDb (Task_count_createdSince userId) true;
    EvDb (Task_count_total userId) true;
    EvDb (Task_count_allCompleted userId) true;
    EvDb (Task_aggregate_topCategory userId) true;
    EvDb (Task_aggregate_recentDays userId) true]).
Proof.
  intros Hdb.
  unfold NotificationService.generateWeeklyStats, db, gets, mbind, M_bind,
    mret, M_ret.
  by rewrite !Hdb.
Qed.

Lemma dailyFor_run env tomorrow entry s :
  reliable env →
  NotificationService.dailyFor env tomorrow entry s =
  let due :=
    take 10 (TaskModel.find (TaskModel.dueSoon_query entry.1 tomorrow)
               (tasks s)).*2 in
  (Ok tt, s,
   EvDb (Task_find_dueSoon entry.1) true ::
   if bool_decide (0 < length due)%nat then
     events (NotificationService.sendTaskDueSoonNotification env entry.1
               entry.2 due s)
   else []).
Proof.
  intros Hdb. unfold NotificationService.dailyFor, db, gets, mbind, M_bind.
  rewrite Hdb. simpl. case_bool_decide; [|done].
  by rewrite sendTaskDueSoonNotification_run.
Qed.

Lemma weeklyFor_run env startDate entry s :
  reliable env →
  ∃ stats,
    NotificationService.generateWeeklyStats env entry.1 startDate s =
      (Ok stats, s,
       events (NotificationService.generateWeeklyStats env entry.1
                 startDate s)) ∧
    NotificationService.weeklyFor env startDate entry s =
      (Ok tt, s,
       events (NotificationService.generateWeeklyStats env entry.1
                 startDate s) ++
       events (NotificationService.sendWeeklySummary env entry.1 entry.2
                 stats s)).
Proof.
  intros Hdb. eexists. unfold NotificationService.weeklyFor.
  erewrite bind_Ok by by apply generateWeeklyStats_run.
  rewrite generateWeeklyStats_run by done. split; [done|].
  by rewrite sendWeeklySummary_run.
Qed.

Lemma usersToNotify_spec (coll : gmap ObjectId User.t) userId u :
  (userId, u) ∈ NotificationService.usersToNotify coll ↔
  coll !! userId = Some u ∧
  User.emailNotifications (User.preferences u) = true.
Proof.
  unfold NotificationService.usersToNotify.
  by rewrite elem_of_map_to_list, map_lookup_filter_Some.
Qed.

(** A loop whose iterations neither throw nor change the database emits
    the events of each of them. *)
Lemma for_of_pure {A} (body : A → M unit) l x s :
  (∀ y, y ∈ l → result (body y s) = Ok tt ∧ final (body y s) = s) →
  x ∈ l →
  result (for_of l body s) = Ok tt ∧
  final (for_of l body s) = s ∧
  ∃ t1 t2, events (for_of l body s) = t1 ++ events (body x s) ++ t2.
Proof.
  intros Hbody (l1 & l2 & ->)%list_elem_of_split.
  assert (∀ y s', y ∈ l1 ++ x :: l2 → s' = s →
    result (body y s') = Ok tt ∧ final (body y s') = s) as Hbody'.
  { intros y s' Hy ->. by apply Hbody. }
  destruct (for_of_reaches body (λ s', s' = s) l1 x l2 s Hbody' eq_refl)
    as (s1 & t1 & -> & E).
  rewrite E. unfold result at 1, final at 1, events at 1.
  split; [|split].
  - apply (for_of_Ok body (λ s', s' = s)).
    + intros y s' Hy. apply Hbody'. apply elem_of_app. right. by right.
    + apply Hbody'; [|done]. apply elem_of_app. right. by left.
  - apply (for_of_final body (λ s', s' = s)).
    + intros y s' Hy. apply Hbody'. apply elem_of_app. right. by right.
    + apply Hbody'; [|done]. apply elem_of_app. right. by left.
  - eauto.
Qed.

Lemma sendDailySummary_run env now s :
  reliable env →
  NotificationService.sendDailySummary env now s =
  let o := for_of (NotificationService.usersToNotify (users s))
             (NotificationService.dailyFor env
                (NotificationService.endOfTomorrow now)) s in
  match result o with
  | Ok _ =>
      (Ok tt, final o, EvDb User_find_emailNotifications true :: events o)
  | Throw _ =>
      (Ok tt, final o,
       EvDb User_find_emailNotifications true :: events o ++
       [EvConsole "Error sending daily summaries:"])
  end.
Proof.
  intros Hdb.
  unfold NotificationService.sendDailySummary, try_catch, db, gets, console,
    emit, mbind, M_bind.
  rewrite Hdb. simpl.
  by destruct (for_of _ _ s) as [[[[]|e] s1] t1].
Qed.

Lemma sendWeeklySummaries_run env now s :
  reliable env →
  NotificationService.sendWeeklySummaries env now s =
  let o := for_of (NotificationService.usersToNotify (users s))
             (NotificationService.weeklyFor env
                (NotificationService.oneWeekAgo now)) s in
  match result o with
  | Ok _ =>
      (Ok tt, final o, EvDb User_find_emailNotifications true :: events o)
  | Throw _ =>
      (Ok tt, final o,
       EvDb User_find_emailNotifications true :: events o ++
       [EvConsole "Error sending weekly summaries:"])
  end.
Proof.
  intros Hdb.
  unfold NotificationService.sendWeeklySummaries, try_catch, db, gets,
    console, emit, mbind, M_bind.
  rewrite Hdb. simpl.
  by destruct (for_of _ _ s) as [[[[]|e] s1] t1].
Qed.

(** C4, as the code has it.  A failed mail delivery never stops a batch
    job: when no database operation rejects, then whatever the mail
    server does, the daily and the weekly job both process every user
    who has notifications enabled; the daily job hands each user who has
    due-soon tasks to the dispatcher and the weekly job hands every user
    to it. *)
Theorem batch_jobs_survive_mail_failures env now s userId u :
  reliable env →
  users s !! userId = Some u →
  User.emailNotifications (User.preferences u) = true →
  let daily := events (NotificationService.sendDailySummary env now s) in
  let weekly := events (NotificationService.sendWeeklySummaries env now s) in
  let due :=
    take 10 (TaskModel.find
               (TaskModel.dueSoon_query userId
                  (NotificationService.endOfTomorrow now)) (tasks s)).*2 in
  processedDaily userId daily ∧
  (due ≠ [] →
   EvCall (sendTaskDueSoonNotification_called userId (length due)) ∈ daily) ∧
  processedWeekly userId weekly ∧
  EvCall (sendWeeklySummary_called userId) ∈ weekly.
Proof.
  intros Hdb Hu En daily weekly due.
  assert ((userId, u) ∈ NotificationService.usersToNotify (users s)) as Hin
    by by apply usersToNotify_spec.
  destruct (for_of_pure
    (NotificationService.dailyFor env (NotificationService.endOfTomorrow now))
    (NotificationService.usersToNotify (users s)) (userId, u) s) as (Hr & _ & t1 & t2 & Hev); [|done|].
  { intros y _. by rewrite dailyFor_run. }
  destruct (for_of_pure
    (NotificationService.weeklyFor env (NotificationService.oneWeekAgo now))
    (NotificationService.usersToNotify (users s)) (userId, u) s) as (Hr' & _ & t1' & t2' & Hev'); [|done|].
  { intros y _.
    by destruct (weeklyFor_run env (NotificationService.oneWeekAgo now) y s)
      as (stats & _ & ->). }
  subst daily weekly.
  rewrite sendDailySummary_run, sendWeeklySummaries_run by done. simpl.
  rewrite Hr, Hr'. simpl. rewrite Hev, Hev'.
  rewrite dailyFor_run by done. cbv zeta.
  destruct (weeklyFor_run env (NotificationService.oneWeekAgo now)
              (userId, u) s) as (stats & _ & ->); [done|].
  rewrite generateWeeklyStats_run, sendWeeklySummary_run,
    sendTaskDueSoonNotification_run by done.
  simpl. fold due.
  split; [|split; [|split]].
  - exists true. in_trace.
  - intros Hdue. case_bool_decide as Hlen; [in_trace|].
    destruct due; [done|]. simpl in Hlen. lia.
  - exists true. in_trace.
  - in_trace.
Qed.

Lemma batch_jobs_survive_mail_failures_witness :
  reliable env_mail_down ∧
  users db1 !! 1%positive = Some alice ∧
  User.emailNotifications (User.preferences alice) = true ∧
  let now := Date.UTC 2024 1 10 9 0 in
  let daily :=
    events (NotificationService.sendDailySummary env_mail_down now db1) in
  let weekly :=
    events (NotificationService.sendWeeklySummaries env_mail_down now db1) in
  let due :=
    take 10 (TaskModel.find
               (TaskModel.dueSoon_query 1%positive
                  (NotificationService.endOfTomorrow now)) (tasks db1)).*2 in
  processedDaily 1%positive daily ∧
  (due ≠ [] →
   EvCall (sendTaskDueSoonNotification_called 1%positive (length due))
     ∈ daily) ∧
  processedWeekly 1%positive weekly ∧
  EvCall (sendWeeklySummary_called 1%positive) ∈ weekly.
Proof.
  assert (reliable env_mail_down) as H1 by (intros op; reflexivity).
  assert (users db1 !! 1%positive = Some alice) as H2 by reflexivity.
  assert (User.emailNotifications (User.preferences alice) = true) as H3
    by reflexivity.
  split; [exact H1|]. split; [exact H2|]. split; [exact H3|].
  exact (batch_jobs_survive_mail_failures env_mail_down
           (Date.UTC 2024 1 10 9 0) db1 1%positive alice H1 H2 H3).
Defined.

(** C4, as stated, fails: the [try]/[catch] of both jobs encloses the
    whole loop.  When the query for Carol's tasks rejects, the daily job
    ends without having processed Alice, who has notifications enabled
    and a task due; the weekly job ends the same way. *)
Lemma batch_jobs_abort_on_database_error :
  let now := Date.UTC 2024 1 10 9 0 in
  db_rejects env_db_down User_find_emailNotifications = false ∧
  users db1 !! 1%positive = Some alice ∧
  User.emailNotifications (User.preferences alice) = true ∧
  events (NotificationService.sendDailySummary env_db_down now db1) =
    [EvDb User_find_emailNotifications true;
     EvDb (Task_find_dueSoon 3%positive) false;
     EvConsole "Error sending daily summaries:"] ∧
  ¬ processedDaily 1%positive
      (events (NotificationService.sendDailySummary env_db_down now db1)) ∧
  events (NotificationService.sendWeeklySummaries env_db_down now db1) =
    [EvDb User_find_emailNotifications true;
     EvDb (Task_count_completedSince 3%positive) false;
     EvConsole "Error sending weekly summaries:"] ∧
  ¬ processedWeekly 1%positive
      (events (NotificationService.sendWeeklySummaries env_db_down now db1)).
Proof.
  intros now.
  assert (events (NotificationService.sendDailySummary env_db_down now db1) =
    [EvDb User_find_emailNotifications true;
     EvDb (Task_find_dueSoon 3%positive) false;
     EvConsole "Error sending daily summaries:"]) as Hd by by vm_compute.
  assert (events (NotificationService.sendWeeklySummaries env_db_down now db1) =
    [EvDb User_find_emailNotifications true;
     EvDb (Task_count_completedSince 3%positive) false;
     EvConsole "Error sending weekly summaries:"]) as Hw by by vm_compute.
  split; [done|]. split; [done|]. split; [done|].
  split; [exact Hd|]. split; [|split; [exact Hw|]].
  - rewrite Hd. intros [ok Hin].
    rewrite !elem_of_cons, elem_of_nil in Hin.
    by destruct Hin as [?|[?|[?|[]]]].
  - rewrite Hw. intros [ok Hin].
    rewrite !elem_of_cons, elem_of_nil in Hin.
    by destruct Hin as [?|[?|[?|[]]]].
Qed.

(** ** Task routes *)

Lemma put_run env now req s x0 :
  reliable env →
  validation_isEmpty req = true →
  tasks s !! params_id req = Some x0 →
  Task.userId x0 = user req →
  TaskRoutes.put env now req s =
  (Ok (mkResponse 200 true "Task updated successfully"),
   set_tasks (<[params_id req :=
                  Doc.val (TaskModel.timestamps now
                             (TaskModel.pre_save now (updated req x0)))]>) s,
   [EvDb (Task_findOne (params_id req) (user req)) true;
    EvDb (Task_save (params_id req)) true]).
Proof.
  intros Hdb Hv Hx Hu. unfold TaskRoutes.put. rewrite Hv. simpl.
  apply try_catch_Ok.
  erewrite bind_Ok by by apply findOne_run.
  rewrite Hx, decide_True by done. fold (updated req x0).
  erewrite bind_Ok by by apply save_Ok.
  assert (Doc._id (updated req x0) = params_id req) as ->; [|done].
  unfold updated. case_match; by rewrite ?set_id, assign_id.
Qed.

Lemma post_run env now req s :
  reliable env →
  validation_isEmpty req = true →
  Task.title (Doc.val (created req s)) ≠ "" →
  Task.category (Doc.val (created req s)) ≠ "" →
  TaskRoutes.post env now req s =
  (Ok (mkResponse 201 true "Task created successfully"),
   set_tasks (<[fresh (dom (tasks s)) :=
                  Doc.val (TaskModel.timestamps now
                             (TaskModel.pre_save now (created req s)))]>) s,
   [EvDb (Task_save (fresh (dom (tasks s)))) true]).
Proof.
  intros Hdb Hv Ht Hc. unfold TaskRoutes.post. rewrite Hv. cbn [negb].
  apply try_catch_Ok. unfold gets.
  erewrite bind_Ok by done. fold (created req s).
  rewrite !bool_decide_eq_false_2 by done.
  erewrite bind_Ok by done. simpl.
  erewrite bind_Ok by by apply save_Ok.
  assert (Doc._id (created req s) = fresh (dom (tasks s))) as ->; [|done].
  unfold created. by rewrite assign_id.
Qed.

(** C5. A task created with a due date, and a task updated by a request
    that carries a due date, is stored with [reminderDate] one hour
    before [dueDate] (the requests pass validation and the database
    answers every operation). *)
Theorem reminder_one_hour_before_due env now (create update : Request TaskBody.t)
    s title category d d' x0 :
  reliable env →
  validation_isEmpty create = true →
  TaskBody.title (body create) = Some title → title ≠ "" →
  TaskBody.category (body create) = Some category → category ≠ "" →
  TaskBody.dueDate (body create) = Some d →
  validation_isEmpty update = true →
  tasks s !! params_id update = Some x0 →
  Task.userId x0 = user update →
  TaskBody.dueDate (body update) = Some d' →
  (let o := TaskRoutes.post env now create s in
   result o = Ok (mkResponse 201 true "Task created successfully") ∧
   ∃ x, tasks (final o) !! fresh (dom (tasks s)) = Some x ∧
        Task.dueDate x = Some d ∧
        Task.reminderDate x = Some (d - Date.MS_PER_HOUR)) ∧
  (let o := TaskRoutes.put env now update s in
   result o = Ok (mkResponse 200 true "Task updated successfully") ∧
   ∃ x, tasks (final o) !! params_id update = Some x ∧
        Task.dueDate x = Some d' ∧
        Task.reminderDate x = Some (d' - Date.MS_PER_HOUR)).
Proof.
  intros Hdb Hv Ht Ht' Hc Hc' Hd Hv' Hx Hu Hd'.
  change Date.MS_PER_HOUR with (60 * 60 * 1000). split.
  - rewrite post_run; [|done|done|..].
    + split; [done|]. eexists. split; [apply lookup_insert_eq|].
      rewrite timestamps_dueDate, pre_save_dueDate,
        timestamps_reminderDate, pre_save_reminderDate.
      unfold created. taskData. rewrite assign_dueDate, assign_reminderDate.
      rewrite Hd. simpl. by rewrite Hd.
    + unfold created. taskData. rewrite assign_title, Hd. simpl.
      by rewrite Ht.
    + unfold created. taskData. rewrite assign_category, Hd. simpl.
      by rewrite Hc.
  - rewrite (put_run env now update s x0) by done.
    split; [done|]. eexists. split; [apply lookup_insert_eq|].
    rewrite timestamps_dueDate, pre_save_dueDate,
      timestamps_reminderDate, pre_save_reminderDate.
    unfold updated. rewrite Hd'. rewrite set_get by done.
    rewrite set_other by done. by rewrite assign_dueDate, Hd'.
Qed.

Lemma reminder_one_hour_before_due_witness :
  reliable env0 ∧
  validation_isEmpty create_req = true ∧
  TaskBody.title (body create_req) = Some "Slides" ∧ "Slides" ≠ "" ∧
  TaskBody.category (body create_req) = Some "Work" ∧ "Work" ≠ "" ∧
  TaskBody.dueDate (body create_req) = Some (Date.UTC 2024 1 10 10 0) ∧
  validation_isEmpty reschedule_req = true ∧
  tasks db0 !! params_id reschedule_req = Some report ∧
  Task.userId report = user reschedule_req ∧
  TaskBody.dueDate (body reschedule_req) = Some (Date.UTC 2024 1 11 10 0) ∧
  (let o := TaskRoutes.post env0 (Date.UTC 2024 1 8 12 0) create_req db0 in
   result o = Ok (mkResponse 201 true "Task created successfully") ∧
   ∃ x, tasks (final o) !! fresh (dom (tasks db0)) = Some x ∧
        Task.dueDate x = Some (Date.UTC 2024 1 10 10 0) ∧
        Task.reminderDate x =
          Some (Date.UTC 2024 1 10 10 0 - Date.MS_PER_HOUR)) ∧
  (let o := TaskRoutes.put env0 (Date.UTC 2024 1 8 12 0) reschedule_req db0 in
   result o = Ok (mkResponse 200 true "Task updated successfully") ∧
   ∃ x, tasks (final o) !! params_id reschedule_req = Some x ∧
        Task.dueDate x = Some (Date.UTC 2024 1 11 10 0) ∧
        Task.reminderDate x =
          Some (Date.UTC 2024 1 11 10 0 - Date.MS_PER_HOUR)).
Proof.
  assert (reliable env0) as H1 by (intros op; reflexivity).
  assert ("Slides" ≠ "") as H2 by discriminate.
  assert ("Work" ≠ "") as H3 by discriminate.
  split; [exact H1|]. split; [reflexivity|]. split; [reflexivity|].
  split; [exact H2|]. split; [reflexivity|]. split; [exact H3|].
  split; [reflexivity|]. split; [reflexivity|]. split; [reflexivity|].
  split; [reflexivity|]. split; [reflexivity|].
  exact (reminder_one_hour_before_due env0 (Date.UTC 2024 1 8 12 0)
           create_req reschedule_req db0 "Slides" "Work"
           (Date.UTC 2024 1 10 10 0) (Date.UTC 2024 1 11 10 0) report
           H1 eq_refl eq_refl H2 eq_refl H3 eq_refl eq_refl eq_refl eq_refl
           eq_refl).
Defined.

(** The example of the specification: due at 10:00Z, reminded at 09:00Z. *)
Example reminder_of_2024_01_10 :
  Date.UTC 2024 1 10 10 0 - Date.MS_PER_HOUR = Date.UTC 2024 1 10 9 0.
Proof. reflexivity. Qed.

(** ** The [completedAt] stamp *)

Lemma pre_save_completedAt now d :
  Task.completedAt (Doc.val (TaskModel.pre_save now d)) =
  if Doc.isModified "completed" d then
    if Task.completed (Doc.val d) then Some now else None
  else Task.completedAt (Doc.val d).
Proof.
  unfold TaskModel.pre_save. repeat case_match; by rewrite ?set_get.
Qed.

(** On a loaded task, [completed] counts as modified exactly when the
    request changes it. *)
Lemma updated_isModified_completed req x0 :
  Doc.isModified "completed" (updated req x0) =
  match TaskBody.completed (body req) with
  | Some v => bool_decide (Task.completed x0 ≠ v)
  | None => false
  end.
Proof.
  unfold updated.
  assert (Doc.isModified "completed"
            (TaskRoutes.assign (body req) (Doc.hydrate (params_id req) x0)) =
          match TaskBody.completed (body req) with
          | Some v => bool_decide (Task.completed x0 ≠ v)
          | None => false
          end) as E.
  { unfold TaskRoutes.assign. assign_other.
    destruct (TaskBody.completed (body req)) as [v|]; simpl.
    - rewrite set_isModified_same.
      + by assign_other.
      + by assign_other.
      + assign_other. apply bool_decide_eq_false_2, not_elem_of_nil.
    - by assign_other. }
  destruct (TaskBody.dueDate (body req)); [|done].
  by rewrite set_isModified_other.
Qed.

Lemma updated_completed req x0 :
  Task.completed (Doc.val (updated req x0)) =
  default (Task.completed x0) (TaskBody.completed (body req)).
Proof.
  unfold updated. destruct (TaskBody.dueDate (body req));
    rewrite ?set_other by done; by rewrite assign_completed.
Qed.

Lemma updated_completedAt req x0 :
  Task.completedAt (Doc.val (updated req x0)) =
  default (Task.completedAt x0) (TaskBody.completedAt (body req)).
Proof.
  unfold updated. destruct (TaskBody.dueDate (body req));
    rewrite ?set_other by done; by rewrite assign_completedAt.
Qed.

(** C6, as the code has it.  Every save runs the middleware, which
    stamps [completedAt] with the current time when [completed] was
    modified to true, clears it when [completed] was modified to false,
    and leaves it as it is when [completed] was not modified.  So an
    update whose body carries no [completedAt] key stores [completedAt] as
    the current time when [completed] goes from false to true, as null
    when it goes from true to false, and as it was when [completed] does
    not change; such an update keeps "[completedAt] is present iff
    [completed]" true of the task. *)
Theorem completedAt_follows_completed env now req s x0 :
  reliable env →
  validation_isEmpty req = true →
  tasks s !! params_id req = Some x0 →
  Task.userId x0 = user req →
  TaskBody.completedAt (body req) = None →
  (∀ this : Doc.t Task.t,
     let this' := TaskModel.pre_save now this in
     Task.completed (Doc.val this') = Task.completed (Doc.val this) ∧
     Task.completedAt (Doc.val this') =
       if Doc.isModified "completed" this then
         if Task.completed (Doc.val this) then Some now else None
       else Task.completedAt (Doc.val this)) ∧
  let o := TaskRoutes.put env now req s in
  ∃ x, tasks (final o) !! params_id req = Some x ∧
    (Task.completed x0 = false → Task.completed x = true →
     Task.completedAt x = Some now) ∧
    (Task.completed x0 = true → Task.completed x = false →
     Task.completedAt x = None) ∧
    (Task.completed x = Task.completed x0 →
     Task.completedAt x = Task.completedAt x0) ∧
    (completedAt_iff_completed x0 → completedAt_iff_completed x).
Proof.
  intros Hdb Hv Hx Hu Hc. split.
  { intros this this'. subst this'.
    by rewrite pre_save_completed, pre_save_completedAt. }
  intros o. subst o.
  rewrite (put_run env now req s x0) by done.
  eexists. split; [apply lookup_insert_eq|].
  unfold completedAt_iff_completed.
  rewrite timestamps_completed, pre_save_completed, timestamps_completedAt,
    pre_save_completedAt, updated_isModified_completed, updated_completed,
    updated_completedAt, Hc.
  simpl. destruct (TaskBody.completed (body req)) as [v|]; simpl.
  - case_bool_decide as Hv'; destruct v, (Task.completed x0);
      try done; split_and!; try congruence; try tauto.
  - split_and!; congruence || tauto.
Qed.

Lemma completedAt_follows_completed_witness :
  let now := Date.UTC 2024 1 9 18 0 in
  reliable env0 ∧
  validation_isEmpty complete_req = true ∧
  tasks db0 !! params_id complete_req = Some report ∧
  Task.userId report = user complete_req ∧
  TaskBody.completedAt (body complete_req) = None ∧
  (∀ this : Doc.t Task.t,
     let this' := TaskModel.pre_save now this in
     Task.completed (Doc.val this') = Task.completed (Doc.val this) ∧
     Task.completedAt (Doc.val this') =
       if Doc.isModified "completed" this then
         if Task.completed (Doc.val this) then Some now else None
       else Task.completedAt (Doc.val this)) ∧
  let o := TaskRoutes.put env0 now complete_req db0 in
  ∃ x, tasks (final o) !! params_id complete_req = Some x ∧
    (Task.completed report = false → Task.completed x = true →
     Task.completedAt x = Some now) ∧
    (Task.completed report = true → Task.completed x = false →
     Task.completedAt x = None) ∧
    (Task.completed x = Task.completed report →
     Task.completedAt x = Task.completedAt report) ∧
    (completedAt_iff_completed report → completedAt_iff_completed x).
Proof.
  intros now.
  assert (reliable env0) as H1 by (intros op; reflexivity).
  split; [exact H1|]. split; [reflexivity|]. split; [reflexivity|].
  split; [reflexivity|]. split; [reflexivity|].
  exact (completedAt_follows_completed env0 now complete_req db0 report
           H1 eq_refl eq_refl eq_refl eq_refl).
Defined.

(** The sample update ticks the report off at 18:00Z on 2024-01-09. *)
Example report_completed :
  tasks (final (TaskRoutes.put env0 (Date.UTC 2024 1 9 18 0) complete_req db0))
    !! 1%positive =
  Some (Task.set_completedAt (Some (Date.UTC 2024 1 9 18 0))
          (Task.set_completed true report)).
Proof. by vm_compute. Qed.

(** C6, as stated, fails: the update handler copies every key of the body
    onto the task, and the middleware leaves [completedAt] alone while
    [completed] is not modified.  An update of an open task whose body is
    [{ completedAt: "2024-01-09T00:00:00Z" }] stores the task with
    [completedAt] present and [completed] false. *)
Lemma completedAt_without_completed :
  let o := TaskRoutes.put env0 (Date.UTC 2024 1 9 18 0) backdate_req db0 in
  tasks db0 !! 1%positive = Some report ∧
  completedAt_iff_completed report ∧
  result o = Ok (mkResponse 200 true "Task updated successfully") ∧
  ∃ x, tasks (final o) !! 1%positive = Some x ∧
       Task.completed x = false ∧
       Task.completedAt x = Some (Date.UTC 2024 1 9 0 0) ∧
       ¬ completedAt_iff_completed x.
Proof.
  intros o. split; [done|]. split.
  { by split. }
  split; [by vm_compute|].
  exists (Task.set_completedAt (Some (Date.UTC 2024 1 9 0 0)) report).
  split; [by vm_compute|]. split; [done|]. split; [done|].
  intros [H _]. by specialize (H ltac:(done)).
Qed.

(** ** Deleting a category *)

Lemma countDocuments_pos (q : Task.t → bool) (coll : gmap ObjectId Task.t) :
  (0 < TaskModel.countDocuments q coll)%nat ↔
  ∃ id x, coll !! id = Some x ∧ q x = true.
Proof.
  unfold TaskModel.countDocuments. split.
  - destruct (TaskModel.find q coll) as [|[id x] l] eqn:E; simpl; [lia|].
    intros _. exists id, x. apply find_spec. rewrite E. by left.
  - intros (id & x & Hx%find_spec).
    destruct (TaskModel.find q coll); simpl; [by apply elem_of_nil in Hx|lia].
Qed.

Lemma inCategory_referenced userId name (coll : gmap ObjectId Task.t) :
  (0 < TaskModel.countDocuments (TaskModel.inCategory_query userId name) coll)%nat
  ↔ referenced userId name coll.
Proof.
  rewrite countDocuments_pos. unfold referenced, TaskModel.inCategory_query.
  split; intros (id & x & Hx & H); exists id, x; split; try done.
  - apply andb_true_iff in H as [?%bool_decide_eq_true ?%bool_decide_eq_true].
    done.
  - destruct H as [? ?]. apply andb_true_iff.
    by rewrite !bool_decide_eq_true.
Qed.

Lemma Category_findOne_run env id userId s :
  reliable env →
  CategoryModel.findOne env id userId s =
  (Ok match categories s !! id with
      | Some c =>
          if decide (Category.userId c = userId) then Some (Doc.hydrate id c)
          else None
      | None => None
      end, s, [EvDb (Category_findOne id userId) true]).
Proof.
  intros Hdb. unfold CategoryModel.findOne, db, gets, mbind, M_bind.
  by rewrite Hdb.
Qed.

Lemma delete_run env req s c :
  reliable env →
  categories s !! params_id req = Some c →
  Category.userId c = user req →
  CategoryRoutes.delete env req s =
  let n := TaskModel.countDocuments
             (TaskModel.inCategory_query (user req) (Category.name c))
             (tasks s) in
  if bool_decide (0 < n)%nat then
    (Ok (mkResponse 400 false
           ("Cannot delete category. It contains " +:+ pretty n +:+
            " task(s). Please move or delete the tasks first.")),
     s,
     [EvDb (Category_findOne (params_id req) (user req)) true;
      EvDb (Task_count_inCategory (user req) (Category.name c)) true])
  else
    (Ok (mkResponse 200 true "Category deleted successfully"),
     set_categories (delete (params_id req)) s,
     [EvDb (Category_findOne (params_id req) (user req)) true;
      EvDb (Task_count_inCategory (user req) (Category.name c)) true;
      EvDb (Category_findByIdAndDelete (params_id req)) true]).
Proof.
  intros Hdb Hc Hu. unfold CategoryRoutes.delete, try_catch.
  erewrite bind_Ok by by apply Category_findOne_run.
  rewrite Hc, decide_True by done. simpl.
  unfold CategoryModel.findByIdAndDelete, db, gets, modify, mbind, M_bind,
    mret, M_ret.
  rewrite !Hdb. simpl. case_bool_decide; simpl; by rewrite ?Hdb.
Qed.

(** C7. Deleting a category that some task of its owner is filed under
    is refused with an error response (status 400) and changes nothing;
    deleting a category no task of its owner is filed under succeeds and
    removes the document from the collection.  The category exists and
    belongs to the requester, and the database answers every
    operation. *)
Theorem category_delete_guard env req s c :
  reliable env →
  categories s !! params_id req = Some c →
  Category.userId c = user req →
  let o := CategoryRoutes.delete env req s in
  (referenced (user req) (Category.name c) (tasks s) →
   (∃ r, result o = Ok r ∧ status r = 400 ∧ success r = false) ∧
   final o = s) ∧
  (¬ referenced (user req) (Category.name c) (tasks s) →
   result o = Ok (mkResponse 200 true "Category deleted successfully") ∧
   categories (final o) = delete (params_id req) (categories s) ∧
   categories (final o) !! params_id req = None ∧
   tasks (final o) = tasks s).
Proof.
  intros Hdb Hc Hu o. subst o. rewrite (delete_run env req s c) by done.
  cbv zeta. rewrite <-inCategory_referenced. split; intros Href.
  - rewrite bool_decide_eq_true_2 by done. simpl. eauto.
  - rewrite bool_decide_eq_false_2 by done. simpl.
    split_and!; try done. apply lookup_delete_eq.
Qed.

Lemma category_delete_guard_witness :
  reliable env0 ∧
  categories db2 !! params_id delete_work_req = Some work ∧
  Category.userId work = user delete_work_req ∧
  let o := CategoryRoutes.delete env0 delete_work_req db2 in
  (referenced (user delete_work_req) (Category.name work) (tasks db2) →
   (∃ r, result o = Ok r ∧ status r = 400 ∧ success r = false) ∧
   final o = db2) ∧
  (¬ referenced (user delete_work_req) (Category.name work) (tasks db2) →
   result o = Ok (mkResponse 200 true "Category deleted successfully") ∧
   categories (final o) =
     delete (params_id delete_work_req) (categories db2) ∧
   categories (final o) !! params_id delete_work_req = None ∧
   tasks (final o) = tasks db2).
Proof.
  assert (reliable env0) as H1 by (intros op; reflexivity).
  split; [exact H1|]. split; [reflexivity|]. split; [reflexivity|].
  exact (category_delete_guard env0 delete_work_req db2 work H1
           eq_refl eq_refl).
Defined.

(** Both outcomes on the sample data: "Work" holds Alice's report and
    stays; "Home" is empty and goes. *)
Example delete_work_refused :
  CategoryRoutes.delete env0 delete_work_req db2 =
  (Ok (mkResponse 400 false
         "Cannot delete category. It contains 1 task(s). Please move or delete the tasks first."),
   db2,
   [EvDb (Category_findOne 1%positive 1%positive) true;
    EvDb (Task_count_inCategory 1%positive "Work") true]).
Proof. by vm_compute. Qed.

Example delete_home_done :
  let o := CategoryRoutes.delete env0 delete_home_req db2 in
  result o = Ok (mkResponse 200 true "Category deleted successfully") ∧
  categories (final o) !! 2%positive = None ∧
  categories (final o) !! 1%positive = Some work.
Proof. by vm_compute. Qed.

(** ** The weekly streak *)

Lemma dom_group_count (keys : list string) :
  dom (NotificationService.group_count keys) = list_to_set keys.
Proof.
  induction keys as [|k keys IH]; simpl; [apply dom_empty_L|].
  by rewrite dom_insert_L, IH.
Qed.

(** The number of groups is the number of distinct keys. *)
Lemma group_count_length (keys : list string) :
  length (map_to_list (NotificationService.group_count keys)) =
  size (list_to_set keys : gset string).
Proof. by rewrite length_map_to_list, <-dom_group_count, size_dom. Qed.

Lemma completedSince_query_spec userId startDate x :
  TaskModel.completedSince_query userId startDate x = true ↔
  Task.userId x = userId ∧ Task.completed x = true ∧
  ∃ c, Task.completedAt x = Some c ∧ startDate ≤ c.
Proof.
  unfold TaskModel.completedSince_query.
  rewrite !andb_true_iff, bool_decide_eq_true.
  destruct (Task.completedAt x) as [c|].
  - rewrite Z.leb_le. split.
    + intros [[? ?] ?]. eauto.
    + intros (? & ? & c' & [= <-] & ?). done.
  - split; [intros [_ [=]]|intros (_ & _ & c & [=] & _)].
Qed.

(** The days the aggregation groups by. *)
Lemma completionDays_spec userId startDate (coll : gmap ObjectId Task.t) d :
  d ∈ omap (λ kv : ObjectId * Task.t,
              Date.dateToString <$> Task.completedAt kv.2)
        (TaskModel.find (TaskModel.completedSince_query userId startDate) coll)
  ↔ ∃ id x c, coll !! id = Some x ∧ Task.userId x = userId ∧
              Task.completed x = true ∧ Task.completedAt x = Some c ∧
              startDate ≤ c ∧ Date.dateToString c = d.
Proof.
  rewrite list_elem_of_omap. split.
  - intros ([id x] & [Hx Hq]%find_spec & Hd). simpl in Hd.
    apply completedSince_query_spec in Hq as (Hu & Hc & c & Hat & Hle).
    rewrite Hat in Hd. injection Hd as <-. by exists id, x, c.
  - intros (id & x & c & Hx & Hu & Hc & Hat & Hle & <-).
    exists (id, x). split.
    + apply find_spec. split; [done|]. apply completedSince_query_spec.
      eauto.
    + simpl. by rewrite Hat.
Qed.

Lemma size_list_to_set_fmap {A} `{Countable B, Countable C}
    (f : A → B) (g : A → C) (l : list A) :
  (∀ a b, a ∈ l → b ∈ l → f a = f b ↔ g a = g b) →
  size (list_to_set (f <$> l) : gset B) =
  size (list_to_set (g <$> l) : gset C).
Proof.
  induction l as [|a l IH]; intros Hfg; [done|].
  rewrite !fmap_cons, !list_to_set_cons.
  assert (size (list_to_set (f <$> l) : gset B) =
          size (list_to_set (g <$> l) : gset C)) as IH'.
  { apply IH. intros ????. apply Hfg; by right. }
  destruct (decide (f a ∈ f <$> l)) as [Hin|Hout].
  - assert (g a ∈ g <$> l) as Hin'.
    { apply list_elem_of_fmap in Hin as (b & Hb & Hl).
      apply list_elem_of_fmap. exists b. split; [|done].
      apply Hfg; [by left|by right|done]. }
    rewrite !subseteq_union_1_L; [done| |].
    + apply singleton_subseteq_l. by apply elem_of_list_to_set.
    + apply singleton_subseteq_l. by apply elem_of_list_to_set.
  - assert (g a ∉ g <$> l) as Hout'.
    { intros (b & Hb & Hl)%list_elem_of_fmap. apply Hout.
      apply list_elem_of_fmap. exists b. split; [|done].
      apply Hfg; [by left|by right|done]. }
    rewrite !size_union, !size_singleton, IH'; [done| |].
    + apply disjoint_singleton_l. by rewrite elem_of_list_to_set.
    + apply disjoint_singleton_l. by rewrite elem_of_list_to_set.
Qed.

Lemma omap_fmap_option {A B C} (f : B → C) (g : A → option B) (l : list A) :
  omap (λ a, f <$> g a) l = f <$> omap g l.
Proof.
  induction l as [|a l IH]; [done|]. csimpl.
  destruct (g a); csimpl; by rewrite IH.
Qed.

(** The [completedAt] values the aggregation behind [streak] groups. *)
Lemma completions_spec userId startDate (coll : gmap ObjectId Task.t) c :
  c ∈ omap (λ kv : ObjectId * Task.t, Task.completedAt kv.2)
        (TaskModel.find (TaskModel.completedSince_query userId startDate) coll)
  ↔ ∃ id x, coll !! id = Some x ∧ Task.userId x = userId ∧
            Task.completed x = true ∧ Task.completedAt x = Some c ∧
            startDate ≤ c.
Proof.
  rewrite list_elem_of_omap. split.
  - intros ([id x] & [Hx Hq]%find_spec & Hd). simpl in Hd.
    apply completedSince_query_spec in Hq as (Hu & Hc & c' & Hat & Hle).
    rewrite Hat in Hd. injection Hd as <-. by exists id, x.
  - intros (id & x & Hx & Hu & Hc & Hat & Hle).
    exists (id, x). split; [|done].
    apply find_spec. split; [done|]. apply completedSince_query_spec.
    eauto.
Qed.

(** The [streak] counts days: within the years 0 to 9999 two completions
    are rendered alike exactly when they fall on the same day. *)
Lemma streak_days env now userId s :
  reliable env →
  (∀ id x c, tasks s !! id = Some x → Task.userId x = userId →
     Task.completed x = true → Task.completedAt x = Some c →
     now - 7 * Date.MS_PER_DAY ≤ c → 0 ≤ Date.getUTCFullYear c ≤ 9999) →
  ∃ stats (days : gset Z),
    result (NotificationService.generateWeeklyStats env userId
              (NotificationService.oneWeekAgo now) s) = Ok stats ∧
    streak stats = size days ∧
    ∀ d, d ∈ days ↔
      ∃ id x c, tasks s !! id = Some x ∧ Task.userId x = userId ∧
                Task.completed x = true ∧ Task.completedAt x = Some c ∧
                now - 7 * Date.MS_PER_DAY ≤ c ∧ c / Date.MS_PER_DAY = d.
Proof.
  intros Hdb Hyears. rewrite generateWeeklyStats_run by done.
  set (cs := omap (λ kv : ObjectId * Task.t, Task.completedAt kv.2)
               (TaskModel.find
                  (TaskModel.completedSince_query userId
                     (NotificationService.oneWeekAgo now)) (tasks s))).
  eexists _, (list_to_set ((λ c, c / Date.MS_PER_DAY) <$> cs)).
  split; [done|]. split.
  - simpl. unfold NotificationService.recentDays.
    rewrite group_count_length.
    rewrite (omap_fmap_option Date.dateToString
               (λ kv : ObjectId * Task.t, Task.completedAt kv.2)).
    fold cs.
    apply size_list_to_set_fmap. intros a b Ha Hb.
    apply completions_spec in Ha as (i & x & Hx & Hu & Hc & Hat & Hle).
    apply completions_spec in Hb as (j & y & Hy & Hu' & Hc' & Hat' & Hle').
    split.
    + apply dateToString_inj; eauto.
    + intros E. unfold Date.dateToString. by rewrite E.
  - intros d. rewrite elem_of_list_to_set, list_elem_of_fmap. split.
    + intros (c & -> & (i & x & ?)%completions_spec). exists i, x, c.
      unfold NotificationService.oneWeekAgo in *. tauto.
    + intros (i & x & c & Hx & Hu & Hc & Hat & Hle & <-). exists c.
      split; [done|]. apply completions_spec. by exists i, x.
Qed.

(** C8. The weekly summary's [streak] is the number of distinct calendar
    dates (UTC) on which the user has a completed task whose
    [completedAt] is no earlier than seven days before the run; how many
    tasks were completed on a day does not matter.  The window has no
    upper end: a completion dated after the run counts as well.  So the
    [streak] is the number of distinct dates with a completion between
    seven days before the run and the run whenever no completion of the
    user is dated after the run.  (The database answers every query of
    the summary, and the completions counted lie in the years 0 to
    9999.)  On the sample week, five completions on three days give
    [streak = 3]. *)
Theorem streak_counts_distinct_days env now userId s :
  reliable env →
  (∀ id x c, tasks s !! id = Some x → Task.userId x = userId →
     Task.completed x = true → Task.completedAt x = Some c →
     now - 7 * Date.MS_PER_DAY ≤ c → 0 ≤ Date.getUTCFullYear c ≤ 9999) →
  (∃ stats (days : gset Z),
     result (NotificationService.generateWeeklyStats env userId
               (NotificationService.oneWeekAgo now) s) = Ok stats ∧
     streak stats = size days ∧
     (∀ d, d ∈ days ↔
        ∃ id x c, tasks s !! id = Some x ∧ Task.userId x = userId ∧
                  Task.completed x = true ∧ Task.completedAt x = Some c ∧
                  now - 7 * Date.MS_PER_DAY ≤ c ∧
                  c / Date.MS_PER_DAY = d) ∧
     ((∀ id x c, tasks s !! id = Some x → Task.userId x = userId →
                 Task.completedAt x = Some c → c ≤ now) →
      ∀ d, d ∈ days ↔
        ∃ id x c, tasks s !! id = Some x ∧ Task.userId x = userId ∧
                  Task.completed x = true ∧ Task.completedAt x = Some c ∧
                  now - 7 * Date.MS_PER_DAY ≤ c ≤ now ∧
                  c / Date.MS_PER_DAY = d)) ∧
  (result (NotificationService.generateWeeklyStats env0 1%positive
             (NotificationService.oneWeekAgo (Date.UTC 2024 1 14 18 0)) db3)
   = Ok (mkWeeklyStats 5 1 86 3 (Some ("Work", 5%nat)))).
Proof.
  intros Hdb Hyears. split; [|by vm_compute].
  destruct (streak_days env now userId s Hdb Hyears)
    as (stats & days & Hres & Hsize & Hdays).
  exists stats, days. split; [done|]. split; [done|]. split; [done|].
  intros Hpast d. rewrite Hdays. split.
  - intros (id & x & c & Hx & Hu & Hc & Hat & Hle & Hd).
    exists id, x, c. specialize (Hpast id x c Hx Hu Hat). tauto.
  - intros (id & x & c & Hx & Hu & Hc & Hat & Hle & Hd).
    exists id, x, c. tauto.
Qed.

Lemma streak_counts_distinct_days_witness :
  let now := Date.UTC 2024 1 14 18 0 in
  reliable env0 ∧
  (∀ id x c, tasks db3 !! id = Some x → Task.userId x = 1%positive →
     Task.completed x = true → Task.completedAt x = Some c →
     now - 7 * Date.MS_PER_DAY ≤ c → 0 ≤ Date.getUTCFullYear c ≤ 9999) ∧
  (∃ stats (days : gset Z),
     result (NotificationService.generateWeeklyStats env0 1%positive
               (NotificationService.oneWeekAgo now) db3) = Ok stats ∧
     streak stats = size days ∧
     (∀ d, d ∈ days ↔
        ∃ id x c, tasks db3 !! id = Some x ∧ Task.userId x = 1%positive ∧
                  Task.completed x = true ∧ Task.completedAt x = Some c ∧
                  now - 7 * Date.MS_PER_DAY ≤ c ∧
                  c / Date.MS_PER_DAY = d) ∧
     ((∀ id x c, tasks db3 !! id = Some x → Task.userId x = 1%positive →
                 Task.completedAt x = Some c → c ≤ now) →
      ∀ d, d ∈ days ↔
        ∃ id x c, tasks db3 !! id = Some x ∧ Task.userId x = 1%positive ∧
                  Task.completed x = true ∧ Task.completedAt x = Some c ∧
                  now - 7 * Date.MS_PER_DAY ≤ c ≤ now ∧
                  c / Date.MS_PER_DAY = d)) ∧
  (result (NotificationService.generateWeeklyStats env0 1%positive
             (NotificationService.oneWeekAgo (Date.UTC 2024 1 14 18 0)) db3)
   = Ok (mkWeeklyStats 5 1 86 3 (Some ("Work", 5%nat)))).
Proof.
  intros now.
  assert (reliable env0) as H1 by (intros op; reflexivity).
  assert (∀ id x c, tasks db3 !! id = Some x → Task.userId x = 1%positive →
     Task.completed x = true → Task.completedAt x = Some c →
     now - 7 * Date.MS_PER_DAY ≤ c → 0 ≤ Date.getUTCFullYear c ≤ 9999) as H2.
  { intros id x c Hx%elem_of_map_to_list _ _ Hc _. revert Hx.
    set (l := map_to_list (tasks db3)). vm_compute in l. subst l.
    rewrite !elem_of_cons, elem_of_nil.
    intros [Hx|[Hx|[Hx|[Hx|[Hx|[Hx|[Hx|[Hx|[]]]]]]]]];
      injection Hx as -> ->; simpl in Hc; try discriminate;
      injection Hc as <-; vm_compute; split; discriminate. }
  split; [exact H1|]. split; [exact H2|].
  exact (streak_counts_distinct_days env0 now 1%positive db3 H1 H2).
Defined.

(** C8, as stated, fails: the aggregation asks for [completedAt] no
    earlier than seven days before the run and sets no upper end, and
    the update handler stores a [completedAt] the client sends.  After
    Alice has written a [completedAt] of 2024-02-01 on a task, the
    summary of 2024-01-14 reports a streak of 4, while her completions
    between 2024-01-07 18:00Z and the run fall on three dates. *)
Lemma streak_counts_later_completions :
  let now := Date.UTC 2024 1 14 18 0 in
  let s := final (TaskRoutes.put env0 now postdate_req db3) in
  result (TaskRoutes.put env0 now postdate_req db3)
  = Ok (mkResponse 200 true "Task updated successfully") ∧
  result (NotificationService.generateWeeklyStats env0 1%positive
            (NotificationService.oneWeekAgo now) s)
  = Ok (mkWeeklyStats 6 1 86 4 (Some ("Work", 6%nat))) ∧
  ∀ id x c,
    tasks s !! id = Some x → Task.userId x = 1%positive →
    Task.completed x = true → Task.completedAt x = Some c →
    now - 7 * Date.MS_PER_DAY ≤ c ≤ now →
    Date.dateToString c ∈ ["2024-01-09"; "2024-01-11"; "2024-01-13"].
Proof.
  intros now s. split; [by vm_compute|]. split; [by vm_compute|].
  intros id x c Hx%elem_of_map_to_list Hu _ Hc. revert Hx.
  set (l := map_to_list (tasks s)). vm_compute in l. subst l.
  rewrite !elem_of_cons, elem_of_nil.
  intros [Hx|[Hx|[Hx|[Hx|[Hx|[Hx|[Hx|[Hx|[]]]]]]]]];
    injection Hx as -> ->; simpl in Hc, Hu; try discriminate;
    injection Hc as <-; vm_compute; intros [H1 H2];
    rewrite ?elem_of_cons; auto 6; try (by destruct H1); try (by destruct H2).
Qed.

(** ** The default category *)

(** A map has at most one entry exactly when any two of its keys are
    equal. *)
Lemma size_le_1 {A} (m : gmap ObjectId A) :
  (size m ≤ 1)%nat ↔
  ∀ i j x y, m !! i = Some x → m !! j = Some y → i = j.
Proof.
  split.
  - intros Hsize i j x y Hi Hj. destruct (decide (i = j)) as [|Hne]; [done|].
    rewrite <-(insert_id m i x), <-(insert_delete_eq m) in Hsize by done.
    rewrite map_size_insert_None in Hsize by apply lookup_delete_eq.
    assert (size (delete i m) ≠ 0%nat); [|lia].
    apply map_size_non_empty_iff. intros Hempty.
    assert (delete i m !! j = Some y) as Hj'
      by by rewrite lookup_delete_ne.
    by rewrite Hempty, lookup_empty in Hj'.
  - intros Hone. induction m as [|i x m Hi _] using map_ind.
    { rewrite map_size_empty. lia. }
    rewrite map_size_insert_None by done.
    assert (m = ∅) as ->; [|by rewrite map_size_empty].
    apply map_empty. intros j. destruct (m !! j) as [y|] eqn:Hj; [|done].
    assert (i = j) as ->; [|congruence].
    apply (Hone i j x y); [apply lookup_insert_eq|].
    rewrite lookup_insert_ne; [done|]. intros ->. congruence.
Qed.

(** At most one default per user: any two default categories of the same
    user are the same document. *)
Lemma oneDefaultPerUser_alt (coll : gmap ObjectId Category.t) :
  oneDefaultPerUser coll ↔
  ∀ i j c c', coll !! i = Some c → coll !! j = Some c' →
    Category.userId c = Category.userId c' →
    Category.isDefault c = true → Category.isDefault c' = true → i = j.
Proof.
  unfold oneDefaultPerUser, defaultsOf. split.
  - intros Hone i j c c' Hi Hj Hu Hc Hc'.
    specialize (Hone (Category.userId c)).
    rewrite size_le_1 in Hone. apply (Hone i j c c').
    + by apply map_lookup_filter_Some.
    + by apply map_lookup_filter_Some.
  - intros Hone userId. apply size_le_1.
    intros i j c c' (Hi & Hu & Hc)%map_lookup_filter_Some
      (Hj & Hu' & Hc')%map_lookup_filter_Some.
    simpl in *. apply (Hone i j c c'); congruence.
Qed.

Lemma clearDefault_lookup userId id (coll : gmap ObjectId Category.t) i :
  CategoryModel.clearDefault userId id coll !! i =
  (λ c, if bool_decide (Category.userId c = userId ∧ i ≠ id)
        then Category.set_isDefault false c else c) <$> coll !! i.
Proof.
  unfold CategoryModel.clearDefault. rewrite map_lookup_imap.
  by destruct (coll !! i).
Qed.

Lemma Category_save_run env this s :
  reliable env →
  CategoryModel.save env this s =
  if Category.isDefault (Doc.val this) && Doc.isModified "isDefault" this then
    (Ok tt,
     set_categories
       (λ coll, <[Doc._id this := Doc.val this]>
          (CategoryModel.clearDefault (Category.userId (Doc.val this))
             (Doc._id this) coll)) s,
     [EvDb (Category_updateMany_clearDefault
              (Category.userId (Doc.val this)) (Doc._id this)) true;
      EvDb (Category_save (Doc._id this)) true])
  else
    (Ok tt, set_categories (<[Doc._id this := Doc.val this]>) s,
     [EvDb (Category_save (Doc._id this)) true]).
Proof.
  intros Hdb.
  unfold CategoryModel.save, CategoryModel.pre_save, db, modify, mbind,
    M_bind, mret, M_ret.
  destruct (_ && _); simpl; by rewrite !Hdb.
Qed.

(** The second half of C9 holds of the middleware: saving a category
    whose [isDefault] was just set to true leaves no other category of
    its owner with the flag. *)
Lemma save_default_clears_others env this s j c :
  reliable env →
  Category.isDefault (Doc.val this) = true →
  Doc.isModified "isDefault" this = true →
  let o := CategoryModel.save env this s in
  result o = Ok tt ∧
  categories (final o) !! Doc._id this = Some (Doc.val this) ∧
  (j ≠ Doc._id this →
   categories (final o) !! j = Some c →
   Category.userId c = Category.userId (Doc.val this) →
   Category.isDefault c = false).
Proof.
  intros Hdb Hd Hm o. subst o. rewrite Category_save_run by done.
  rewrite Hd, Hm. simpl. split; [done|]. split; [apply lookup_insert_eq|].
  intros Hj. rewrite lookup_insert_ne, clearDefault_lookup by done.
  destruct (categories s !! j) as [c0|]; [|done]. simpl. intros [= <-].
  case_bool_decide as Hb; [done|]. intros Hu. destruct Hb. done.
Qed.

(** The first half of C9 holds of every save that leaves the owner of
    the category alone: when the document's [isDefault] is true but not
    modified, the stored category is already a default of the same user. *)
Lemma save_keeps_oneDefault env this s :
  reliable env →
  oneDefaultPerUser (categories s) →
  (Category.isDefault (Doc.val this) = true →
   Doc.isModified "isDefault" this = false →
   ∃ c0, categories s !! Doc._id this = Some c0 ∧
         Category.isDefault c0 = true ∧
         Category.userId c0 = Category.userId (Doc.val this)) →
  oneDefaultPerUser (categories (final (CategoryModel.save env this s))).
Proof.
  intros Hdb Hone Hstored. rewrite oneDefaultPerUser_alt in Hone.
  apply oneDefaultPerUser_alt. rewrite Category_save_run by done.
  intros i j c c'.
  destruct (Category.isDefault (Doc.val this)) eqn:Hd;
    [destruct (Doc.isModified "isDefault" this) eqn:Hm|]; simpl.
  - (* newly default: the others of this user were cleared *)
    rewrite !lookup_insert_Some, !clearDefault_lookup.
    intros [[<- <-]|[Hi Hc]] [[<- <-]|[Hj Hc']] Hu Hdc Hdc'; [done|..].
    + destruct (categories s !! j) as [c0|]; [|done].
      injection Hc' as <-. revert Hu Hdc'. case_bool_decide as Hb; [done|].
      intros Hu _. destruct Hb. done.
    + destruct (categories s !! i) as [c0|]; [|done].
      injection Hc as <-. revert Hu Hdc. case_bool_decide as Hb; [done|].
      intros Hu _. destruct Hb. done.
    + destruct (categories s !! i) as [c0|] eqn:Ei; [|done].
      destruct (categories s !! j) as [c0'|] eqn:Ej; [|done].
      injection Hc as <-. injection Hc' as <-. revert Hu Hdc Hdc'.
      repeat case_bool_decide; try done. intros. by eapply Hone.
  - (* already default: the stored document stands for it *)
    destruct (Hstored eq_refl eq_refl) as (c0 & H0 & Hd0 & Hu0).
    rewrite !lookup_insert_Some.
    intros [[<- <-]|[Hi Hc]] [[<- <-]|[Hj Hc']] Hu Hdc Hdc'; [done|..].
    + destruct Hj. eapply Hone; [exact H0|exact Hc'|congruence|done|done].
    + destruct Hi. eapply Hone; [exact H0|exact Hc|congruence|done|done].
    + by eapply Hone.
  - (* not a default: it adds none *)
    rewrite !lookup_insert_Some.
    intros [[<- <-]|[Hi Hc]] [[<- <-]|[Hj Hc']] Hu Hdc Hdc';
      try congruence.
    by eapply Hone.
Qed.

(** C9 fails on the update handler, which copies [userId] from the body
    like any other key.  Alice and Carol each have one default category;
    Alice sends [{ userId: <Carol's id> }] for her default category.
    [isDefault] is not modified, so the middleware clears nothing, and
    Carol ends up with two default categories. *)
Lemma two_defaults_after_owner_change :
  let o := CategoryRoutes.put env0 giveaway_req db2 in
  oneDefaultPerUser (categories db2) ∧
  result o = Ok (mkResponse 200 true "Category updated successfully") ∧
  categories (final o) !! 1%positive =
    Some (Category.set_userId 3%positive work) ∧
  categories (final o) !! 3%positive = Some errands ∧
  size (defaultsOf 3%positive (categories (final o))) = 2%nat ∧
  ¬ oneDefaultPerUser (categories (final o)).
Proof.
  intros o.
  assert (size (defaultsOf 3%positive (categories (final o))) = 2%nat) as H2
    by by vm_compute.
  split_and!; try by vm_compute.
  - apply oneDefaultPerUser_alt. intros i j c c'. simpl.
    rewrite !lookup_insert_Some, lookup_empty.
    intros [[<- <-]|[? [[<- <-]|[? [[<- <-]|[_ [=]]]]]]]
           [[<- <-]|[? [[<- <-]|[? [[<- <-]|[_ [=]]]]]]]; done.
  - intros Hone. specialize (Hone 3%positive). lia.
Qed.

(** * Further properties *)

(** ** The reminder scan, continued *)

Lemma set_reminderDate_id x :
  Task.reminderDate x = None → Task.set_reminderDate None x = x.
Proof. destruct x. simpl. by intros ->. Qed.

(** What the iteration for a loaded task stores, if it stores anything. *)
Lemma remind_stores env now id x o s i :
  tasks (final (NotificationService.remind env now (Doc.hydrate id x, o) s)) !! i
  = tasks s !! i ∨
  (i = id ∧
   tasks (final (NotificationService.remind env now (Doc.hydrate id x, o) s)) !! i
   = Some (Task.set_reminderDate None x)).
Proof.
  destruct (decide (i = id)) as [->|Hne];
    [|left; by apply remind_other].
  destruct o as [owner|]; [|by left].
  destruct (User.emailNotifications (User.preferences owner)) eqn:En.
  2: { left. unfold NotificationService.remind. simpl. by rewrite En. }
  rewrite remind_run by done. simpl. rewrite save_run. simpl. rewrite set_id.
  destruct (db_rejects env _); simpl; [by left|]. right. split; [done|].
  rewrite lookup_insert_eq. f_equal.
  destruct (Task.reminderDate x) as [r|] eqn:Hr.
  - by apply (save_cleared_val _ _ _ r).
  - rewrite set_reminderDate_id by done.
    unfold Doc.set, Doc.hydrate. simpl. by rewrite Hr.
Qed.

Lemma remind_categories env now entry s :
  users (final (NotificationService.remind env now entry s)) = users s ∧
  categories (final (NotificationService.remind env now entry s)) =
    categories s.
Proof.
  destruct entry as [task [owner|]]; [|done].
  destruct (User.emailNotifications (User.preferences owner)) eqn:En.
  2: { unfold NotificationService.remind. simpl. by rewrite En. }
  rewrite remind_run by done. simpl. rewrite save_run. simpl.
  by destruct (db_rejects env _).
Qed.

(** X1. Whatever fails along the way, a reminder scan changes nothing in
    the database but reminder dates: users and categories are as before,
    no task appears or disappears, and every task is either as it was or
    the same task with [reminderDate] set to null. *)
Theorem scan_only_clears_reminders env now s :
  let s' := final (NotificationService.checkAndSendReminders env now s) in
  users s' = users s ∧
  categories s' = categories s ∧
  ∀ id, tasks s' !! id = tasks s !! id ∨
        ∃ x, tasks s !! id = Some x ∧
             tasks s' !! id = Some (Task.set_reminderDate None x).
Proof.
  intros s'. subst s'. rewrite scan_run.
  destruct (db_rejects env Task_find_reminders); simpl; [by auto|].
  apply (for_of_final (NotificationService.remind env now)
    (λ s', users s' = users s ∧ categories s' = categories s ∧
       ∀ id, tasks s' !! id = tasks s !! id ∨
             ∃ x, tasks s !! id = Some x ∧
                  tasks s' !! id = Some (Task.set_reminderDate None x)));
    [|by auto].
  intros entry s' ([i y] & -> & [Hy _]%tasksToRemind_spec)%list_elem_of_fmap
    (Hu & Hc & Ht).
  destruct (remind_categories env now
              (NotificationService.populate s (i, y)) s') as [-> ->].
  split; [done|]. split; [done|]. intros id.
  unfold NotificationService.populate. simpl.
  destruct (remind_stores env now i y (users s !! Task.userId y) s' id)
    as [->|[-> ->]]; [apply Ht|]. right. by exists y.
Qed.

(** The exact effect of a scan on a task that is not deliverable: none. *)
Lemma scan_untouched env now s id :
  (∀ x, tasks s !! id = Some x → deliverable now s x = false) →
  tasks (final (NotificationService.checkAndSendReminders env now s)) !! id
  = tasks s !! id.
Proof.
  intros Hnd. rewrite scan_run.
  destruct (db_rejects env Task_find_reminders); simpl; [done|].
  apply (for_of_final (NotificationService.remind env now)
           (λ s', tasks s' !! id = tasks s !! id)); [|done].
  intros entry s' ([i y] & -> & Hy)%list_elem_of_fmap <-.
  destruct (decide (id = i)) as [->|Hne]; [|by apply remind_other].
  unfold NotificationService.tasksToRemind in Hy.
  apply find_spec in Hy as [Hy Hq].
  specialize (Hnd y Hy). unfold deliverable in Hnd. rewrite Hq in Hnd.
  unfold NotificationService.populate, NotificationService.remind. simpl.
  destruct (users s !! Task.userId y) as [owner|]; [|done].
  simpl in Hnd. by rewrite Hnd.
Qed.

Lemma scan_frame env now s :
  let s' := final (NotificationService.checkAndSendReminders env now s) in
  users s' = users s ∧ categories s' = categories s.
Proof.
  apply (scan_final (λ s', users s' = users s ∧ categories s' = categories s));
    [|done].
  intros entry s' [<- <-]. apply remind_categories.
Qed.

Lemma deliverable_spec now s x :
  deliverable now s x = true ↔
  (Task.completed x = false ∧
   ∃ r, Task.reminderDate x = Some r ∧ now ≤ r ≤ now + 15 * Date.MS_PER_MINUTE)
  ∧ ∃ owner, users s !! Task.userId x = Some owner ∧
             User.emailNotifications (User.preferences owner) = true.
Proof.
  unfold deliverable. rewrite andb_true_iff, reminder_query_spec.
  change (15 * Date.MS_PER_MINUTE) with (15 * 60 * 1000).
  destruct (users s !! Task.userId x) as [owner|]; split.
  - intros [H En]. split; [done|]. by exists owner.
  - intros [H (o & [= <-] & En)]. done.
  - by intros [_ [=]].
  - by intros [_ (o & [=] & _)].
Qed.

(** X2. When the database answers, a scan at [now] does to the task
    collection exactly this: every task that is open, has its reminder
    within the fifteen minutes from [now], and belongs to a user with mail
    notifications enabled gets its [reminderDate] set to null; every other
    task is left as it is. *)
Theorem scan_clears_exactly_the_deliverable env now s id :
  reliable env →
  tasks (final (NotificationService.checkAndSendReminders env now s)) !! id =
  (λ x, if deliverable now s x then Task.set_reminderDate None x else x)
    <$> tasks s !! id.
Proof.
  intros Hdb. destruct (tasks s !! id) as [x|] eqn:Hx; simpl.
  - destruct (deliverable now s x) eqn:Hd.
    + pose proof Hd as [Hq (owner & Hu & En)]%deliverable_spec.
      apply (scan_processes env now s id x owner); [done| |done|done].
      apply tasksToRemind_spec. by split.
    + rewrite scan_untouched; [done|]. intros x'. rewrite Hx. by intros [= <-].
  - rewrite scan_untouched; [done|]. intros x'. rewrite Hx. by intros [=].
Qed.

Lemma scan_clears_exactly_the_deliverable_witness :
  reliable env0 ∧
  tasks (final (NotificationService.checkAndSendReminders env0
                  (Date.UTC 2024 1 10 8 50) db0)) !! 2%positive =
  (λ x, if deliverable (Date.UTC 2024 1 10 8 50) db0 x
        then Task.set_reminderDate None x else x)
    <$> tasks db0 !! 2%positive.
Proof.
  assert (reliable env0) as H1 by (intros op; reflexivity).
  split; [exact H1|].
  exact (scan_clears_exactly_the_deliverable env0 (Date.UTC 2024 1 10 8 50)
           db0 2%positive H1).
Defined.

(** Scans whose window does not hold the reminder leave the task alone. *)
Lemma scans_miss runs s id x r :
  tasks s !! id = Some x →
  Task.reminderDate x = Some r →
  Forall (λ run : Env * Date.t,
            ¬ (run.2 ≤ r ≤ run.2 + 15 * Date.MS_PER_MINUTE)) runs →
  tasks (scans runs s).1 !! id = Some x ∧
  ∀ userId, EvCall (sendTaskReminder_called userId id) ∉ (scans runs s).2.
Proof.
  intros Hx Hr. revert s Hx.
  induction runs as [|[env now] runs IH]; intros s Hx Hout; simpl.
  { split; [done|]. intros ?. apply not_elem_of_nil. }
  apply Forall_cons in Hout as [Hnow Hout]. simpl in Hnow.
  assert (tasks (final (NotificationService.checkAndSendReminders env now s))
            !! id = Some x) as Hx'.
  { rewrite scan_untouched; [done|]. intros x'. rewrite Hx. intros [= <-].
    apply not_true_iff_false. intros [(_ & r' & Hr' & ?) _]%deliverable_spec.
    rewrite Hr in Hr'. injection Hr' as <-. done. }
  destruct (IH _ Hx' Hout) as [IH1 IH2]. split; [done|].
  intros userId [Hin|Hin]%elem_of_app; [|by eapply IH2].
  apply scan_calls in Hin as (x' & Hsel).
  apply tasksToRemind_spec in Hsel as (Hx'' & _ & r' & Hr' & ?).
  rewrite Hx in Hx''. injection Hx'' as <-.
  rewrite Hr in Hr'. injection Hr' as <-. done.
Qed.

(** X3. A reminder is dispatched only by a scan that starts in the
    fifteen minutes before it: through any run of scans none of which
    reads the clock within that span (each starts after the reminder time,
    or more than fifteen minutes before it), the reminder is never
    dispatched and the task keeps its [reminderDate].  In particular a
    reminder that lies in the past when it is stored is never sent. *)
Theorem reminder_outside_every_window_is_never_sent runs s id x r :
  tasks s !! id = Some x →
  Task.reminderDate x = Some r →
  Forall (λ run : Env * Date.t,
            ¬ (run.2 ≤ r ≤ run.2 + 15 * Date.MS_PER_MINUTE)) runs →
  tasks (scans runs s).1 !! id = Some x ∧
  ∀ userId, EvCall (sendTaskReminder_called userId id) ∉ (scans runs s).2.
Proof. apply scans_miss. Qed.

Lemma reminder_outside_every_window_is_never_sent_witness :
  let runs := [(env0, Date.UTC 2024 1 10 8 40);
               (env0, Date.UTC 2024 1 10 9 10)] in
  tasks db0 !! 1%positive = Some report ∧
  Task.reminderDate report = Some (Date.UTC 2024 1 10 9 0) ∧
  Forall (λ run : Env * Date.t,
            ¬ (run.2 ≤ Date.UTC 2024 1 10 9 0
                     ≤ run.2 + 15 * Date.MS_PER_MINUTE)) runs ∧
  tasks (scans runs db0).1 !! 1%positive = Some report ∧
  ∀ userId,
    EvCall (sendTaskReminder_called userId 1%positive) ∉ (scans runs db0).2.
Proof.
  intros runs.
  assert (tasks db0 !! 1%positive = Some report) as H1 by reflexivity.
  assert (Task.reminderDate report = Some (Date.UTC 2024 1 10 9 0)) as H2
    by reflexivity.
  assert (Forall (λ run : Env * Date.t,
            ¬ (run.2 ≤ Date.UTC 2024 1 10 9 0
                     ≤ run.2 + 15 * Date.MS_PER_MINUTE)) runs) as H3.
  { repeat constructor; simpl; vm_compute; intros [H H']; by apply H || by apply H'. }
  split; [exact H1|]. split; [exact H2|]. split; [exact H3|].
  exact (reminder_outside_every_window_is_never_sent runs db0 1%positive
           report (Date.UTC 2024 1 10 9 0) H1 H2 H3).
Defined.

(** A run of scans whose gaps are at most fifteen minutes reaches every
    open reminder between the first scan and the window of the last one,
    if the owner has mail notifications enabled. *)
Lemma scans_reach runs s id x r owner :
  Forall (λ run : Env * Date.t, reliable run.1) runs →
  gaps_within (15 * Date.MS_PER_MINUTE) runs.*2 →
  tasks s !! id = Some x →
  Task.completed x = false →
  Task.reminderDate x = Some r →
  users s !! Task.userId x = Some owner →
  User.emailNotifications (User.preferences owner) = true →
  (∃ first final, head runs.*2 = Some first ∧ last runs.*2 = Some final ∧
                  first ≤ r ≤ final + 15 * Date.MS_PER_MINUTE) →
  EvCall (sendTaskReminder_called (Task.userId x) id) ∈ (scans runs s).2.
Proof.
  intros Hdb Hgaps Hx Hc Hr Hu En. revert s Hdb Hgaps Hx Hu.
  induction runs as [|[env now] runs IH]; intros s Hdb Hgaps Hx Hu
    (first & final & Hfirst & Hlast & Hle).
  { done. }
  apply Forall_cons in Hdb as [Hdb Hdbs]. simpl in *.
  injection Hfirst as <-.
  apply elem_of_app.
  destruct (decide (r ≤ now + 15 * Date.MS_PER_MINUTE)) as [Hin|Hout].
  - left.
    destruct (scan_processes env now s id x owner) as (_ & (t1 & t3 & ->) & _);
      [done| |done|done|].
    { apply tasksToRemind_spec. split; [done|]. split; [done|].
      exists r. split; [done|]. lia. }
    rewrite sendTaskReminder_run. simpl.
    apply elem_of_app. right. by left.
  - right. destruct runs as [|[env2 now2] runs].
    { simpl in Hlast. injection Hlast as <-. lia. }
    destruct Hgaps as [Hgap Hgaps]. simpl in Hgap.
    destruct (scan_frame env now s) as [Hus _]. simpl in Hus.
    apply IH; [done|done| |by rewrite Hus|].
    + rewrite scan_untouched; [done|]. intros x'. rewrite Hx. intros [= <-].
      apply not_true_iff_false.
      intros [(_ & r' & Hr' & ?) _]%deliverable_spec.
      rewrite Hr in Hr'. injection Hr' as <-. lia.
    + exists now2, final. split; [done|]. split; [done|]. lia.
Qed.

(** X4. Scans that follow one another at most fifteen minutes apart miss
    no reminder: if the database answers during each of them, an open
    task whose owner has mail notifications enabled and whose reminder
    time lies between the first scan and fifteen minutes after the last
    one has its reminder dispatched by one of them. *)
Theorem reminder_is_dispatched_by_some_scan runs s id x r owner :
  Forall (λ run : Env * Date.t, reliable run.1) runs →
  gaps_within (15 * Date.MS_PER_MINUTE) runs.*2 →
  tasks s !! id = Some x →
  Task.completed x = false →
  Task.reminderDate x = Some r →
  users s !! Task.userId x = Some owner →
  User.emailNotifications (User.preferences owner) = true →
  (∃ first final, head runs.*2 = Some first ∧ last runs.*2 = Some final ∧
                  first ≤ r ≤ final + 15 * Date.MS_PER_MINUTE) →
  EvCall (sendTaskReminder_called (Task.userId x) id) ∈ (scans runs s).2.
Proof. apply scans_reach. Qed.

Lemma reminder_is_dispatched_by_some_scan_witness :
  let runs := [(env0, Date.UTC 2024 1 10 8 30);
               (env_mail_down, Date.UTC 2024 1 10 8 45);
               (env0, Date.UTC 2024 1 10 9 0)] in
  Forall (λ run : Env * Date.t, reliable run.1) runs ∧
  gaps_within (15 * Date.MS_PER_MINUTE) runs.*2 ∧
  tasks db0 !! 1%positive = Some report ∧
  Task.completed report = false ∧
  Task.reminderDate report = Some (Date.UTC 2024 1 10 9 0) ∧
  users db0 !! Task.userId report = Some alice ∧
  User.emailNotifications (User.preferences alice) = true ∧
  (∃ first final, head runs.*2 = Some first ∧ last runs.*2 = Some final ∧
     first ≤ Date.UTC 2024 1 10 9 0 ≤ final + 15 * Date.MS_PER_MINUTE) ∧
  EvCall (sendTaskReminder_called (Task.userId report) 1%positive)
    ∈ (scans runs db0).2.
Proof.
  intros runs.
  assert (Forall (λ run : Env * Date.t, reliable run.1) runs) as H1.
  { repeat constructor; intros op; reflexivity. }
  assert (gaps_within (15 * Date.MS_PER_MINUTE) runs.*2) as H2.
  { simpl. vm_compute. repeat split; discriminate. }
  assert (tasks db0 !! 1%positive = Some report) as H3 by reflexivity.
  assert (Task.completed report = false) as H4 by reflexivity.
  assert (Task.reminderDate report = Some (Date.UTC 2024 1 10 9 0)) as H5
    by reflexivity.
  assert (users db0 !! Task.userId report = Some alice) as H6 by reflexivity.
  assert (User.emailNotifications (User.preferences alice) = true) as H7
    by reflexivity.
  assert (∃ first final, head runs.*2 = Some first ∧
            last runs.*2 = Some final ∧
            first ≤ Date.UTC 2024 1 10 9 0
                  ≤ final + 15 * Date.MS_PER_MINUTE) as H8.
  { exists (Date.UTC 2024 1 10 8 30), (Date.UTC 2024 1 10 9 0).
    split; [reflexivity|]. split; [reflexivity|].
    vm_compute. split; discriminate. }
  split; [exact H1|]. split; [exact H2|]. split; [exact H3|].
  split; [exact H4|]. split; [exact H5|]. split; [exact H6|].
  split; [exact H7|]. split; [exact H8|].
  exact (reminder_is_dispatched_by_some_scan runs db0 1%positive report
           (Date.UTC 2024 1 10 9 0) alice H1 H2 H3 H4 H5 H6 H7 H8).
Defined.

(** ** The three jobs in any environment *)

Lemma bind_events {A B} (P : Event → Prop) (m : M A) (f : A → M B) s :
  Forall P (events (m s)) →
  (∀ a, result (m s) = Ok a → Forall P (events (f a (final (m s))))) →
  Forall P (events ((m ≫= f) s)).
Proof.
  unfold mbind, M_bind. destruct (m s) as [[[a|e] s1] t1]; simpl; [|done].
  intros H1 H2. specialize (H2 a eq_refl). unfold final in H2. simpl in H2.
  destruct (f a s1) as [[r s2] t2]; simpl in *. by apply Forall_app.
Qed.

(** A loop whose iterations keep an invariant of the database and emit
    only events of some kind emits only such events and keeps the
    invariant. *)
Lemma for_of_inv {A} (body : A → M unit) (I : Db → Prop) (P : Event → Prop)
    l s :
  (∀ x s', x ∈ l → I s' →
     I (final (body x s')) ∧ Forall P (events (body x s'))) →
  I s →
  I (final (for_of l body s)) ∧ Forall P (events (for_of l body s)).
Proof.
  revert s. induction l as [|x l IH]; intros s Hbody Hs;
    [by split; [|constructor]|].
  rewrite for_of_cons. unfold mbind, M_bind.
  destruct (Hbody x s ltac:(left) Hs) as [Hi Hp].
  destruct (body x s) as [[[[]|e] s1] t1]; simpl in *; [|done].
  destruct (IH s1 (λ y s' Hy, Hbody y s' ltac:(by right)) Hi) as [Hi' Hp'].
  destruct (for_of l body s1) as [[r s2] t2]; simpl in *.
  split; [done|]. by apply Forall_app.
Qed.

(** The common shape of the three jobs: one query, a loop over what it
    returned, and a handler that logs whatever was thrown. *)
Lemma job_inv {A} env op (f : Db → list A) body msg
    (I : Db → Prop) (P : Event → Prop) s :
  (∀ op ok, P (EvDb op ok)) →
  (∀ msg, P (EvConsole msg)) →
  (∀ x s', x ∈ f s → I s' →
     I (final (body x s')) ∧ Forall P (events (body x s'))) →
  I s →
  let o := try_catch (db env op ;; found ← gets f ; for_of found body)
                     (λ error, console msg) s in
  result o = Ok tt ∧ I (final o) ∧ Forall P (events o).
Proof.
  intros Hdb Hlog Hbody Hs.
  destruct (for_of_inv body I P (f s) s Hbody Hs) as [Hi Hp].
  unfold try_catch, db, gets, console, emit, mbind, M_bind.
  destruct (db_rejects env op); simpl.
  { split; [done|]. split; [done|]. repeat constructor; auto. }
  destruct (for_of (f s) body s) as [[[[]|e] s1] t1]; simpl in *.
  - split; [done|]. split; [done|]. constructor; auto.
  - split; [done|]. split; [done|]. constructor; [auto|].
    apply Forall_app. split; [done|]. repeat constructor; auto.
Qed.

(** The daily iteration never writes; besides its query it emits what the
    dispatcher emits for the tasks the query returned, ten at most. *)
Lemma dailyFor_inv env tomorrow entry s (P : Event → Prop) :
  (∀ op ok, P (EvDb op ok)) →
  (∀ due,
     due = take 10 (TaskModel.find (TaskModel.dueSoon_query entry.1 tomorrow)
                      (tasks s)).*2 →
     (0 < length due)%nat →
     Forall P (events (NotificationService.sendTaskDueSoonNotification env
                         entry.1 entry.2 due s))) →
  final (NotificationService.dailyFor env tomorrow entry s) = s ∧
  Forall P (events (NotificationService.dailyFor env tomorrow entry s)).
Proof.
  intros Hdb Hsend.
  unfold NotificationService.dailyFor, db, gets, mbind, M_bind.
  destruct (db_rejects env _); simpl; [split; repeat constructor; auto|].
  case_bool_decide as Hlen; simpl; [|split; repeat constructor; auto].
  specialize (Hsend _ eq_refl Hlen).
  rewrite sendTaskDueSoonNotification_run in *. simpl in *.
  split; [done|]. constructor; auto.
Qed.

Lemma generateWeeklyStats_inv env userId startDate s (P : Event → Prop) :
  (∀ op ok, P (EvDb op ok)) →
  final (NotificationService.generateWeeklyStats env userId startDate s) = s ∧
  Forall P
    (events (NotificationService.generateWeeklyStats env userId startDate s)).
Proof.
  intros Hdb.
  unfold NotificationService.generateWeeklyStats, db, gets, mbind, M_bind,
    mret, M_ret.
  repeat (destruct (db_rejects env _); simpl;
          [split; repeat constructor; auto|]).
  split; repeat constructor; auto.
Qed.

Lemma weeklyFor_inv env startDate entry s (P : Event → Prop) :
  (∀ op ok, P (EvDb op ok)) →
  (∀ stats,
     Forall P (events (NotificationService.sendWeeklySummary env entry.1
                         entry.2 stats s))) →
  final (NotificationService.weeklyFor env startDate entry s) = s ∧
  Forall P (events (NotificationService.weeklyFor env startDate entry s)).
Proof.
  intros Hq Hsend.
  destruct (generateWeeklyStats_inv env entry.1 startDate s P Hq) as [Hs Hp].
  unfold NotificationService.weeklyFor, mbind, M_bind.
  destruct (NotificationService.generateWeeklyStats env entry.1 startDate s)
    as [[[stats|e] s1] t1]; unfold final, events in *; simpl in *; [|done].
  subst s1. specialize (Hsend stats).
  rewrite sendWeeklySummary_run in *. simpl in *.
  split; [done|]. by apply Forall_app.
Qed.

Lemma scan_inv env now (I : Db → Prop) (P : Event → Prop) s :
  (∀ op ok, P (EvDb op ok)) →
  (∀ msg, P (EvConsole msg)) →
  (∀ entry s',
     entry ∈ NotificationService.populate s <$>
               NotificationService.tasksToRemind now (tasks s) →
     I s' →
     I (final (NotificationService.remind env now entry s')) ∧
     Forall P (events (NotificationService.remind env now entry s'))) →
  I s →
  result (NotificationService.checkAndSendReminders env now s) = Ok tt ∧
  I (final (NotificationService.checkAndSendReminders env now s)) ∧
  Forall P (events (NotificationService.checkAndSendReminders env now s)).
Proof. intros. by apply job_inv. Qed.

Lemma daily_inv env now (I : Db → Prop) (P : Event → Prop) s :
  (∀ op ok, P (EvDb op ok)) →
  (∀ msg, P (EvConsole msg)) →
  (∀ entry s',
     entry ∈ NotificationService.usersToNotify (users s) →
     I s' →
     I (final (NotificationService.dailyFor env
                 (NotificationService.endOfTomorrow now) entry s')) ∧
     Forall P (events (NotificationService.dailyFor env
                         (NotificationService.endOfTomorrow now) entry s'))) →
  I s →
  result (NotificationService.sendDailySummary env now s) = Ok tt ∧
  I (final (NotificationService.sendDailySummary env now s)) ∧
  Forall P (events (NotificationService.sendDailySummary env now s)).
Proof. intros. by apply job_inv. Qed.

Lemma weekly_inv env now (I : Db → Prop) (P : Event → Prop) s :
  (∀ op ok, P (EvDb op ok)) →
  (∀ msg, P (EvConsole msg)) →
  (∀ entry s',
     entry ∈ NotificationService.usersToNotify (users s) →
     I s' →
     I (final (NotificationService.weeklyFor env
                 (NotificationService.oneWeekAgo now) entry s')) ∧
     Forall P (events (NotificationService.weeklyFor env
                         (NotificationService.oneWeekAgo now) entry s'))) →
  I s →
  result (NotificationService.sendWeeklySummaries env now s) = Ok tt ∧
  I (final (NotificationService.sendWeeklySummaries env now s)) ∧
  Forall P (events (NotificationService.sendWeeklySummaries env now s)).
Proof. intros. by apply job_inv. Qed.

(** X5. None of the three scheduled jobs ever rejects: whatever the
    database and the mail server do, each run ends normally (an exception
    ends it in the job's handler, which logs it).  The daily and the
    weekly job, moreover, leave the database exactly as they found it. *)
Theorem jobs_never_reject env now s :
  result (NotificationService.checkAndSendReminders env now s) = Ok tt ∧
  result (NotificationService.sendDailySummary env now s) = Ok tt ∧
  result (NotificationService.sendWeeklySummaries env now s) = Ok tt ∧
  final (NotificationService.sendDailySummary env now s) = s ∧
  final (NotificationService.sendWeeklySummaries env now s) = s.
Proof.
  split; [|split; [|split; [|split]]].
  - apply (scan_inv env now (λ _, True) (λ _, True)); try done.
    intros. split; [done|]. by apply Forall_true.
  - apply (daily_inv env now (λ _, True) (λ _, True)); try done.
    intros. split; [done|]. by apply Forall_true.
  - apply (weekly_inv env now (λ _, True) (λ _, True)); try done.
    intros. split; [done|]. by apply Forall_true.
  - apply (daily_inv env now (λ s', s' = s) (λ _, True)); try done.
    intros x s' _ ->. split; [|by apply Forall_true].
    by apply (dailyFor_inv _ _ _ _ (λ _, True)); [|intros; apply Forall_true].
  - apply (weekly_inv env now (λ s', s' = s) (λ _, True)); try done.
    intros x s' _ ->. split; [|by apply Forall_true].
    by apply (weeklyFor_inv _ _ _ _ (λ _, True)); [|intros; apply Forall_true].
Qed.

(** X6. Without a configured mail transporter no job hands anything to
    the mail server, whoever has notifications enabled. *)
Theorem no_transporter_no_mail env now s m ok :
  transporter env = false →
  (EvSendMail m ok
     ∉ events (NotificationService.checkAndSendReminders env now s)) ∧
  (EvSendMail m ok
     ∉ events (NotificationService.sendDailySummary env now s)) ∧
  (EvSendMail m ok
     ∉ events (NotificationService.sendWeeklySummaries env now s)).
Proof.
  intros Ht.
  set (P := λ ev : Event, ev ≠ EvSendMail m ok).
  assert (∀ t, Forall P t → EvSendMail m ok ∉ t) as HP.
  { intros t Hall Hin. rewrite Forall_forall in Hall. by apply (Hall _ Hin). }
  split; [|split]; apply HP.
  - apply (scan_inv env now (λ _, True) P); try done.
    intros [task [owner|]] s' _ _; (split; [done|]);
      [|by constructor].
    unfold NotificationService.remind. simpl.
    destruct (User.emailNotifications (User.preferences owner));
      [|by constructor].
    apply bind_events.
    + rewrite sendTaskReminder_run, Ht. simpl. by repeat constructor.
    + intros _ _. rewrite save_run. simpl.
      destruct (db_rejects env _); by repeat constructor.
  - apply (daily_inv env now (λ _, True) P); try done.
    intros x s' _ _. split; [done|].
    apply (dailyFor_inv _ _ _ _ P); [done|]. intros due _ _.
    rewrite sendTaskDueSoonNotification_run, Ht. simpl.
    by repeat constructor.
  - apply (weekly_inv env now (λ _, True) P); try done.
    intros x s' _ _. split; [done|].
    apply (weeklyFor_inv _ _ _ _ P); [done|]. intros stats.
    rewrite sendWeeklySummary_run, Ht. simpl. by repeat constructor.
Qed.

Lemma no_transporter_no_mail_witness :
  let env := mkEnv false "" (λ _, false) (λ _, false) in
  let m := mkMail "" "alice@example.org" "Reminder: Report"
             (ReminderEmailTemplate alice report) in
  transporter env = false ∧
  (EvSendMail m true
     ∉ events (NotificationService.checkAndSendReminders env
                 (Date.UTC 2024 1 10 8 50) db0)) ∧
  (EvSendMail m true
     ∉ events (NotificationService.sendDailySummary env
                 (Date.UTC 2024 1 10 8 50) db0)) ∧
  (EvSendMail m true
     ∉ events (NotificationService.sendWeeklySummaries env
                 (Date.UTC 2024 1 10 8 50) db0)).
Proof.
  intros env m. split; [reflexivity|].
  exact (no_transporter_no_mail env (Date.UTC 2024 1 10 8 50) db0 m true
           eq_refl).
Defined.

(** ** A rejected write *)

(** The loop up to an element: when the iterations before it do not
    throw, it runs them, then this one, and goes on only if this one did
    not throw. *)
Lemma for_of_upto {A} (body : A → M unit) (I : Db → Prop) l1 x l2 s :
  (∀ y s', y ∈ l1 → I s' →
     result (body y s') = Ok tt ∧ I (final (body y s'))) →
  I s →
  ∃ s1 t1,
    I s1 ∧
    for_of (l1 ++ x :: l2) body s =
      match result (body x s1) with
      | Ok _ =>
          (result (for_of l2 body (final (body x s1))),
           final (for_of l2 body (final (body x s1))),
           t1 ++ events (body x s1) ++
             events (for_of l2 body (final (body x s1))))
      | Throw e => (Throw e, final (body x s1), t1 ++ events (body x s1))
      end.
Proof.
  revert s. induction l1 as [|y l1 IH]; intros s Hbody Hs.
  - exists s, []. split; [done|]. simpl. unfold mbind, M_bind.
    destruct (body x s) as [[[[]|e] s1] t1]; unfold result, final, events;
      simpl; [|done].
    by destruct (for_of l2 body s1) as [[r s2] t2].
  - destruct (Hbody y s ltac:(left) Hs) as [Hr Hi].
    destruct (IH (final (body y s))
                (λ z s' Hz, Hbody z s' ltac:(by right)) Hi)
      as (s1 & t1 & Hs1 & E).
    exists s1, (events (body y s) ++ t1). split; [done|].
    simpl. rewrite (bind_Ok _ _ _ tt (final (body y s)) (events (body y s))).
    + rewrite E. unfold result at 1, final at 1, events at 1.
      destruct (result (body x s1)); simpl; by rewrite <-?app_assoc.
    + rewrite <-Hr. apply outcome_eta.
Qed.

Lemma scan_rejected_save env now s id x owner :
  db_rejects env (Task_save id) = true →
  (∀ op, op ≠ Task_save id → db_rejects env op = false) →
  (id, x) ∈ NotificationService.tasksToRemind now (tasks s) →
  users s !! Task.userId x = Some owner →
  User.emailNotifications (User.preferences owner) = true →
  let o := NotificationService.checkAndSendReminders env now s in
  EvCall (sendTaskReminder_called (Task.userId x) id) ∈ events o ∧
  EvDb (Task_save id) false ∈ events o ∧
  tasks (final o) !! id = Some x.
Proof.
  intros Hrej Hdb Hsel Hu En o. subst o. rewrite scan_run.
  rewrite Hdb by done.
  pose proof (find_NoDup
    (TaskModel.reminder_query now (now + 15 * 60 * 1000)) (tasks s)) as Hnd.
  pose proof Hsel as (Hx & _)%tasksToRemind_spec.
  unfold NotificationService.tasksToRemind in *.
  apply list_elem_of_split in Hsel as (l1 & l2 & Hl). rewrite Hl in *.
  rewrite fmap_app, fmap_cons. rewrite fmap_app, fmap_cons in Hnd.
  simpl in Hnd. apply NoDup_app in Hnd as (_ & Hnd & _).
  destruct (for_of_upto (NotificationService.remind env now)
              (λ s', tasks s' !! id = Some x)
              (NotificationService.populate s <$> l1)
              (NotificationService.populate s (id, x))
              (NotificationService.populate s <$> l2) s)
    as (s1 & t1 & Hs1 & E); [|done|].
  { intros entry s' ([i y] & -> & Hy)%list_elem_of_fmap Hs'.
    assert (i ≠ id) as Hne.
    { intros ->. apply (Hnd id); [|by left].
      apply list_elem_of_fmap. by exists (id, y). }
    split; [|by rewrite remind_other].
    unfold NotificationService.populate. simpl.
    destruct (users s !! Task.userId y) as [owner'|]; [|done].
    destruct (User.emailNotifications (User.preferences owner')) eqn:En'.
    2: { unfold NotificationService.remind. simpl. by rewrite En'. }
    rewrite remind_run by done. simpl. rewrite save_run. simpl.
    rewrite set_id. simpl. rewrite Hdb; [done|]. by intros [= ->]. }
  rewrite E. clear E.
  assert (NotificationService.remind env now
            (NotificationService.populate s (id, x)) s1 =
          (Throw (DbError (Task_save id)), s1,
           events (NotificationService.sendTaskReminder env (Task.userId x)
                     owner (Doc.hydrate id x) s1)
             ++ [EvDb (Task_save id) false])) as ->.
  { unfold NotificationService.populate. simpl.
    rewrite Hu, remind_run by done. simpl. rewrite save_run. simpl.
    rewrite set_id. simpl. by rewrite Hrej. }
  unfold result at 1. simpl. unfold events at 1, final at 1. simpl.
  rewrite sendTaskReminder_run. simpl.
  split; [|split; [|done]].
  - right. apply elem_of_app. left. apply elem_of_app. right. by left.
  - right. apply elem_of_app. left. apply elem_of_app. right. right.
    apply elem_of_app. right. by left.
Qed.

(** X7. A rejected write defeats the duplicate guard: when the database
    rejects the [save] of a task the scan has just dispatched a reminder
    for (and answers everything else), the reminder has gone out but the
    task keeps its [reminderDate], so any later scan that reads the clock
    within the fifteen minutes before the reminder time dispatches the
    same reminder again. *)
Theorem rejected_save_repeats_the_reminder env now s id x owner :
  db_rejects env (Task_save id) = true →
  (∀ op, op ≠ Task_save id → db_rejects env op = false) →
  (id, x) ∈ NotificationService.tasksToRemind now (tasks s) →
  users s !! Task.userId x = Some owner →
  User.emailNotifications (User.preferences owner) = true →
  let o := NotificationService.checkAndSendReminders env now s in
  EvCall (sendTaskReminder_called (Task.userId x) id) ∈ events o ∧
  EvDb (Task_save id) false ∈ events o ∧
  tasks (final o) !! id = Some x ∧
  ∀ env' now',
    reliable env' →
    (id, x) ∈ NotificationService.tasksToRemind now' (tasks s) →
    EvCall (sendTaskReminder_called (Task.userId x) id)
      ∈ events (NotificationService.checkAndSendReminders env' now' (final o)).
Proof.
  intros Hrej Hdb Hsel Hu En o.
  destruct (scan_rejected_save env now s id x owner Hrej Hdb Hsel Hu En)
    as (Hcall & Hsave & Hfin).
  fold o in Hcall, Hsave, Hfin.
  split; [done|]. split; [done|]. split; [done|].
  intros env' now' Hdb' Hsel'.
  destruct (scan_frame env now s) as [Hus _]. fold o in Hus.
  destruct (scan_processes env' now' (final o) id x owner)
    as (_ & (t1 & t3 & ->) & _); [done| |by rewrite Hus|done|].
  { apply tasksToRemind_spec in Hsel' as (_ & Hq).
    apply tasksToRemind_spec. by split. }
  rewrite sendTaskReminder_run. simpl.
  apply elem_of_app. right. by left.
Qed.

Lemma rejected_save_repeats_the_reminder_witness :
  db_rejects env_save_down (Task_save 1%positive) = true ∧
  (∀ op, op ≠ Task_save 1%positive → db_rejects env_save_down op = false) ∧
  (1%positive, report)
    ∈ NotificationService.tasksToRemind (Date.UTC 2024 1 10 8 50) (tasks db0) ∧
  users db0 !! Task.userId report = Some alice ∧
  User.emailNotifications (User.preferences alice) = true ∧
  let o := NotificationService.checkAndSendReminders env_save_down
             (Date.UTC 2024 1 10 8 50) db0 in
  EvCall (sendTaskReminder_called (Task.userId report) 1%positive)
    ∈ events o ∧
  EvDb (Task_save 1%positive) false ∈ events o ∧
  tasks (final o) !! 1%positive = Some report ∧
  ∀ env' now',
    reliable env' →
    (1%positive, report)
      ∈ NotificationService.tasksToRemind now' (tasks db0) →
    EvCall (sendTaskReminder_called (Task.userId report) 1%positive)
      ∈ events (NotificationService.checkAndSendReminders env' now' (final o)).
Proof.
  assert (db_rejects env_save_down (Task_save 1%positive) = true) as H1
    by reflexivity.
  assert (∀ op, op ≠ Task_save 1%positive →
                db_rejects env_save_down op = false) as H2.
  { intros [] Hop; try reflexivity. simpl.
    destruct id as [| |]; try reflexivity. done. }
  assert ((1%positive, report)
    ∈ NotificationService.tasksToRemind (Date.UTC 2024 1 10 8 50) (tasks db0))
    as H3.
  { apply tasksToRemind_spec. split; [reflexivity|]. split; [reflexivity|].
    exists (Date.UTC 2024 1 10 9 0). split; [reflexivity|].
    vm_compute. split; discriminate. }
  assert (users db0 !! Task.userId report = Some alice) as H4 by reflexivity.
  assert (User.emailNotifications (User.preferences alice) = true) as H5
    by reflexivity.
  split; [exact H1|]. split; [exact H2|]. split; [exact H3|].
  split; [exact H4|]. split; [exact H5|].
  exact (rejected_save_repeats_the_reminder env_save_down
           (Date.UTC 2024 1 10 8 50) db0 1%positive report alice
           H1 H2 H3 H4 H5).
Defined.

(** ** The daily digest *)

Lemma dueSoon_query_spec userId tomorrow x :
  TaskModel.dueSoon_query userId tomorrow x = true ↔
  Task.userId x = userId ∧ Task.completed x = false ∧
  ∃ d, Task.dueDate x = Some d ∧ d ≤ tomorrow.
Proof.
  unfold TaskModel.dueSoon_query.
  rewrite !andb_true_iff, bool_decide_eq_true, negb_true_iff.
  destruct (Task.dueDate x) as [d|].
  - rewrite Z.leb_le. split.
    + intros [[? ?] ?]. eauto.
    + intros (? & ? & d' & [= <-] & ?). done.
  - split; [intros [_ [=]]|intros (_ & _ & d & [=] & _)].
Qed.

Lemma plural_subject (n : nat) :
  (0 < n)%nat →
  pretty n +:+ " task" +:+ (if bool_decide (1 < n)%nat then "s" else "") +:+
    " due soon" =
  pretty n +:+ (if bool_decide (n = 1%nat) then " task" else " tasks") +:+
    " due soon".
Proof.
  intros Hn. f_equal.
  case_bool_decide; case_bool_decide; try done; lia.
Qed.

Lemma daily_mails env now s :
  Forall (λ ev, ∀ m ok, ev = EvSendMail m ok → digest_ok now s m)
         (events (NotificationService.sendDailySummary env now s)).
Proof.
  apply (daily_inv env now (λ s', s' = s)); [done|done| |done].
  intros [userId u] s' [Hu En]%usersToNotify_spec ->.
  apply dailyFor_inv; [done|]. simpl. intros due Hdue Hlen.
  rewrite sendTaskDueSoonNotification_run. simpl.
  constructor; [done|].
  destruct (negb (transporter env) || _ || _); [by constructor|].
  set (m := mkMail _ _ _ _).
  assert (digest_ok now s m) as Hm.
  { exists userId, u, due. split; [done|]. split; [done|].
    split; [done|]. split; [done|]. split; [by apply plural_subject|].
    split.
    - split; [lia|]. rewrite Hdue, length_take. lia.
    - intros x Hx. rewrite Hdue in Hx.
      apply (subseteq_take 10) in Hx.
      apply list_elem_of_fmap in Hx as ([id y] & -> & Hy). simpl.
      apply find_spec in Hy as [Hy (Ho & Hc & d & Hd & Hle)%dueSoon_query_spec].
      by exists id, d. }
  destruct (sendMail_rejects env m); repeat constructor;
    by intros m' ok'; intros [= <- <-] || intros [=].
Qed.

(** X8. Every mail the daily job hands to the mail server, in whatever
    environment, goes to a user who has mail notifications enabled and
    lists between one and ten tasks, each of them an open task of that
    user whose due date is no later than the end of the following day
    (overdue tasks included); its subject is the number of tasks followed
    by "task due soon" for one task and "tasks due soon" for more. *)
Theorem daily_digest_lists_due_tasks env now s m ok :
  EvSendMail m ok ∈ events (NotificationService.sendDailySummary env now s) →
  digest_ok now s m.
Proof.
  intros Hin. pose proof (daily_mails env now s) as Hall.
  rewrite Forall_forall in Hall. by apply (Hall _ Hin m ok).
Qed.

Lemma daily_digest_lists_due_tasks_witness :
  let now := Date.UTC 2024 1 9 9 0 in
  let m := mkMail "todo@example.org" "alice@example.org" "1 task due soon"
             (DueSoonEmailTemplate alice [report]) in
  EvSendMail m true
    ∈ events (NotificationService.sendDailySummary env0 now db0) ∧
  digest_ok now db0 m.
Proof.
  intros now m.
  assert (EvSendMail m true
            ∈ events (NotificationService.sendDailySummary env0 now db0))
    as H1 by (vm_compute; repeat constructor).
  split; [exact H1|].
  exact (daily_digest_lists_due_tasks env0 now db0 m true H1).
Defined.

(** ** The weekly summary *)

Lemma filter_none {A} (P : A → Prop) `{∀ x, Decision (P x)} (l : list A) :
  (∀ x, x ∈ l → ¬ P x) → filter P l = [].
Proof.
  intros Hnone. destruct (filter P l) as [|x l'] eqn:E; [done|].
  assert (x ∈ filter P l) as [Hx Hin]%list_elem_of_filter
    by (rewrite E; by left).
  by destruct (Hnone x Hin).
Qed.

Lemma group_count_lookup (keys : list string) k :
  NotificationService.group_count keys !! k =
  if decide (k ∈ keys) then Some (length (filter (λ k', k' = k) keys))
  else None.
Proof.
  induction keys as [|k0 keys IH]; simpl.
  { rewrite lookup_empty.
    by destruct (decide (k ∈ [])) as [[]%elem_of_nil|]. }
  destruct (decide (k0 = k)) as [->|Hne].
  - rewrite lookup_insert_eq, IH, filter_cons_True by done.
    rewrite (decide_True (P:=k ∈ k :: keys)) by by left. simpl. f_equal.
    destruct (decide (k ∈ keys)) as [|Hnot]; simpl; [done|].
    f_equal. rewrite filter_none; [done|]. by intros k' ? ->.
  - rewrite lookup_insert_ne, IH, filter_cons_False by done.
    destruct (decide (k ∈ keys)) as [Hin|Hnot].
    + by rewrite (decide_True (P:=k ∈ k0 :: keys)) by by right.
    + rewrite (decide_False (P:=k ∈ k0 :: keys)); [done|].
      intros [->|?]%elem_of_cons; done.
Qed.

Lemma top_spec (groups : list (string * nat)) :
  match NotificationService.top groups with
  | Some b => b ∈ groups ∧ ∀ g, g ∈ groups → (g.2 ≤ b.2)%nat
  | None => groups = []
  end.
Proof.
  induction groups as [|g groups IH]; simpl; [done|].
  destruct (NotificationService.top groups) as [b|].
  - destruct IH as [Hb Hmax]. destruct (Nat.ltb_spec b.2 g.2).
    + split; [by left|]. intros g' [->|Hg']%elem_of_cons; [done|].
      specialize (Hmax g' Hg'). lia.
    + split; [by right|]. intros g' [->|Hg']%elem_of_cons; [done|].
      by apply Hmax.
  - subst groups. split; [by left|].
    intros g' [->|[]%elem_of_nil]%elem_of_cons. done.
Qed.

Lemma length_filter_fmap {A B} (f : A → B) (Q : B → Prop)
    `{∀ y, Decision (Q y)} (l : list A) :
  length (filter Q (f <$> l)) = length (filter (λ x, Q (f x)) l).
Proof.
  induction l as [|x l IH]; [done|]. rewrite fmap_cons.
  destruct (decide (Q (f x))).
  - rewrite !filter_cons_True by done. simpl. by rewrite IH.
  - by rewrite !filter_cons_False.
Qed.

Lemma size_list_to_set_le (l : list string) :
  (size (list_to_set l : gset string) ≤ length l)%nat.
Proof.
  induction l as [|k l IH]; [by vm_compute|].
  rewrite list_to_set_cons. simpl.
  rewrite size_union_alt, size_singleton.
  assert (size (list_to_set l ∖ {[k]} : gset string)
          ≤ size (list_to_set l : gset string))%nat; [|lia].
  apply subseteq_size. by intros x [? _]%elem_of_difference.
Qed.

(** The completions of the window all carry a date. *)
Lemma completionDays_length userId startDate (coll : gmap ObjectId Task.t) :
  length (omap (λ kv : ObjectId * Task.t,
                  Date.dateToString <$> Task.completedAt kv.2)
            (TaskModel.find (TaskModel.completedSince_query userId startDate)
               coll)) =
  TaskModel.countDocuments (TaskModel.completedSince_query userId startDate)
    coll.
Proof.
  unfold TaskModel.countDocuments.
  assert (∀ kv, kv ∈ TaskModel.find
                  (TaskModel.completedSince_query userId startDate) coll →
                is_Some (Task.completedAt kv.2)) as Hall.
  { intros [id x] [_ (_ & _ & c & Hc & _)%completedSince_query_spec]%find_spec.
    by exists c. }
  induction (TaskModel.find _ coll) as [|kv l IH]; [done|]. simpl.
  destruct (Hall kv ltac:(left)) as [c ->]. simpl. f_equal.
  apply IH. intros. apply Hall. by right.
Qed.

(** X9. The weekly summary's top category is a category with the most
    completions in the window: when the database answers, [topCategory]
    is null exactly when the user completed nothing since [startDate];
    otherwise its [count] is the number of tasks completed since then
    that are filed under its [name], at least one, and no category has
    more. *)
Theorem top_category_has_most_completions env userId startDate s stats :
  reliable env →
  result (NotificationService.generateWeeklyStats env userId startDate s)
    = Ok stats →
  (topCategory stats = None ↔ completedTasks stats = 0%nat) ∧
  ∀ name n,
    topCategory stats = Some (name, n) →
    n = completionsIn userId startDate (tasks s) name ∧
    (0 < n)%nat ∧
    ∀ name', (completionsIn userId startDate (tasks s) name' ≤ n)%nat.
Proof.
  intros Hdb. rewrite generateWeeklyStats_run by done.
  intros [= <-]. simpl. unfold TaskModel.countDocuments, completionsIn.
  set (found := TaskModel.find _ (tasks s)).
  set (keys := (λ kv : ObjectId * Task.t, Task.category kv.2) <$> found).
  assert (∀ k, length (filter (λ kv : ObjectId * Task.t,
                                 Task.category kv.2 = k) found)
               = length (filter (λ k', k' = k) keys)) as Hcount.
  { intros k. unfold keys. by rewrite length_filter_fmap. }
  pose proof (top_spec (map_to_list (NotificationService.group_count keys)))
    as Htop.
  destruct (NotificationService.top _) as [[name n]|]; split.
  - split; [done|]. intros Hlen. destruct Htop as [Hin _].
    apply elem_of_map_to_list in Hin. rewrite group_count_lookup in Hin.
    destruct (decide (name ∈ keys)) as [Hk|]; [|done].
    apply length_zero_iff_nil in Hlen. unfold keys in Hk. rewrite Hlen in Hk.
    by apply elem_of_nil in Hk.
  - intros name' n' [= <- <-]. destruct Htop as [Hin Hmax].
    apply elem_of_map_to_list in Hin. rewrite group_count_lookup in Hin.
    destruct (decide (name ∈ keys)) as [Hk|]; [|done].
    injection Hin as Hn. rewrite Hcount, Hn. split; [done|]. split.
    + rewrite <-Hn. apply list_elem_of_split in Hk as (l1 & l2 & ->).
      rewrite filter_app, filter_cons_True, length_app by done. simpl. lia.
    + intros k. rewrite Hcount.
      destruct (decide (k ∈ keys)) as [Hk'|Hk'].
      * apply (Hmax (k, length (filter (λ k', k' = k) keys))).
        apply elem_of_map_to_list. rewrite group_count_lookup.
        by rewrite decide_True.
      * rewrite filter_none; [simpl; lia|]. by intros k' ? ->.
  - split; [intros _|done]. apply length_zero_iff_nil.
    apply map_to_list_empty_iff in Htop.
    destruct found as [|kv found']; [done|].
    assert (NotificationService.group_count keys !! Task.category kv.2
            = None) as Hnone by by rewrite Htop.
    rewrite group_count_lookup in Hnone.
    rewrite decide_True in Hnone; [done|]. by left.
  - by intros name n [=].
Qed.

Lemma top_category_has_most_completions_witness :
  let startDate := NotificationService.oneWeekAgo (Date.UTC 2024 1 14 18 0) in
  let stats := mkWeeklyStats 5 1 86 3 (Some ("Work", 5%nat)) in
  reliable env0 ∧
  result (NotificationService.generateWeeklyStats env0 1%positive startDate
            db3) = Ok stats ∧
  (topCategory stats = None ↔ completedTasks stats = 0%nat) ∧
  ∀ name n,
    topCategory stats = Some (name, n) →
    n = completionsIn 1%positive startDate (tasks db3) name ∧
    (0 < n)%nat ∧
    ∀ name', (completionsIn 1%positive startDate (tasks db3) name' ≤ n)%nat.
Proof.
  intros startDate stats.
  assert (reliable env0) as H1 by (intros op; reflexivity).
  assert (result (NotificationService.generateWeeklyStats env0 1%positive
                    startDate db3) = Ok stats) as H2 by (by vm_compute).
  split; [exact H1|]. split; [exact H2|].
  exact (top_category_has_most_completions env0 1%positive startDate db3
           stats H1 H2).
Defined.

(** X10. The weekly streak never exceeds the number of tasks completed in
    the window, and it is zero exactly when that number is (the database
    answers every query of the summary). *)
Theorem streak_at_most_completed env userId startDate s stats :
  reliable env →
  result (NotificationService.generateWeeklyStats env userId startDate s)
    = Ok stats →
  (streak stats ≤ completedTasks stats)%nat ∧
  (streak stats = 0%nat ↔ completedTasks stats = 0%nat).
Proof.
  intros Hdb. rewrite generateWeeklyStats_run by done.
  intros [= <-]. simpl. unfold NotificationService.recentDays.
  rewrite group_count_length, <-completionDays_length.
  set (keys := omap _ _). split; [apply size_list_to_set_le|].
  rewrite size_empty_iff, length_zero_iff_nil. split.
  - intros Hempty. destruct keys as [|k keys]; [done|].
    exfalso. apply (not_elem_of_empty (C:=gset string) k).
    rewrite <-Hempty. apply elem_of_list_to_set. by left.
  - by intros ->.
Qed.

Lemma streak_at_most_completed_witness :
  let startDate := NotificationService.oneWeekAgo (Date.UTC 2024 1 14 18 0) in
  let stats := mkWeeklyStats 5 1 86 3 (Some ("Work", 5%nat)) in
  reliable env0 ∧
  result (NotificationService.generateWeeklyStats env0 1%positive startDate
            db3) = Ok stats ∧
  (streak stats ≤ completedTasks stats)%nat ∧
  (streak stats = 0%nat ↔ completedTasks stats = 0%nat).
Proof.
  intros startDate stats.
  assert (reliable env0) as H1 by (intros op; reflexivity).
  assert (result (NotificationService.generateWeeklyStats env0 1%positive
                    startDate db3) = Ok stats) as H2 by (by vm_compute).
  split; [exact H1|]. split; [exact H2|].
  exact (streak_at_most_completed env0 1%positive startDate db3 stats H1 H2).
Defined.

Lemma dateToString_day (c : Date.t) :
  Date.dateToString c = Date.dateToString (c / Date.MS_PER_DAY * Date.MS_PER_DAY).
Proof. unfold Date.dateToString. by rewrite Z.div_mul. Qed.

(** X11. A week's streak can reach eight: the window of the weekly
    summary starts seven times twenty-four hours before the run, so it
    touches eight calendar dates.  As long as no completion of the user
    is dated after the run, the streak is at most 8 (the database answers
    every query of the summary); and 8 is reached by a user who completed
    a task on each date from the evening of Sunday 2024-01-07 to the
    morning of Sunday 2024-01-14, summarised that day at 18:00Z. *)
Theorem streak_at_most_eight env now userId s stats :
  reliable env →
  (∀ id x c, tasks s !! id = Some x → Task.userId x = userId →
             Task.completedAt x = Some c → c ≤ now) →
  result (NotificationService.generateWeeklyStats env userId
            (NotificationService.oneWeekAgo now) s) = Ok stats →
  (streak stats ≤ 8)%nat ∧
  result (NotificationService.generateWeeklyStats env0 1%positive
            (NotificationService.oneWeekAgo (Date.UTC 2024 1 14 18 0)) db4)
  = Ok (mkWeeklyStats 8 0 100 8 (Some ("Work", 8%nat))).
Proof.
  intros Hdb Hpast. rewrite generateWeeklyStats_run by done.
  intros [= <-]. split; [|by vm_compute]. simpl.
  unfold NotificationService.recentDays. rewrite group_count_length.
  set (keys := omap _ _).
  set (days := (λ z, Date.dateToString (z * Date.MS_PER_DAY))
                 <$> seqZ (now / Date.MS_PER_DAY - 7) 8).
  transitivity (size (list_to_set days : gset string));
    [|by etransitivity; [apply size_list_to_set_le|]].
  apply subseteq_size. intros k.
  rewrite !elem_of_list_to_set. unfold keys, days.
  rewrite completionDays_spec.
  intros (id & x & c & Hx & Hu & _ & Hc & Hle & <-).
  specialize (Hpast id x c Hx Hu Hc).
  apply list_elem_of_fmap. exists (c / Date.MS_PER_DAY).
  split; [apply dateToString_day|].
  apply elem_of_seqZ. unfold NotificationService.oneWeekAgo in Hle.
  assert (0 < Date.MS_PER_DAY) as HD by done.
  assert ((now - 7 * Date.MS_PER_DAY) / Date.MS_PER_DAY
          = now / Date.MS_PER_DAY - 7) as Hstart.
  { replace (now - 7 * Date.MS_PER_DAY) with (now + (-7) * Date.MS_PER_DAY)
      by lia.
    rewrite Z.div_add by lia. lia. }
  assert ((now - 7 * Date.MS_PER_DAY) / Date.MS_PER_DAY
          ≤ c / Date.MS_PER_DAY) by by apply Z.div_le_mono.
  assert (c / Date.MS_PER_DAY ≤ now / Date.MS_PER_DAY)
    by by apply Z.div_le_mono.
  lia.
Qed.

Lemma streak_at_most_eight_witness :
  let now := Date.UTC 2024 1 14 18 0 in
  let stats := mkWeeklyStats 5 1 86 3 (Some ("Work", 5%nat)) in
  reliable env0 ∧
  (∀ id x c, tasks db3 !! id = Some x → Task.userId x = 1%positive →
             Task.completedAt x = Some c → c ≤ now) ∧
  result (NotificationService.generateWeeklyStats env0 1%positive
            (NotificationService.oneWeekAgo now) db3) = Ok stats ∧
  (streak stats ≤ 8)%nat ∧
  result (NotificationService.generateWeeklyStats env0 1%positive
            (NotificationService.oneWeekAgo (Date.UTC 2024 1 14 18 0)) db4)
  = Ok (mkWeeklyStats 8 0 100 8 (Some ("Work", 8%nat))).
Proof.
  intros now stats.
  assert (reliable env0) as H1 by (intros op; reflexivity).
  assert (∀ id x c, tasks db3 !! id = Some x → Task.userId x = 1%positive →
             Task.completedAt x = Some c → c ≤ now) as H2.
  { intros id x c Hx _ Hc. apply elem_of_map_to_list in Hx.
    assert (Forall (λ kv : ObjectId * Task.t,
              ∀ c, Task.completedAt kv.2 = Some c → c ≤ now)
              (map_to_list (tasks db3))) as Hall.
    { set (l := map_to_list (tasks db3)). vm_compute in l. subst l.
      repeat constructor; simpl; intros ? [= <-]; by vm_compute. }
    rewrite Forall_forall in Hall. by apply (Hall _ Hx). }
  assert (result (NotificationService.generateWeeklyStats env0 1%positive
                    (NotificationService.oneWeekAgo now) db3) = Ok stats)
    as H3 by (by vm_compute).
  split; [exact H1|]. split; [exact H2|]. split; [exact H3|].
  exact (streak_at_most_eight env0 now 1%positive db3 stats H1 H2 H3).
Defined.
(** ** Task routes, continued *)

Lemma task_eta (x y : Task.t) :
  Task.title x = Task.title y →
  Task.completed x = Task.completed y →
  Task.category x = Task.category y →
  Task.dueDate x = Task.dueDate y →
  Task.reminderDate x = Task.reminderDate y →
  Task.userId x = Task.userId y →
  Task.completedAt x = Task.completedAt y →
  Task.createdAt x = Task.createdAt y →
  x = y.
Proof. destruct x, y. simpl. congruence. Qed.

(** The middleware writes [completedAt] and nothing else. *)
Lemma pre_save_val now d :
  Doc.val (TaskModel.pre_save now d) =
  Task.set_completedAt
    (Task.completedAt (Doc.val (TaskModel.pre_save now d))) (Doc.val d).
Proof.
  unfold TaskModel.pre_save, Doc.set.
  destruct d as [id [] isNew paths]. simpl.
  by repeat (case_match; simpl).
Qed.

Lemma pre_save_isNew now d :
  Doc.isNew (TaskModel.pre_save now d) = Doc.isNew d.
Proof. unfold TaskModel.pre_save. repeat case_match; by rewrite ?set_isNew. Qed.

Lemma updated_isNew req x0 : Doc.isNew (updated req x0) = false.
Proof.
  unfold updated, TaskRoutes.assign.
  destruct (TaskBody.dueDate (body req)); by assign_other.
Qed.

Lemma stored_val now req x0 :
  stored now req x0 =
  Task.set_completedAt
    (Task.completedAt (Doc.val (TaskModel.pre_save now (updated req x0))))
    (Doc.val (updated req x0)).
Proof.
  unfold stored, TaskModel.timestamps.
  rewrite pre_save_isNew, updated_isNew. apply pre_save_val.
Qed.

Lemma updated_reminderDate req x0 :
  Task.reminderDate (Doc.val (updated req x0)) =
  match TaskBody.dueDate (body req) with
  | Some d => Some (d - 60 * 60 * 1000)
  | None => default (Task.reminderDate x0) (TaskBody.reminderDate (body req))
  end.
Proof.
  unfold updated. destruct (TaskBody.dueDate (body req)).
  - by rewrite set_get.
  - by rewrite assign_reminderDate.
Qed.

(** The stored task, field by field. *)
Lemma stored_eq now req x0 :
  stored now req x0 =
  Task.mk
    (default (Task.title x0) (TaskBody.title (body req)))
    (default (Task.completed x0) (TaskBody.completed (body req)))
    (default (Task.category x0) (TaskBody.category (body req)))
    (default (Task.dueDate x0) (Some <$> TaskBody.dueDate (body req)))
    (match TaskBody.dueDate (body req) with
     | Some d => Some (d - 60 * 60 * 1000)
     | None => default (Task.reminderDate x0)
                 (TaskBody.reminderDate (body req))
     end)
    (default (Task.userId x0) (TaskBody.userId (body req)))
    (if match TaskBody.completed (body req) with
        | Some v => bool_decide (Task.completed x0 ≠ v)
        | None => false
        end
     then (if default (Task.completed x0) (TaskBody.completed (body req))
           then Some now else None)
     else default (Task.completedAt x0) (TaskBody.completedAt (body req)))
    (Task.createdAt x0).
Proof.
  rewrite stored_val. apply task_eta; simpl.
  - unfold updated. destruct (TaskBody.dueDate (body req));
      rewrite ?set_other by done; apply assign_title.
  - apply updated_completed.
  - unfold updated. destruct (TaskBody.dueDate (body req));
      rewrite ?set_other by done; apply assign_category.
  - unfold updated. destruct (TaskBody.dueDate (body req)) eqn:Hd;
      rewrite ?set_other by done; by rewrite assign_dueDate, Hd.
  - apply updated_reminderDate.
  - unfold updated. destruct (TaskBody.dueDate (body req));
      rewrite ?set_other by done; apply assign_userId.
  - by rewrite pre_save_completedAt, updated_isModified_completed,
      updated_completed, updated_completedAt.
  - unfold updated, TaskRoutes.assign.
    destruct (TaskBody.dueDate (body req)); by assign_other.
Qed.

(** [PUT /api/tasks/:id] in full, in any environment. *)
Lemma put_eq env now req s :
  TaskRoutes.put env now req s =
  if negb (validation_isEmpty req) then
    (Ok (mkResponse 400 false "Validation failed"), s, [])
  else if db_rejects env (Task_findOne (params_id req) (user req)) then
    (Ok (mkResponse 500 false "Server error updating task"), s,
     [EvDb (Task_findOne (params_id req) (user req)) false;
      EvConsole "Update task error:"])
  else
    match tasks s !! params_id req with
    | Some x0 =>
        if decide (Task.userId x0 = user req) then
          if db_rejects env (Task_save (params_id req)) then
            (Ok (mkResponse 500 false "Server error updating task"), s,
             [EvDb (Task_findOne (params_id req) (user req)) true;
              EvDb (Task_save (params_id req)) false;
              EvConsole "Update task error:"])
          else
            (Ok (mkResponse 200 true "Task updated successfully"),
             set_tasks (<[params_id req := stored now req x0]>) s,
             [EvDb (Task_findOne (params_id req) (user req)) true;
              EvDb (Task_save (params_id req)) true])
        else
          (Ok (mkResponse 404 false "Task not found"), s,
           [EvDb (Task_findOne (params_id req) (user req)) true])
    | None =>
        (Ok (mkResponse 404 false "Task not found"), s,
         [EvDb (Task_findOne (params_id req) (user req)) true])
    end.
Proof.
  unfold TaskRoutes.put.
  destruct (validation_isEmpty req); simpl; [|done].
  unfold try_catch, TaskModel.findOne, db, gets.
  unfold mbind at 1, M_bind at 1. unfold mbind at 1, M_bind at 1.
  destruct (db_rejects env (Task_findOne _ _)); simpl; [done|].
  destruct (tasks s !! params_id req) as [x0|] eqn:Hx; [|done].
  destruct (decide (Task.userId x0 = user req)) as [Hu|]; [|done].
  fold (updated req x0).
  unfold mbind, M_bind. rewrite save_run. cbv zeta.
  assert (Doc._id (updated req x0) = params_id req) as ->.
  { unfold updated. case_match; by rewrite ?set_id, assign_id. }
  by destruct (db_rejects env (Task_save _)).
Qed.

(** Every outcome of [PUT /api/tasks/:id]: either nothing is written and
    the response reports a failure, or the task was found among the
    requester's and is replaced by its updated version. *)
Lemma put_outcome env now req s :
  (final (TaskRoutes.put env now req s) = s ∧
   ∃ r, result (TaskRoutes.put env now req s) = Ok r ∧ success r = false) ∨
  (∃ x0, tasks s !! params_id req = Some x0 ∧ Task.userId x0 = user req ∧
         final (TaskRoutes.put env now req s) =
           set_tasks (<[params_id req := stored now req x0]>) s ∧
         result (TaskRoutes.put env now req s) =
           Ok (mkResponse 200 true "Task updated successfully")).
Proof.
  rewrite put_eq.
  destruct (validation_isEmpty req); simpl; [|left; by eauto].
  destruct (db_rejects env (Task_findOne _ _)); [left; by eauto|].
  destruct (tasks s !! params_id req) as [x0|] eqn:Hx; [|left; by eauto].
  destruct (decide (Task.userId x0 = user req)) as [Hu|]; [|left; by eauto].
  destruct (db_rejects env (Task_save _)); [left; by eauto|].
  right. by exists x0.
Qed.

Lemma put_not_found env now req s :
  validation_isEmpty req = true →
  db_rejects env (Task_findOne (params_id req) (user req)) = false →
  (∀ x, tasks s !! params_id req = Some x → Task.userId x ≠ user req) →
  TaskRoutes.put env now req s =
  (Ok (mkResponse 404 false "Task not found"), s,
   [EvDb (Task_findOne (params_id req) (user req)) true]).
Proof.
  intros Hv Hdb Hx. rewrite put_eq, Hv, Hdb. simpl.
  destruct (tasks s !! params_id req) as [x|] eqn:E; [|done].
  by rewrite decide_False by by apply Hx.
Qed.

(** X12. Nobody can change another user's task: a [PUT /api/tasks/:id]
    for an id that is not a task of the requester writes nothing and
    reports a failure, whatever the body says; when the request passes
    validation and the database answers the lookup, the response is
    404 "Task not found". *)
Theorem put_on_foreign_task_is_refused env now req s :
  (∀ x, tasks s !! params_id req = Some x → Task.userId x ≠ user req) →
  final (TaskRoutes.put env now req s) = s ∧
  ∃ r, result (TaskRoutes.put env now req s) = Ok r ∧ success r = false ∧
       (validation_isEmpty req = true →
        db_rejects env (Task_findOne (params_id req) (user req)) = false →
        r = mkResponse 404 false "Task not found").
Proof.
  intros Hx.
  destruct (put_outcome env now req s)
    as [[Hs (r & Hr & Hf)]|(x0 & Hx0 & Hu & _)];
    [|by destruct (Hx x0 Hx0)].
  split; [done|]. exists r. split; [done|]. split; [done|].
  intros Hv Hdb. rewrite put_not_found in Hr by done. by injection Hr.
Qed.

Lemma put_on_foreign_task_is_refused_witness :
  let o := TaskRoutes.put env0 (Date.UTC 2024 1 9 18 0) foreign_req db0 in
  (∀ x, tasks db0 !! params_id foreign_req = Some x →
        Task.userId x ≠ user foreign_req) ∧
  final o = db0 ∧
  ∃ r, result o = Ok r ∧ success r = false ∧
       (validation_isEmpty foreign_req = true →
        db_rejects env0 (Task_findOne (params_id foreign_req)
                           (user foreign_req)) = false →
        r = mkResponse 404 false "Task not found").
Proof.
  intros o.
  assert (∀ x, tasks db0 !! params_id foreign_req = Some x →
               Task.userId x ≠ user foreign_req) as H1.
  { intros x. change (tasks db0 !! params_id foreign_req) with (Some gym).
    intros [= <-]. discriminate. }
  split; [exact H1|].
  exact (put_on_foreign_task_is_refused env0 (Date.UTC 2024 1 9 18 0)
           foreign_req db0 H1).
Defined.

(** [POST /api/tasks] in full, in any environment. *)
Lemma post_eq env now req s :
  TaskRoutes.post env now req s =
  let id := fresh (dom (tasks s)) in
  let x := Doc.val (TaskModel.timestamps now
                      (TaskModel.pre_save now (created req s))) in
  if negb (validation_isEmpty req) then
    (Ok (mkResponse 400 false "Validation failed"), s, [])
  else if bool_decide (Task.title (Doc.val (created req s)) = "") ||
          bool_decide (Task.category (Doc.val (created req s)) = "") then
    (Ok (mkResponse 500 false "Server error creating task"), s,
     [EvConsole "Create task error:"])
  else if db_rejects env (Task_save id) then
    (Ok (mkResponse 500 false "Server error creating task"), s,
     [EvDb (Task_save id) false; EvConsole "Create task error:"])
  else
    (Ok (mkResponse 201 true "Task created successfully"),
     set_tasks (<[id := x]>) s, [EvDb (Task_save id) true]).
Proof.
  unfold TaskRoutes.post.
  destruct (validation_isEmpty req); cbn [negb]; [|done].
  unfold try_catch, gets. unfold mbind at 1, M_bind at 1.
  fold (created req s).
  unfold mbind at 1, M_bind at 1.
  destruct (bool_decide (Task.title _ = "")); simpl; [done|].
  destruct (bool_decide (Task.category _ = "")); simpl; [done|].
  unfold mbind, M_bind. rewrite save_run. cbv zeta.
  assert (Doc._id (created req s) = fresh (dom (tasks s))) as ->.
  { unfold created. by rewrite assign_id. }
  by destruct (db_rejects env (Task_save _)).
Qed.

Lemma created_userId now req s :
  Task.userId (Doc.val (TaskModel.timestamps now
                          (TaskModel.pre_save now (created req s))))
  = user req.
Proof.
  assert (∀ d, Task.userId (Doc.val (TaskModel.timestamps now d))
               = Task.userId (Doc.val d)) as Ht.
  { intros d. unfold TaskModel.timestamps. by destruct (Doc.isNew d). }
  assert (∀ d, Task.userId (Doc.val (TaskModel.pre_save now d))
               = Task.userId (Doc.val d)) as Hp.
  { intros d. by rewrite pre_save_val. }
  rewrite Ht, Hp. unfold created. rewrite assign_userId. taskData.
  by destruct (TaskBody.dueDate (body req)).
Qed.

(** X14. Creating a task adds one task and changes nothing else:
    whatever the environment and the body, [POST /api/tasks] leaves the
    users, the categories and every stored task as they are, and a task
    that is there afterwards and was not before belongs to the
    requester. *)
Theorem post_adds_a_task_of_the_requester env now req s :
  let s' := final (TaskRoutes.post env now req s) in
  users s' = users s ∧
  categories s' = categories s ∧
  (∀ id x, tasks s !! id = Some x → tasks s' !! id = Some x) ∧
  (∀ id x, tasks s' !! id = Some x → tasks s !! id = None →
           id = fresh (dom (tasks s)) ∧ Task.userId x = user req).
Proof.
  intros s'. subst s'. rewrite post_eq. cbv zeta.
  destruct (negb _);
    [unfold final; simpl; split_and!; try done; intros; congruence|].
  destruct (_ || _);
    [unfold final; simpl; split_and!; try done; intros; congruence|].
  destruct (db_rejects env _);
    [unfold final; simpl; split_and!; try done; intros; congruence|].
  unfold final. simpl. split; [done|]. split; [done|]. split.
  - intros id x Hx. rewrite lookup_insert_ne; [done|]. intros <-.
    apply elem_of_dom_2 in Hx. by apply is_fresh in Hx.
  - intros id x Hx Hnone.
    destruct (decide (id = fresh (dom (tasks s)))) as [->|Hne].
    + rewrite lookup_insert_eq in Hx. injection Hx as <-.
      split; [done|]. apply created_userId.
    + rewrite lookup_insert_ne in Hx by done. congruence.
Qed.

(** A completed task is invisible to the reminder scan. *)
Lemma scans_completed runs s id x :
  tasks s !! id = Some x →
  Task.completed x = true →
  tasks (scans runs s).1 !! id = Some x ∧
  ∀ userId, EvCall (sendTaskReminder_called userId id) ∉ (scans runs s).2.
Proof.
  intros Hx Hc. revert s Hx.
  induction runs as [|[env now] runs IH]; intros s Hx; simpl.
  { split; [done|]. intros ?. apply not_elem_of_nil. }
  assert (tasks (final (NotificationService.checkAndSendReminders env now s))
            !! id = Some x) as Hx'.
  { rewrite scan_untouched; [done|]. intros x'. rewrite Hx. intros [= <-].
    apply not_true_iff_false. intros [[Hc' _] _]%deliverable_spec.
    congruence. }
  destruct (IH _ Hx') as [IH1 IH2]. split; [done|].
  intros userId [Hin|Hin]%elem_of_app; [|by eapply IH2].
  apply scan_calls in Hin as (x' & Hsel).
  apply tasksToRemind_spec in Hsel as (Hx'' & Hc' & _).
  rewrite Hx in Hx''. injection Hx'' as <-. congruence.
Qed.

(** X15. Ticking a task off silences its reminder: after a
    [PUT /api/tasks/:id] by the owner whose body has [completed: true]
    (the request passes validation and the database answers), no reminder
    scan, at whatever time and in whatever environment, dispatches a
    reminder for that task, and the scans leave the task as the update
    stored it. *)
Theorem completed_task_is_never_reminded env now req s x0 runs :
  reliable env →
  validation_isEmpty req = true →
  tasks s !! params_id req = Some x0 →
  Task.userId x0 = user req →
  TaskBody.completed (body req) = Some true →
  let s' := final (TaskRoutes.put env now req s) in
  tasks (scans runs s').1 !! params_id req = tasks s' !! params_id req ∧
  ∀ userId,
    EvCall (sendTaskReminder_called userId (params_id req)) ∉ (scans runs s').2.
Proof.
  intros Hdb Hv Hx Hu Hc s'. subst s'.
  rewrite (put_run env now req s x0) by done.
  unfold final at 2 3. simpl. rewrite lookup_insert_eq.
  apply scans_completed.
  - simpl. apply lookup_insert_eq.
  - by rewrite timestamps_completed, pre_save_completed, updated_completed, Hc.
Qed.

Lemma completed_task_is_never_reminded_witness :
  let now := Date.UTC 2024 1 9 18 0 in
  let runs := [(env0, Date.UTC 2024 1 10 8 45);
               (env0, Date.UTC 2024 1 10 9 0)] in
  reliable env0 ∧
  validation_isEmpty complete_req = true ∧
  tasks db0 !! params_id complete_req = Some report ∧
  Task.userId report = user complete_req ∧
  TaskBody.completed (body complete_req) = Some true ∧
  let s' := final (TaskRoutes.put env0 now complete_req db0) in
  tasks (scans runs s').1 !! params_id complete_req
    = tasks s' !! params_id complete_req ∧
  ∀ userId,
    EvCall (sendTaskReminder_called userId (params_id complete_req))
      ∉ (scans runs s').2.
Proof.
  intros now runs.
  assert (reliable env0) as H1 by (intros op; reflexivity).
  split; [exact H1|]. split; [reflexivity|]. split; [reflexivity|].
  split; [reflexivity|]. split; [reflexivity|].
  exact (completed_task_is_never_reminded env0 now complete_req db0 report
           runs H1 eq_refl eq_refl eq_refl eq_refl).
Defined.

Lemma final_triple {A} (r : Result A) (s : Db) (t : list Event) :
  final (r, s, t) = s.
Proof. done. Qed.

(** Updating the stored task with the same request stores it again. *)
Lemma stored_stored now1 now2 req x0 :
  TaskBody.completedAt (body req) = None →
  stored now2 req (stored now1 req x0) = stored now1 req x0.
Proof.
  intros Hc. rewrite (stored_eq now2), (stored_eq now1), Hc. simpl.
  destruct (TaskBody.title (body req)), (TaskBody.completed (body req)) as [v|],
    (TaskBody.category (body req)), (TaskBody.dueDate (body req)),
    (TaskBody.reminderDate (body req)), (TaskBody.userId (body req)); simpl;
    rewrite ?(bool_decide_eq_false_2 (v ≠ v)) by (by intros ?);
    done.
Qed.

(** X16. An update can be repeated: for a body made of the keys
    [title], [completed], [category], [dueDate], [reminderDate] and
    [userId] and no others, and when the database answers, sending the
    same [PUT /api/tasks/:id] a second time, at whatever later time,
    leaves the database as the first one left it.  In particular the
    [completedAt] stamp of the first request is kept; and when the first
    request gave the task to another user, the second one no longer
    finds it. *)
Theorem put_twice_is_put_once env1 env2 now1 now2 req s :
  reliable env1 →
  reliable env2 →
  TaskBody.completedAt (body req) = None →
  final (TaskRoutes.put env2 now2 req (final (TaskRoutes.put env1 now1 req s)))
  = final (TaskRoutes.put env1 now1 req s).
Proof.
  intros Hdb1 Hdb2 Hc. rewrite (put_eq env1). rewrite !Hdb1.
  destruct (validation_isEmpty req) eqn:Hv; simpl.
  2: { rewrite !final_triple. by rewrite put_eq, Hv. }
  destruct (tasks s !! params_id req) as [x0|] eqn:Hx.
  2: { rewrite !final_triple. by rewrite put_eq, Hv, !Hdb2, Hx. }
  destruct (decide (Task.userId x0 = user req)) as [Hu|Hu].
  2: { rewrite !final_triple.
       by rewrite put_eq, Hv, !Hdb2, Hx, decide_False. }
  rewrite !final_triple. rewrite put_eq, Hv, !Hdb2. simpl.
  rewrite lookup_insert_eq.
  destruct (decide (Task.userId (stored now1 req x0) = user req))
    as [Hu'|Hu']; rewrite final_triple; [|done].
  unfold set_tasks. simpl.
  by rewrite stored_stored, insert_insert_eq.
Qed.

Lemma put_twice_is_put_once_witness :
  reliable env0 ∧ reliable env_mail_down ∧
  TaskBody.completedAt (body complete_req) = None ∧
  final (TaskRoutes.put env_mail_down (Date.UTC 2024 1 9 19 0) complete_req
           (final (TaskRoutes.put env0 (Date.UTC 2024 1 9 18 0) complete_req
                     db0)))
  = final (TaskRoutes.put env0 (Date.UTC 2024 1 9 18 0) complete_req db0).
Proof.
  assert (reliable env0) as H1 by (intros op; reflexivity).
  assert (reliable env_mail_down) as H2 by (intros op; reflexivity).
  split; [exact H1|]. split; [exact H2|]. split; [reflexivity|].
  exact (put_twice_is_put_once env0 env_mail_down (Date.UTC 2024 1 9 18 0)
           (Date.UTC 2024 1 9 19 0) complete_req db0 H1 H2 eq_refl).
Defined.

(** X17. A reminder time chosen by the client is kept only when the
    request carries no due date: a [PUT /api/tasks/:id] by the owner
    whose body has a [reminderDate] key (a date, or null to cancel the
    reminder) stores that value when the body has no [dueDate], and
    stores one hour before the [dueDate] of the body otherwise (the
    request passes validation and the database answers). *)
Theorem client_reminder_needs_no_due_date env now req s x0 r :
  reliable env →
  validation_isEmpty req = true →
  tasks s !! params_id req = Some x0 →
  Task.userId x0 = user req →
  TaskBody.reminderDate (body req) = Some r →
  ∃ x, tasks (final (TaskRoutes.put env now req s)) !! params_id req = Some x ∧
       Task.reminderDate x =
         match TaskBody.dueDate (body req) with
         | Some d => Some (d - Date.MS_PER_HOUR)
         | None => r
         end.
Proof.
  intros Hdb Hv Hx Hu Hr. rewrite (put_run env now req s x0) by done.
  eexists. split; [apply lookup_insert_eq|]. fold (stored now req x0).
  by rewrite stored_eq, Hr.
Qed.

Lemma client_reminder_needs_no_due_date_witness :
  reliable env0 ∧
  validation_isEmpty remind_me_req = true ∧
  tasks db0 !! params_id remind_me_req = Some report ∧
  Task.userId report = user remind_me_req ∧
  TaskBody.reminderDate (body remind_me_req)
    = Some (Some (Date.UTC 2024 1 10 7 30)) ∧
  ∃ x, tasks (final (TaskRoutes.put env0 (Date.UTC 2024 1 9 18 0)
                       remind_me_req db0)) !! params_id remind_me_req
         = Some x ∧
       Task.reminderDate x =
         match TaskBody.dueDate (body remind_me_req) with
         | Some d => Some (d - Date.MS_PER_HOUR)
         | None => Some (Date.UTC 2024 1 10 7 30)
         end.
Proof.
  assert (reliable env0) as H1 by (intros op; reflexivity).
  split; [exact H1|]. split; [reflexivity|]. split; [reflexivity|].
  split; [reflexivity|]. split; [reflexivity|].
  exact (client_reminder_needs_no_due_date env0 (Date.UTC 2024 1 9 18 0)
           remind_me_req db0 report (Some (Date.UTC 2024 1 10 7 30))
           H1 eq_refl eq_refl eq_refl eq_refl).
Defined.

(** X18. An update that carries a due date arms the reminder again: if a
    scan has dispatched the reminder of a task and cleared it, and the
    owner then sends a [PUT /api/tasks/:id] whose body has a [dueDate]
    (the one the task has, or another) and neither a [completed] nor a
    [userId] key, a later scan that reads the clock within the fifteen
    minutes before the new reminder time dispatches a reminder for the
    task to its owner once more (the database answers throughout). *)
Theorem update_rearms_the_reminder env1 env2 env3 now1 now2 now3 req s x0
    owner d :
  reliable env1 → reliable env2 → reliable env3 →
  (params_id req, x0) ∈ NotificationService.tasksToRemind now1 (tasks s) →
  Task.userId x0 = user req →
  users s !! user req = Some owner →
  User.emailNotifications (User.preferences owner) = true →
  validation_isEmpty req = true →
  TaskBody.dueDate (body req) = Some d →
  TaskBody.completed (body req) = None →
  TaskBody.userId (body req) = None →
  now3 ≤ d - Date.MS_PER_HOUR ≤ now3 + 15 * Date.MS_PER_MINUTE →
  let o1 := NotificationService.checkAndSendReminders env1 now1 s in
  let o2 := TaskRoutes.put env2 now2 req (final o1) in
  let o3 := NotificationService.checkAndSendReminders env3 now3 (final o2) in
  EvCall (sendTaskReminder_called (user req) (params_id req)) ∈ events o1 ∧
  cleared (params_id req) (final o1) ∧
  EvCall (sendTaskReminder_called (user req) (params_id req)) ∈ events o3.
Proof.
  intros Hdb1 Hdb2 Hdb3 Hsel Hu Ho En Hv Hd Hc Hn Hwin o1 o2 o3.
  pose proof Hsel as (_ & Hopen & _)%tasksToRemind_spec.
  destruct (scan_processes env1 now1 s (params_id req) x0 owner)
    as (_ & (t1 & t3 & Hev1) & Hfin1); [done|done|by rewrite Hu|done|].
  fold o1 in Hev1, Hfin1.
  destruct (scan_frame env1 now1 s) as [Hus _]. fold o1 in Hus.
  split; [|split].
  - rewrite Hev1, sendTaskReminder_run, Hu. simpl.
    apply elem_of_app. right. by left.
  - by exists (Task.set_reminderDate None x0).
  - subst o2.
    set (x1 := Task.set_reminderDate None x0) in *.
    assert (TaskRoutes.put env2 now2 req (final o1) =
            (Ok (mkResponse 200 true "Task updated successfully"),
             set_tasks (<[params_id req := stored now2 req x1]>) (final o1),
             [EvDb (Task_findOne (params_id req) (user req)) true;
              EvDb (Task_save (params_id req)) true])) as E2
      by by apply put_run.
    subst o3. rewrite E2, final_triple.
    destruct (scan_processes env3 now3
                (set_tasks (<[params_id req := stored now2 req x1]>) (final o1))
                (params_id req) (stored now2 req x1) owner)
      as (_ & (t1' & t3' & ->) & _); [done| | |done|].
    + apply tasksToRemind_spec. simpl. rewrite lookup_insert_eq.
      split; [done|]. rewrite stored_eq, Hc, Hd. simpl.
      split; [done|]. by eexists.
    + rewrite stored_eq, Hn. subst x1. simpl. by rewrite Hus, Hu.
    + rewrite sendTaskReminder_run, stored_eq, Hn. subst x1. simpl.
      rewrite Hu. apply elem_of_app. right. by left.
Qed.

Lemma update_rearms_the_reminder_witness :
  let now1 := Date.UTC 2024 1 10 8 45 in
  let now2 := Date.UTC 2024 1 10 8 50 in
  let now3 := Date.UTC 2024 1 10 9 0 in
  let d := Date.UTC 2024 1 10 10 0 in
  reliable env0 ∧ reliable env0 ∧ reliable env0 ∧
  (params_id resend_req, report)
    ∈ NotificationService.tasksToRemind now1 (tasks db0) ∧
  Task.userId report = user resend_req ∧
  users db0 !! user resend_req = Some alice ∧
  User.emailNotifications (User.preferences alice) = true ∧
  validation_isEmpty resend_req = true ∧
  TaskBody.dueDate (body resend_req) = Some d ∧
  TaskBody.completed (body resend_req) = None ∧
  TaskBody.userId (body resend_req) = None ∧
  now3 ≤ d - Date.MS_PER_HOUR ≤ now3 + 15 * Date.MS_PER_MINUTE ∧
  let o1 := NotificationService.checkAndSendReminders env0 now1 db0 in
  let o2 := TaskRoutes.put env0 now2 resend_req (final o1) in
  let o3 := NotificationService.checkAndSendReminders env0 now3 (final o2) in
  EvCall (sendTaskReminder_called (user resend_req) (params_id resend_req))
    ∈ events o1 ∧
  cleared (params_id resend_req) (final o1) ∧
  EvCall (sendTaskReminder_called (user resend_req) (params_id resend_req))
    ∈ events o3.
Proof.
  intros now1 now2 now3 d.
  assert (reliable env0) as H1 by (intros op; reflexivity).
  assert ((params_id resend_req, report)
            ∈ NotificationService.tasksToRemind now1 (tasks db0)) as H2.
  { apply tasksToRemind_spec. split; [reflexivity|]. split; [reflexivity|].
    exists (Date.UTC 2024 1 10 9 0). split; [reflexivity|].
    vm_compute. split; discriminate. }
  assert (now3 ≤ d - Date.MS_PER_HOUR ≤ now3 + 15 * Date.MS_PER_MINUTE) as H3.
  { vm_compute. split; discriminate. }
  split; [exact H1|]. split; [exact H1|]. split; [exact H1|].
  split; [exact H2|]. split; [reflexivity|]. split; [reflexivity|].
  split; [reflexivity|]. split; [reflexivity|]. split; [reflexivity|].
  split; [reflexivity|]. split; [reflexivity|]. split; [exact H3|].
  exact (update_rearms_the_reminder env0 env0 env0 now1 now2 now3 resend_req
           db0 report alice d H1 H1 H1 H2 eq_refl eq_refl eq_refl eq_refl
           eq_refl eq_refl eq_refl H3).
Defined.

(** ** Overdue tasks *)

Lemma endOfTomorrow_later now : now < NotificationService.endOfTomorrow now.
Proof.
  unfold NotificationService.endOfTomorrow.
  assert (0 < Date.MS_PER_DAY) as HD by done.
  pose proof (Z.mod_pos_bound now Date.MS_PER_DAY HD).
  pose proof (Z.div_mod now Date.MS_PER_DAY ltac:(lia)).
  assert (1 < Date.MS_PER_DAY) by done. nia.
Qed.

(** X19. What the daily digest asks for: the query of the daily job run
    at [now] matches, among a user's tasks, exactly those the schema's
    [isOverdue] virtual reports overdue at [now] and the open ones due
    between [now] and the end of the following day. *)
Theorem digest_is_overdue_or_due_by_tomorrow now userId x :
  TaskModel.dueSoon_query userId (NotificationService.endOfTomorrow now) x
    = true ↔
  Task.userId x = userId ∧
  (isOverdue now x = true ∨
   (Task.completed x = false ∧
    ∃ d, Task.dueDate x = Some d ∧
         now ≤ d ≤ NotificationService.endOfTomorrow now)).
Proof.
  rewrite dueSoon_query_spec. unfold isOverdue.
  pose proof (endOfTomorrow_later now).
  destruct (Task.dueDate x) as [d|], (Task.completed x); split.
  all: try (intros (? & ? & ?); discriminate).
  all: try (intros (_ & [?|[? _]]); discriminate).
  - intros (Hu & _ & d' & [= <-] & Hle). split; [done|].
    destruct (Z.ltb_spec d now); [by left|right].
    split; [done|]. exists d. split; [done|]. lia.
  - intros (Hu & [Hlt%Z.ltb_lt|(_ & d' & [= <-] & Hle)]).
    + split; [done|]. split; [done|]. exists d. split; [done|]. lia.
    + split; [done|]. split; [done|]. exists d. split; [done|]. lia.
  - intros (_ & _ & d & [=] & _).
  - intros (_ & [?|(_ & d & [=] & _)]). discriminate.
Qed.

(** ** Category routes, continued *)

Lemma Category_save_saved env this s :
  reliable env →
  CategoryModel.save env this s =
  (Ok tt, set_categories (savedCategory this) s,
   if Category.isDefault (Doc.val this) && Doc.isModified "isDefault" this
   then [EvDb (Category_updateMany_clearDefault
                 (Category.userId (Doc.val this)) (Doc._id this)) true;
         EvDb (Category_save (Doc._id this)) true]
   else [EvDb (Category_save (Doc._id this)) true]).
Proof.
  intros Hdb. rewrite Category_save_run by done. unfold savedCategory.
  by destruct (_ && _).
Qed.

Lemma existsByName_run env userId name except s :
  reliable env →
  CategoryModel.existsByName env userId name except s =
  (Ok (nameTakenb userId name except (categories s)), s,
   [EvDb (Category_findOne_byName userId name) true]).
Proof.
  intros Hdb. unfold CategoryModel.existsByName, db, gets, mbind, M_bind.
  by rewrite Hdb.
Qed.

Lemma Category_find_spec (q : ObjectId → Category.t → bool)
    (coll : gmap ObjectId Category.t) i c :
  (i, c) ∈ CategoryModel.find q coll ↔ coll !! i = Some c ∧ q i c = true.
Proof.
  unfold CategoryModel.find.
  by rewrite elem_of_map_to_list, map_lookup_filter_Some.
Qed.

Lemma nameTakenb_spec userId name except (coll : gmap ObjectId Category.t) :
  nameTakenb userId name except coll = true ↔
  nameTaken userId name except coll.
Proof.
  unfold nameTakenb, nameTaken. rewrite bool_decide_eq_true. split.
  - destruct (CategoryModel.find _ coll) as [|[i c] l] eqn:E; [done|].
    intros _. exists i, c.
    assert ((i, c) ∈ (i, c) :: l) as Hin by by left.
    rewrite <-E in Hin. apply Category_find_spec in Hin as [Hc Hq].
    rewrite !andb_true_iff, !bool_decide_eq_true in Hq. tauto.
  - intros (i & c & Hc & Hu & Hn & Hne) Hnil.
    assert ((i, c) ∈ CategoryModel.find (λ i c,
      bool_decide (Category.userId c = userId) &&
      bool_decide (Category.name c = name) &&
      bool_decide (Some i ≠ except)) coll) as Hin.
    { apply Category_find_spec. split; [done|].
      by rewrite !andb_true_iff, !bool_decide_eq_true. }
    rewrite Hnil in Hin. by apply elem_of_nil in Hin.
Qed.

Lemma nameTakenb_false userId name except (coll : gmap ObjectId Category.t) :
  nameTakenb userId name except coll = false ↔
  ¬ nameTaken userId name except coll.
Proof. by rewrite <-nameTakenb_spec, not_true_iff_false. Qed.

Lemma lastOrder_run env userId s :
  reliable env →
  CategoryModel.lastOrder env userId s =
  (Ok (foldr (λ kv best,
                match best with
                | Some m => Some (Z.max (Category.order kv.2) m)
                | None => Some (Category.order kv.2)
                end)
             None
             (CategoryModel.find
                (λ _ c, bool_decide (Category.userId c = userId))
                (categories s))),
   s, [EvDb (Category_findOne_last userId) true]).
Proof.
  intros Hdb. unfold CategoryModel.lastOrder, db, gets, mbind, M_bind.
  by rewrite Hdb.
Qed.

(** The highest [order]: an upper bound of every listed category, none
    only for the empty list. *)
Lemma lastOrder_spec (l : list (ObjectId * Category.t)) :
  match foldr (λ kv best,
                 match best with
                 | Some m => Some (Z.max (Category.order kv.2) m)
                 | None => Some (Category.order kv.2)
                 end) None l with
  | Some m => ∀ kv, kv ∈ l → Category.order kv.2 ≤ m
  | None => l = []
  end.
Proof.
  induction l as [|kv l IH]; simpl; [done|].
  destruct (foldr _ None l) as [m|].
  - intros kv' [->|Hin]%elem_of_cons; [lia|]. specialize (IH kv' Hin). lia.
  - subst l. intros kv' [->|[]%elem_of_nil]%elem_of_cons. lia.
Qed.

(** The highest [order] is the [order] of a listed category. *)
Lemma lastOrder_small (l : list (ObjectId * Category.t)) :
  match foldr (λ kv best,
                 match best with
                 | Some m => Some (Z.max (Category.order kv.2) m)
                 | None => Some (Category.order kv.2)
                 end) None l with
  | Some m =>
      (∀ kv, kv ∈ l → Z.abs (Category.order kv.2) < 2 ^ 53) →
      Z.abs m < 2 ^ 53
  | None => True
  end.
Proof.
  induction l as [|kv l IH]; simpl; [done|].
  destruct (foldr _ None l) as [m|].
  - intros Hl.
    assert (Z.abs m < 2 ^ 53) by (apply IH; intros; apply Hl; by right).
    assert (Z.abs (Category.order kv.2) < 2 ^ 53) by (apply Hl; by left).
    lia.
  - intros Hl. apply Hl. by left.
Qed.

Lemma nextOrder_list userId (coll : gmap ObjectId Category.t) i c :
  (i, c) ∈ CategoryModel.find
             (λ _ c, bool_decide (Category.userId c = userId)) coll ↔
  coll !! i = Some c ∧ Category.userId c = userId.
Proof. rewrite Category_find_spec. by rewrite bool_decide_eq_true. Qed.

Lemma nextOrder_spec userId (coll : gmap ObjectId Category.t) :
  (∀ i c, coll !! i = Some c → Category.userId c = userId →
          Z.abs (Category.order c) < 2 ^ 53) →
  ∀ i c, coll !! i = Some c → Category.userId c = userId →
         Category.order c < nextOrder userId coll.
Proof.
  intros Hsmall i c Hc Hu. unfold nextOrder.
  pose proof (nextOrder_list userId coll) as Hl. revert Hl.
  set (l := CategoryModel.find _ coll). intros Hl.
  pose proof (lastOrder_spec l) as Hlast.
  pose proof (lastOrder_small l) as Hmax.
  assert ((i, c) ∈ l) as Hin by by apply Hl.
  destruct (foldr _ None l) as [m|].
  - specialize (Hlast _ Hin). simpl in Hlast.
    assert (Z.abs m < 2 ^ 53) as Hm.
    { apply Hmax. intros [j c'] [Hc' Hu']%Hl. by eapply Hsmall. }
    unfold Number.succ. apply Z.ltb_lt in Hm. rewrite Hm. lia.
  - rewrite Hlast in Hin. by apply elem_of_nil in Hin.
Qed.

Lemma nextOrder_zero userId (coll : gmap ObjectId Category.t) :
  (∀ i c, coll !! i = Some c → Category.userId c ≠ userId) →
  nextOrder userId coll = 0.
Proof.
  intros Hnone. unfold nextOrder.
  pose proof (nextOrder_list userId coll) as Hl. revert Hl.
  set (l := CategoryModel.find _ coll). intros Hl.
  destruct l as [|[i c] l']; [done|].
  assert ((i, c) ∈ (i, c) :: l') as [Hc Hu]%Hl by by left.
  by destruct (Hnone i c Hc).
Qed.

(** [POST /api/categories] when the database answers. *)
Lemma Category_post_run env req s :
  reliable env →
  CategoryRoutes.post env req s =
  if negb (validation_isEmpty req) then
    (Ok (mkResponse 400 false "Validation failed"), s, [])
  else
    match CategoryBody.name (body req) with
    | None =>
        (Ok (mkResponse 500 false "Server error creating category"), s,
         [EvConsole "Create category error:"])
    | Some name =>
        if nameTakenb (user req) name None (categories s) then
          (Ok (mkResponse 400 false "Category with this name already exists"),
           s, [EvDb (Category_findOne_byName (user req) name) true])
        else
          let this :=
            createdCategory req name (nextOrder (user req) (categories s)) s in
          (Ok (mkResponse 201 true "Category created successfully"),
           set_categories (savedCategory this) s,
           EvDb (Category_findOne_byName (user req) name) true ::
           EvDb (Category_findOne_last (user req)) true ::
           events (CategoryModel.save env this s))
    end.
Proof.
  intros Hdb. unfold CategoryRoutes.post.
  destruct (validation_isEmpty req); cbn [negb]; [|done].
  destruct (CategoryBody.name (body req)) as [name|]; [|done].
  unfold try_catch.
  erewrite bind_Ok by by apply existsByName_run.
  unfold result at 1, final at 1, events at 1.
  destruct (nameTakenb _ _ _ _); [reflexivity|].
  erewrite bind_Ok by by apply lastOrder_run.
  unfold result at 1, final at 1, events at 1.
  unfold gets. erewrite bind_Ok by done.
  unfold result at 1, final at 1, events at 1. cbv zeta.
  fold (nextOrder (user req) (categories s)).
  fold (createdCategory req name (nextOrder (user req) (categories s)) s).
  erewrite bind_Ok by by apply Category_save_saved.
  rewrite Category_save_saved by done.
  unfold result, final, events, mret, M_ret. simpl. by rewrite app_nil_r.
Qed.

Lemma bind_run {A B} (m : M A) (f : A → M B) s a s1 t1 r s2 t2 :
  m s = (Ok a, s1, t1) →
  f a s1 = (r, s2, t2) →
  (m ≫= f) s = (r, s2, t1 ++ t2).
Proof. intros E1 E2. unfold mbind, M_bind. by rewrite E1, E2. Qed.

(** Whether [PUT /api/categories/:id] finds the new name taken. *)
Lemma conflict_run env req s c :
  reliable env →
  ∃ t,
    match CategoryBody.name (body req) with
    | Some name =>
        if bool_decide (name ≠ "") && bool_decide (name ≠ Category.name c)
        then CategoryModel.existsByName env (user req) name
               (Some (params_id req))
        else mret false
    | None => mret false
    end s =
    (Ok (renames req c &&
         nameTakenb (user req) (default "" (CategoryBody.name (body req)))
           (Some (params_id req)) (categories s)),
     s, t).
Proof.
  intros Hdb. unfold renames.
  destruct (CategoryBody.name (body req)) as [name|]; [|by eexists].
  destruct (_ && _); [|by eexists].
  eexists. by apply existsByName_run.
Qed.

(** [PUT /api/categories/:id] by the owner when the database answers:
    the response and the database it leaves. *)
Lemma Category_put_run env req s c :
  reliable env →
  validation_isEmpty req = true →
  categories s !! params_id req = Some c →
  Category.userId c = user req →
  ∃ t,
    CategoryRoutes.put env req s =
    if renames req c &&
       nameTakenb (user req) (default "" (CategoryBody.name (body req)))
         (Some (params_id req)) (categories s)
    then
      (Ok (mkResponse 400 false "Category with this name already exists"),
       s, t)
    else
      (Ok (mkResponse 200 true "Category updated successfully"),
       set_categories (savedCategory (updatedCategory req c)) s, t).
Proof.
  intros Hdb Hv Hc Hu. unfold CategoryRoutes.put. rewrite Hv. cbn [negb].
  destruct (conflict_run env req s c Hdb) as [t Ht].
  destruct (_ && nameTakenb _ _ _ _).
  - eexists. apply try_catch_Ok.
    eapply bind_run; [by apply Category_findOne_run|].
    rewrite Hc, decide_True by done.
    eapply bind_run; [exact Ht|]. reflexivity.
  - eexists. apply try_catch_Ok.
    eapply bind_run; [by apply Category_findOne_run|].
    rewrite Hc, decide_True by done.
    eapply bind_run; [exact Ht|]. fold (updatedCategory req c).
    eapply bind_run; [by apply Category_save_saved|]. reflexivity.
Qed.

Lemma Category_put_not_found_eq env req s :
  (∀ c, categories s !! params_id req = Some c →
        Category.userId c ≠ user req) →
  CategoryRoutes.put env req s =
  if negb (validation_isEmpty req) then
    (Ok (mkResponse 400 false "Validation failed"), s, [])
  else if db_rejects env (Category_findOne (params_id req) (user req)) then
    (Ok (mkResponse 500 false "Server error updating category"), s,
     [EvDb (Category_findOne (params_id req) (user req)) false;
      EvConsole "Update category error:"])
  else
    (Ok (mkResponse 404 false "Category not found"), s,
     [EvDb (Category_findOne (params_id req) (user req)) true]).
Proof.
  intros Hc. unfold CategoryRoutes.put.
  destruct (validation_isEmpty req); cbn [negb]; [|done].
  unfold try_catch, CategoryModel.findOne, db, gets.
  unfold mbind at 1, M_bind at 1. unfold mbind at 1, M_bind at 1.
  destruct (db_rejects env _); simpl; [done|].
  destruct (categories s !! params_id req) as [c|] eqn:E; [|done].
  by rewrite decide_False by by apply Hc.
Qed.

Lemma Category_delete_not_found_eq env req s :
  (∀ c, categories s !! params_id req = Some c →
        Category.userId c ≠ user req) →
  CategoryRoutes.delete env req s =
  if db_rejects env (Category_findOne (params_id req) (user req)) then
    (Ok (mkResponse 500 false "Server error deleting category"), s,
     [EvDb (Category_findOne (params_id req) (user req)) false;
      EvConsole "Delete category error:"])
  else
    (Ok (mkResponse 404 false "Category not found"), s,
     [EvDb (Category_findOne (params_id req) (user req)) true]).
Proof.
  intros Hc. unfold CategoryRoutes.delete.
  unfold try_catch, CategoryModel.findOne, db, gets.
  unfold mbind at 1, M_bind at 1. unfold mbind at 1, M_bind at 1.
  destruct (db_rejects env _); simpl; [done|].
  destruct (categories s !! params_id req) as [c|] eqn:E; [|done].
  by rewrite decide_False by by apply Hc.
Qed.

Lemma Category_put_not_found env req s :
  (∀ c, categories s !! params_id req = Some c →
        Category.userId c ≠ user req) →
  final (CategoryRoutes.put env req s) = s ∧
  ∃ r, result (CategoryRoutes.put env req s) = Ok r ∧ success r = false ∧
       (validation_isEmpty req = true →
        db_rejects env (Category_findOne (params_id req) (user req)) = false →
        r = mkResponse 404 false "Category not found").
Proof.
  intros Hc. rewrite Category_put_not_found_eq by done.
  destruct (validation_isEmpty req), (db_rejects env _); simpl;
    (split; [done|]); eexists; by split_and!.
Qed.

Lemma Category_delete_not_found env req s :
  (∀ c, categories s !! params_id req = Some c →
        Category.userId c ≠ user req) →
  final (CategoryRoutes.delete env req s) = s ∧
  ∃ r, result (CategoryRoutes.delete env req s) = Ok r ∧ success r = false ∧
       (db_rejects env (Category_findOne (params_id req) (user req)) = false →
        r = mkResponse 404 false "Category not found").
Proof.
  intros Hc. rewrite Category_delete_not_found_eq by done.
  destruct (db_rejects env _); simpl;
    (split; [done|]); eexists; by split_and!.
Qed.

(** X20. A category cannot be addressed by another user: a [PUT] or a
    [DELETE] on [/api/categories/:id] for an id that is not a category of
    the requester writes nothing and reports a failure, whatever the
    environment and the body; when the database answers the lookup (and
    the update passes validation) the response is
    404 "Category not found".  This is all the lookup protects: a [PUT]
    on a category of one's own can still change a category of somebody
    else.  When Alice sends [{ isDefault: true, userId: <Carol's id> }]
    for her category "Home", the request succeeds, "Home" becomes a
    default category of Carol, and the save middleware clears the
    default flag of Carol's category "Errands". *)
Theorem foreign_category_id_is_not_found env
    (update : Request CategoryBody.t) (remove : Request unit) s :
  (∀ c, categories s !! params_id update = Some c →
        Category.userId c ≠ user update) →
  (∀ c, categories s !! params_id remove = Some c →
        Category.userId c ≠ user remove) →
  (final (CategoryRoutes.put env update s) = s ∧
   ∃ r, result (CategoryRoutes.put env update s) = Ok r ∧ success r = false ∧
        (validation_isEmpty update = true →
         db_rejects env (Category_findOne (params_id update) (user update))
           = false →
         r = mkResponse 404 false "Category not found")) ∧
  (final (CategoryRoutes.delete env remove s) = s ∧
   ∃ r, result (CategoryRoutes.delete env remove s) = Ok r ∧
        success r = false ∧
        (db_rejects env (Category_findOne (params_id remove) (user remove))
           = false →
         r = mkResponse 404 false "Category not found")) ∧
  (let o := CategoryRoutes.put env0 takeover_req db2 in
   categories db2 !! 2%positive = Some home ∧
   categories db2 !! 3%positive = Some errands ∧
   result o = Ok (mkResponse 200 true "Category updated successfully") ∧
   categories (final o) !! 2%positive =
     Some (Category.set_userId 3%positive
             (Category.set_isDefault true home)) ∧
   categories (final o) !! 3%positive =
     Some (Category.set_isDefault false errands)).
Proof.
  intros Hu Hr. split; [|split].
  - by apply Category_put_not_found.
  - by apply Category_delete_not_found.
  - repeat split; by vm_compute.
Qed.

Lemma foreign_category_id_is_not_found_witness :
  (∀ c, categories db2 !! params_id foreign_category_req = Some c →
        Category.userId c ≠ user foreign_category_req) ∧
  (∀ c, categories db2 !! params_id foreign_delete_req = Some c →
        Category.userId c ≠ user foreign_delete_req) ∧
  (final (CategoryRoutes.put env0 foreign_category_req db2) = db2 ∧
   ∃ r, result (CategoryRoutes.put env0 foreign_category_req db2) = Ok r ∧
        success r = false ∧
        (validation_isEmpty foreign_category_req = true →
         db_rejects env0 (Category_findOne (params_id foreign_category_req)
                            (user foreign_category_req)) = false →
         r = mkResponse 404 false "Category not found")) ∧
  (final (CategoryRoutes.delete env0 foreign_delete_req db2) = db2 ∧
   ∃ r, result (CategoryRoutes.delete env0 foreign_delete_req db2) = Ok r ∧
        success r = false ∧
        (db_rejects env0 (Category_findOne (params_id foreign_delete_req)
                            (user foreign_delete_req)) = false →
         r = mkResponse 404 false "Category not found")) ∧
  (let o := CategoryRoutes.put env0 takeover_req db2 in
   categories db2 !! 2%positive = Some home ∧
   categories db2 !! 3%positive = Some errands ∧
   result o = Ok (mkResponse 200 true "Category updated successfully") ∧
   categories (final o) !! 2%positive =
     Some (Category.set_userId 3%positive
             (Category.set_isDefault true home)) ∧
   categories (final o) !! 3%positive =
     Some (Category.set_isDefault false errands)).
Proof.
  assert (∀ c, categories db2 !! 3%positive = Some c →
               Category.userId c ≠ 1%positive) as H1.
  { intros c. change (categories db2 !! 3%positive) with (Some errands).
    intros [= <-]. discriminate. }
  split; [exact H1|]. split; [exact H1|].
  exact (foreign_category_id_is_not_found env0 foreign_category_req
           foreign_delete_req db2 H1 H1).
Defined.

(** *** Assignments to a category *)

Lemma Category_assign_id b d :
  Doc._id (CategoryRoutes.assign b d) = Doc._id d.
Proof. unfold CategoryRoutes.assign. by assign_other. Qed.

Lemma Category_assign_name b d :
  Category.name (Doc.val (CategoryRoutes.assign b d)) =
  default (Category.name (Doc.val d)) (CategoryBody.name b).
Proof.
  unfold CategoryRoutes.assign. assign_other. by rewrite set_opt_get.
Qed.

Lemma Category_assign_userId b d :
  Category.userId (Doc.val (CategoryRoutes.assign b d)) =
  default (Category.userId (Doc.val d)) (CategoryBody.userId b).
Proof.
  unfold CategoryRoutes.assign. assign_other. rewrite set_opt_get by done.
  by assign_other.
Qed.

Lemma Category_assign_isDefault b d :
  Category.isDefault (Doc.val (CategoryRoutes.assign b d)) =
  default (Category.isDefault (Doc.val d)) (CategoryBody.isDefault b).
Proof.
  unfold CategoryRoutes.assign. assign_other. rewrite set_opt_get by done.
  by assign_other.
Qed.

Lemma Category_assign_order b d :
  Category.order (Doc.val (CategoryRoutes.assign b d)) =
  default (Category.order (Doc.val d)) (CategoryBody.order b).
Proof.
  unfold CategoryRoutes.assign. rewrite set_opt_get by done.
  by assign_other.
Qed.

(** On a loaded category, [isDefault] counts as modified exactly when the
    request changes it. *)
Lemma updatedCategory_isModified req c :
  Doc.isModified "isDefault" (updatedCategory req c) =
  match CategoryBody.isDefault (body req) with
  | Some v => bool_decide (Category.isDefault c ≠ v)
  | None => false
  end.
Proof.
  unfold updatedCategory, CategoryRoutes.assign. assign_other.
  destruct (CategoryBody.isDefault (body req)) as [v|]; simpl.
  - rewrite set_isModified_same.
    + by assign_other.
    + by assign_other.
    + assign_other. apply bool_decide_eq_false_2, not_elem_of_nil.
  - assign_other. apply bool_decide_eq_false_2, not_elem_of_nil.
Qed.

(** On a new category it always does. *)
Lemma createdCategory_isModified req name order s :
  Doc.isModified "isDefault" (createdCategory req name order s) = true.
Proof.
  unfold createdCategory, CategoryRoutes.assign. assign_other. simpl.
  unfold Doc.set at 1. assign_other. simpl.
  unfold Doc.isModified. simpl. done.
Qed.

Lemma createdCategory_id req name order s :
  Doc._id (createdCategory req name order s) = fresh (dom (categories s)).
Proof. unfold createdCategory. by rewrite set_id, Category_assign_id. Qed.

Lemma createdCategory_name req name order s :
  Category.name (Doc.val (createdCategory req name order s)) = name.
Proof.
  unfold createdCategory. rewrite set_other by done.
  by rewrite Category_assign_name.
Qed.

Lemma createdCategory_userId req name order s :
  Category.userId (Doc.val (createdCategory req name order s)) = user req.
Proof.
  unfold createdCategory. rewrite set_other by done.
  by rewrite Category_assign_userId.
Qed.

Lemma createdCategory_order req name order s :
  Category.order (Doc.val (createdCategory req name order s)) = order.
Proof. unfold createdCategory. by rewrite set_get. Qed.

Lemma createdCategory_isDefault req name order s :
  Category.isDefault (Doc.val (createdCategory req name order s)) =
  default false (CategoryBody.isDefault (body req)).
Proof.
  unfold createdCategory. rewrite set_other by done.
  by rewrite Category_assign_isDefault.
Qed.

(** *** What a save leaves in the collection *)

Lemma savedCategory_lookup this (coll : gmap ObjectId Category.t) :
  savedCategory this coll !! Doc._id this = Some (Doc.val this).
Proof. unfold savedCategory. apply lookup_insert_eq. Qed.

(** Every other category is as it was, except that it may have lost the
    default flag. *)
Lemma savedCategory_other this (coll : gmap ObjectId Category.t) i c' :
  i ≠ Doc._id this →
  savedCategory this coll !! i = Some c' →
  ∃ c0, coll !! i = Some c0 ∧
        (c' = c0 ∨ c' = Category.set_isDefault false c0).
Proof.
  intros Hne. unfold savedCategory. rewrite lookup_insert_ne by done.
  destruct (_ && _); [|by eauto].
  rewrite clearDefault_lookup.
  destruct (coll !! i) as [c0|]; [|done]. simpl. intros [= <-].
  exists c0. split; [done|]. case_bool_decide; auto.
Qed.

Lemma savedCategory_kept this (coll : gmap ObjectId Category.t) i c0 :
  i ≠ Doc._id this →
  coll !! i = Some c0 →
  ∃ c', savedCategory this coll !! i = Some c' ∧
        (c' = c0 ∨ c' = Category.set_isDefault false c0).
Proof.
  intros Hne Hc0. unfold savedCategory. rewrite lookup_insert_ne by done.
  destruct (_ && _); [|by eauto].
  rewrite clearDefault_lookup, Hc0. simpl. eexists. split; [done|].
  case_bool_decide; auto.
Qed.

Lemma savedCategory_uniqueNames this (coll : gmap ObjectId Category.t) :
  uniqueNames coll →
  ¬ nameTaken (Category.userId (Doc.val this)) (Category.name (Doc.val this))
      (Some (Doc._id this)) coll →
  uniqueNames (savedCategory this coll).
Proof.
  intros Huniq Hfree i j c c' Hi Hj Hu Hn.
  destruct (decide (i = Doc._id this)) as [->|Hi'],
           (decide (j = Doc._id this)) as [->|Hj']; [done|..].
  - rewrite savedCategory_lookup in Hi. injection Hi as <-.
    apply savedCategory_other in Hj as (c0 & Hc0 & Hsame); [|done].
    destruct Hfree. exists j, c0. split; [done|].
    destruct Hsame as [->| ->]; simpl in *; split_and!; congruence.
  - rewrite savedCategory_lookup in Hj. injection Hj as <-.
    apply savedCategory_other in Hi as (c0 & Hc0 & Hsame); [|done].
    destruct Hfree. exists i, c0. split; [done|].
    destruct Hsame as [->| ->]; simpl in *; split_and!; congruence.
  - apply savedCategory_other in Hi as (c0 & Hc0 & Hsame); [|done].
    apply savedCategory_other in Hj as (c0' & Hc0' & Hsame'); [|done].
    apply (Huniq i j c0 c0'); [done|done|..];
      destruct Hsame as [->| ->], Hsame' as [->| ->]; simpl in *; congruence.
Qed.

Lemma Category_post_created env req s name :
  reliable env →
  validation_isEmpty req = true →
  CategoryBody.name (body req) = Some name →
  ¬ nameTaken (user req) name None (categories s) →
  result (CategoryRoutes.post env req s)
    = Ok (mkResponse 201 true "Category created successfully") ∧
  final (CategoryRoutes.post env req s) =
    set_categories
      (savedCategory
         (createdCategory req name (nextOrder (user req) (categories s)) s))
      s.
Proof.
  intros Hdb Hv Hn Hfree. rewrite Category_post_run by done.
  rewrite Hv, Hn. cbn [negb].
  by rewrite (proj2 (nameTakenb_false _ _ _ _)).
Qed.

(** Every outcome of [POST /api/categories] when the database answers:
    nothing is written, or the new category is saved. *)
Lemma Category_post_outcome env req s :
  reliable env →
  final (CategoryRoutes.post env req s) = s ∨
  ∃ name,
    CategoryBody.name (body req) = Some name ∧
    ¬ nameTaken (user req) name None (categories s) ∧
    final (CategoryRoutes.post env req s) =
      set_categories
        (savedCategory
           (createdCategory req name (nextOrder (user req) (categories s)) s))
        s.
Proof.
  intros Hdb. rewrite Category_post_run by done.
  destruct (negb _); [by left|].
  destruct (CategoryBody.name (body req)) as [name|]; [|by left].
  destruct (nameTakenb _ _ _ _) eqn:Hex; [by left|]. right. exists name.
  split; [done|]. split; [|done]. by apply nameTakenb_false.
Qed.

(** X21. A new category sorts last, as long as the orders are small:
    when the database answers, a [POST /api/categories] that passes
    validation, with a name the requester does not use yet, is answered
    201 and stores, under a fresh id, a category of the requester with
    that name; if the [order] of every category the requester had is
    below [2^53] in absolute value, the [order] of the new one is
    greater than all of them; it is 0 for the requester's first
    category.  From [2^53] on the sum [order + 1] of doubles is rounded,
    and an update may set any [order]: after Alice has sent
    [{ order: 9007199254740992 }] for her category "Home", her next
    category gets the same [order]. *)
Theorem new_category_sorts_last env req s name :
  reliable env →
  validation_isEmpty req = true →
  CategoryBody.name (body req) = Some name →
  ¬ nameTaken (user req) name None (categories s) →
  let o := CategoryRoutes.post env req s in
  (let s1 := final (CategoryRoutes.put env0 last_req db2) in
   let o1 := CategoryRoutes.post env0 create_default_req s1 in
   Category.order <$> categories s1 !! 2%positive = Some (2 ^ 53) ∧
   Category.order <$> categories (final o1) !! fresh (dom (categories s1))
     = Some (2 ^ 53)) ∧
  result o = Ok (mkResponse 201 true "Category created successfully") ∧
  categories s !! fresh (dom (categories s)) = None ∧
  ∃ c, categories (final o) !! fresh (dom (categories s)) = Some c ∧
       Category.name c = name ∧
       Category.userId c = user req ∧
       ((∀ i c', categories s !! i = Some c' →
                 Category.userId c' = user req →
                 Z.abs (Category.order c') < 2 ^ 53) →
        ∀ i c', categories s !! i = Some c' →
                Category.userId c' = user req →
                Category.order c' < Category.order c) ∧
       ((∀ i c', categories s !! i = Some c' →
                 Category.userId c' ≠ user req) →
        Category.order c = 0).
Proof.
  intros Hdb Hv Hn Hfree o. subst o.
  destruct (Category_post_created env req s name) as [-> ->]; [done..|].
  split; [split; by vm_compute|]. split; [done|]. split.
  { apply not_elem_of_dom, is_fresh. }
  eexists. split.
  { simpl. rewrite <-(createdCategory_id req name
                       (nextOrder (user req) (categories s)) s) at 1.
    apply savedCategory_lookup. }
  rewrite createdCategory_name, createdCategory_userId,
    createdCategory_order.
  split; [done|]. split; [done|]. split.
  - intros Hsmall. by apply nextOrder_spec.
  - apply nextOrder_zero.
Qed.

Lemma new_category_sorts_last_witness :
  let o := CategoryRoutes.post env0 create_default_req db2 in
  reliable env0 ∧
  validation_isEmpty create_default_req = true ∧
  CategoryBody.name (body create_default_req) = Some "Garden" ∧
  ¬ nameTaken (user create_default_req) "Garden" None (categories db2) ∧
  (let s1 := final (CategoryRoutes.put env0 last_req db2) in
   let o1 := CategoryRoutes.post env0 create_default_req s1 in
   Category.order <$> categories s1 !! 2%positive = Some (2 ^ 53) ∧
   Category.order <$> categories (final o1) !! fresh (dom (categories s1))
     = Some (2 ^ 53)) ∧
  result o = Ok (mkResponse 201 true "Category created successfully") ∧
  categories db2 !! fresh (dom (categories db2)) = None ∧
  ∃ c, categories (final o) !! fresh (dom (categories db2)) = Some c ∧
       Category.name c = "Garden" ∧
       Category.userId c = user create_default_req ∧
       ((∀ i c', categories db2 !! i = Some c' →
                 Category.userId c' = user create_default_req →
                 Z.abs (Category.order c') < 2 ^ 53) →
        ∀ i c', categories db2 !! i = Some c' →
                Category.userId c' = user create_default_req →
                Category.order c' < Category.order c) ∧
       ((∀ i c', categories db2 !! i = Some c' →
                 Category.userId c' ≠ user create_default_req) →
        Category.order c = 0).
Proof.
  intros o.
  assert (reliable env0) as H1 by (intros op; reflexivity).
  assert (¬ nameTaken (user create_default_req) "Garden" None
            (categories db2)) as H2.
  { apply nameTakenb_false. by vm_compute. }
  split; [exact H1|]. split; [reflexivity|]. split; [reflexivity|].
  split; [exact H2|].
  exact (new_category_sorts_last env0 create_default_req db2 "Garden"
           H1 eq_refl eq_refl H2).
Defined.

(** X22. The handlers never write a duplicate name: when the database
    answers and no user has two categories of the same name, the same
    holds after a [POST /api/categories], and after a
    [PUT /api/categories/:id] whose body has no [userId] key and no empty
    [name].  The unique index on [{ userId, name }] is thus never put to
    the test by these requests. *)
Theorem category_names_stay_unique env (create update : Request CategoryBody.t)
    s :
  reliable env →
  uniqueNames (categories s) →
  CategoryBody.userId (body update) = None →
  CategoryBody.name (body update) ≠ Some "" →
  uniqueNames (categories (final (CategoryRoutes.post env create s))) ∧
  uniqueNames (categories (final (CategoryRoutes.put env update s))).
Proof.
  intros Hdb Huniq Hnu Hne. split.
  - destruct (Category_post_outcome env create s Hdb)
      as [->|(name & Hn & Hfree & ->)]; [done|]. simpl.
    apply savedCategory_uniqueNames; [done|].
    rewrite createdCategory_userId, createdCategory_name.
    intros (i & c & Hc & Hu & Hname & _). destruct Hfree.
    exists i, c. by split_and!.
  - destruct (validation_isEmpty update) eqn:Hv.
    2: { unfold CategoryRoutes.put. by rewrite Hv. }
    destruct (categories s !! params_id update) as [c|] eqn:Hc.
    2: { destruct (Category_put_not_found env update s) as [-> _]; [|done].
         intros c. by rewrite Hc. }
    destruct (decide (Category.userId c = user update)) as [Hu|Hu].
    2: { destruct (Category_put_not_found env update s) as [-> _]; [|done].
         intros c'. rewrite Hc. by intros [= <-]. }
    destruct (Category_put_run env update s c Hdb Hv Hc Hu) as [t ->].
    destruct (renames update c) eqn:Hren; simpl.
    + destruct (nameTakenb _ _ _ _) eqn:Hex; [done|]. simpl.
      apply savedCategory_uniqueNames; [done|].
      unfold updatedCategory.
      rewrite Category_assign_userId, Category_assign_name,
        Category_assign_id, Hnu. simpl.
      rewrite Hu. apply nameTakenb_false.
      unfold renames in Hren.
      by destruct (CategoryBody.name (body update)).
    + apply savedCategory_uniqueNames; [done|].
      unfold updatedCategory.
      rewrite Category_assign_userId, Category_assign_name,
        Category_assign_id, Hnu. simpl.
      assert (default (Category.name c) (CategoryBody.name (body update))
              = Category.name c) as ->.
      { unfold renames in Hren.
        destruct (CategoryBody.name (body update)) as [n|]; [|done]. simpl.
        apply andb_false_iff in Hren as [Hren|Hren];
          apply bool_decide_eq_false in Hren.
        - destruct Hne. f_equal. by destruct (decide (n = "")).
        - by destruct (decide (n = Category.name c)). }
      intros (i & c' & Hc' & Hu' & Hn' & Hi).
      destruct Hi. f_equal. by apply (Huniq i (params_id update) c' c).
Qed.

Lemma category_names_stay_unique_witness :
  reliable env0 ∧
  uniqueNames (categories db2) ∧
  CategoryBody.userId (body rename_req) = None ∧
  CategoryBody.name (body rename_req) ≠ Some "" ∧
  uniqueNames
    (categories (final (CategoryRoutes.post env0 create_default_req db2))) ∧
  uniqueNames (categories (final (CategoryRoutes.put env0 rename_req db2))).
Proof.
  assert (reliable env0) as H1 by (intros op; reflexivity).
  assert (uniqueNames (categories db2)) as H2.
  { intros i j c c'. simpl.
    rewrite !lookup_insert_Some, lookup_empty.
    intros [[<- <-]|[? [[<- <-]|[? [[<- <-]|[_ [=]]]]]]]
           [[<- <-]|[? [[<- <-]|[? [[<- <-]|[_ [=]]]]]]]; done. }
  assert (CategoryBody.name (body rename_req) ≠ Some "") as H3 by discriminate.
  split; [exact H1|]. split; [exact H2|]. split; [reflexivity|].
  split; [exact H3|].
  exact (category_names_stay_unique env0 create_default_req rename_req db2
           H1 H2 eq_refl H3).
Defined.

Lemma savedCategory_oneDefault env this s :
  reliable env →
  oneDefaultPerUser (categories s) →
  (Category.isDefault (Doc.val this) = true →
   Doc.isModified "isDefault" this = false →
   ∃ c0, categories s !! Doc._id this = Some c0 ∧
         Category.isDefault c0 = true ∧
         Category.userId c0 = Category.userId (Doc.val this)) →
  oneDefaultPerUser (categories (set_categories (savedCategory this) s)).
Proof.
  intros Hdb Hone Hstored.
  pose proof (save_keeps_oneDefault env this s Hdb Hone Hstored) as H.
  by rewrite Category_save_saved in H.
Qed.

(** X23. At most one default category per user, kept: when the database
    answers and every user has at most one default category, the same
    holds after a [POST /api/categories], and after a
    [PUT /api/categories/:id] whose body has no [userId] key. *)
Theorem one_default_per_user_is_kept env
    (create update : Request CategoryBody.t) s :
  reliable env →
  oneDefaultPerUser (categories s) →
  CategoryBody.userId (body update) = None →
  oneDefaultPerUser (categories (final (CategoryRoutes.post env create s))) ∧
  oneDefaultPerUser (categories (final (CategoryRoutes.put env update s))).
Proof.
  intros Hdb Hone Hnu. split.
  - destruct (Category_post_outcome env create s Hdb)
      as [->|(name & Hn & Hfree & ->)]; [done|].
    apply (savedCategory_oneDefault env); [done|done|].
    intros _. by rewrite createdCategory_isModified.
  - destruct (validation_isEmpty update) eqn:Hv.
    2: { unfold CategoryRoutes.put. by rewrite Hv. }
    destruct (categories s !! params_id update) as [c|] eqn:Hc.
    2: { destruct (Category_put_not_found env update s) as [-> _]; [|done].
         intros c. by rewrite Hc. }
    destruct (decide (Category.userId c = user update)) as [Hu|Hu].
    2: { destruct (Category_put_not_found env update s) as [-> _]; [|done].
         intros c'. rewrite Hc. by intros [= <-]. }
    destruct (Category_put_run env update s c Hdb Hv Hc Hu) as [t ->].
    destruct (_ && _); [done|]. rewrite final_triple.
    apply (savedCategory_oneDefault env); [done|done|].
    unfold updatedCategory at 1 3 4.
    rewrite Category_assign_isDefault, Category_assign_id,
      Category_assign_userId, Hnu, updatedCategory_isModified.
    simpl. intros Hd Hm. exists c. split; [done|]. split; [|done].
    destruct (CategoryBody.isDefault (body update)) as [v|]; [|done].
    simpl in Hd. subst v. apply bool_decide_eq_false in Hm.
    by destruct (Category.isDefault c); [|destruct Hm].
Qed.

Lemma one_default_per_user_is_kept_witness :
  reliable env0 ∧
  oneDefaultPerUser (categories db2) ∧
  CategoryBody.userId (body rename_req) = None ∧
  oneDefaultPerUser
    (categories (final (CategoryRoutes.post env0 create_default_req db2))) ∧
  oneDefaultPerUser
    (categories (final (CategoryRoutes.put env0 rename_req db2))).
Proof.
  assert (reliable env0) as H1 by (intros op; reflexivity).
  assert (oneDefaultPerUser (categories db2)) as H2.
  { apply oneDefaultPerUser_alt. intros i j c c'. simpl.
    rewrite !lookup_insert_Some, lookup_empty.
    intros [[<- <-]|[? [[<- <-]|[? [[<- <-]|[_ [=]]]]]]]
           [[<- <-]|[? [[<- <-]|[? [[<- <-]|[_ [=]]]]]]]; done. }
  split; [exact H1|]. split; [exact H2|]. split; [reflexivity|].
  exact (one_default_per_user_is_kept env0 create_default_req rename_req db2
           H1 H2 eq_refl).
Defined.

(** The two outcomes of a [DELETE] by the owner. *)
Lemma category_delete_guard_aux env req s c :
  reliable env →
  categories s !! params_id req = Some c →
  Category.userId c = user req →
  (referenced (user req) (Category.name c) (tasks s) →
   (∃ r, result (CategoryRoutes.delete env req s) = Ok r ∧
         status r = 400 ∧ success r = false) ∧
   final (CategoryRoutes.delete env req s) = s) ∧
  (¬ referenced (user req) (Category.name c) (tasks s) →
   result (CategoryRoutes.delete env req s)
     = Ok (mkResponse 200 true "Category deleted successfully") ∧
   categories (final (CategoryRoutes.delete env req s))
     = delete (params_id req) (categories s) ∧
   categories (final (CategoryRoutes.delete env req s)) !! params_id req
     = None ∧
   tasks (final (CategoryRoutes.delete env req s)) = tasks s).
Proof.
  intros Hdb Hc Hu. rewrite (delete_run env req s c) by done.
  cbv zeta. rewrite <-inCategory_referenced. split; intros Href.
  - rewrite bool_decide_eq_true_2 by done. simpl. eauto.
  - rewrite bool_decide_eq_false_2 by done. simpl.
    split_and!; try done. apply lookup_delete_eq.
Qed.

(** X24. Renaming a category slips past the delete guard: the guard
    compares task categories with the name the category has at the time
    of the [DELETE].  If tasks of the owner are filed under a category,
    deleting it is refused; but after the owner renames it (a
    [PUT /api/categories/:id] with a name no category and no task of the
    owner uses), the same [DELETE] succeeds, and the tasks keep a
    category name that no longer exists (the database answers
    throughout). *)
Theorem rename_slips_past_the_delete_guard env1 env2
    (rename : Request CategoryBody.t) (remove : Request unit) s c name :
  reliable env1 → reliable env2 →
  validation_isEmpty rename = true →
  user remove = user rename →
  params_id remove = params_id rename →
  categories s !! params_id rename = Some c →
  Category.userId c = user rename →
  CategoryBody.name (body rename) = Some name →
  CategoryBody.userId (body rename) = None →
  name ≠ "" →
  ¬ nameTaken (user rename) name None (categories s) →
  ¬ referenced (user rename) name (tasks s) →
  referenced (user rename) (Category.name c) (tasks s) →
  let s1 := final (CategoryRoutes.put env1 rename s) in
  let o2 := CategoryRoutes.delete env2 remove s1 in
  (∃ r, result (CategoryRoutes.delete env2 remove s) = Ok r ∧ status r = 400) ∧
  result o2 = Ok (mkResponse 200 true "Category deleted successfully") ∧
  categories (final o2) !! params_id rename = None ∧
  referenced (user rename) (Category.name c) (tasks (final o2)).
Proof.
  intros Hdb1 Hdb2 Hv Hur Hid Hc Hu Hn Hnu Hne Hfree Hnoref Href s1 o2.
  split.
  { destruct (category_delete_guard_aux env2 remove s c) as [H _];
      [done|by rewrite Hid|by rewrite Hur|].
    rewrite Hur in H. destruct (H Href) as [(r & Hr & Hs & _) _]. eauto. }
  assert (s1 = set_categories (savedCategory (updatedCategory rename c)) s)
    as Hs1.
  { subst s1. destruct (Category_put_run env1 rename s c) as [t ->]; [done..|].
    rewrite Hn. simpl.
    rewrite (proj2 (nameTakenb_false _ _ _ _)), andb_false_r; [done|].
    intros (i & c' & Hc' & Hu' & Hn' & _). destruct Hfree.
    by exists i, c'. }
  assert (categories s1 !! params_id remove
          = Some (Doc.val (updatedCategory rename c))) as Hc1.
  { rewrite Hs1, Hid. simpl.
    rewrite <-(Category_assign_id (body rename)
                 (Doc.hydrate (params_id rename) c)) at 1.
    apply savedCategory_lookup. }
  assert (Category.name (Doc.val (updatedCategory rename c)) = name) as Hname.
  { unfold updatedCategory. by rewrite Category_assign_name, Hn. }
  assert (Category.userId (Doc.val (updatedCategory rename c)) = user remove)
    as Huser.
  { unfold updatedCategory. by rewrite Category_assign_userId, Hnu, Hur. }
  assert (tasks s1 = tasks s) as Ht1 by by rewrite Hs1.
  destruct (category_delete_guard_aux env2 remove s1 _ Hdb2 Hc1 Huser)
    as [_ H].
  rewrite Hname, Hur, Ht1 in H.
  destruct (H Hnoref) as (Hr & _ & Hgone & Ht2).
  fold o2 in Hr, Hgone, Ht2.
  split; [done|]. split; [by rewrite <-Hid|]. by rewrite Ht2.
Qed.

Lemma rename_slips_past_the_delete_guard_witness :
  let s1 := final (CategoryRoutes.put env0 rename_req db2) in
  let o2 := CategoryRoutes.delete env0 delete_work_req s1 in
  reliable env0 ∧ reliable env0 ∧
  validation_isEmpty rename_req = true ∧
  user delete_work_req = user rename_req ∧
  params_id delete_work_req = params_id rename_req ∧
  categories db2 !! params_id rename_req = Some work ∧
  Category.userId work = user rename_req ∧
  CategoryBody.name (body rename_req) = Some "Job" ∧
  CategoryBody.userId (body rename_req) = None ∧
  "Job" ≠ "" ∧
  ¬ nameTaken (user rename_req) "Job" None (categories db2) ∧
  ¬ referenced (user rename_req) "Job" (tasks db2) ∧
  referenced (user rename_req) (Category.name work) (tasks db2) ∧
  (∃ r, result (CategoryRoutes.delete env0 delete_work_req db2) = Ok r ∧
        status r = 400) ∧
  result o2 = Ok (mkResponse 200 true "Category deleted successfully") ∧
  categories (final o2) !! params_id rename_req = None ∧
  referenced (user rename_req) (Category.name work) (tasks (final o2)).
Proof.
  intros s1 o2.
  assert (reliable env0) as H1 by (intros op; reflexivity).
  assert ("Job" ≠ "") as H2 by discriminate.
  assert (¬ nameTaken (user rename_req) "Job" None (categories db2)) as H3.
  { apply nameTakenb_false. by vm_compute. }
  assert (¬ referenced (user rename_req) "Job" (tasks db2)) as H4.
  { rewrite <-inCategory_referenced.
    assert (TaskModel.countDocuments
              (TaskModel.inCategory_query (user rename_req) "Job")
              (tasks db2) = 0%nat) as -> by (by vm_compute).
    lia. }
  assert (referenced (user rename_req) (Category.name work) (tasks db2))
    as H5.
  { exists 1%positive, report. by split_and!. }
  split; [exact H1|]. split; [exact H1|]. split; [reflexivity|].
  split; [reflexivity|]. split; [reflexivity|]. split; [reflexivity|].
  split; [reflexivity|]. split; [reflexivity|]. split; [reflexivity|].
  split; [exact H2|]. split; [exact H3|]. split; [exact H4|].
  split; [exact H5|].
  exact (rename_slips_past_the_delete_guard env0 env0 rename_req
           delete_work_req db2 work "Job" H1 H1 eq_refl eq_refl eq_refl
           eq_refl eq_refl eq_refl eq_refl H2 H3 H4 H5).
Defined.

(** ** The routers *)

(** X25. The reorder handlers cannot be reached: in both routers
    [PUT /reorder] is registered after [PUT /:id], whose parameter
    matches the segment [reorder] like any other.  However literal
    segments are compared (as long as [reorder] does not match the empty
    segment), no request, whatever its method and path, is dispatched to
    the handler that reorders tasks or to the one that reorders
    categories; [PUT /api/tasks/reorder] and
    [PUT /api/categories/reorder] go to the update handlers, with
    [reorder] as the id. *)
Theorem reorder_routes_are_shadowed lit m path :
  lit "reorder" "" = false →
  dispatch lit taskRouter m path ≠ Some reorderTasks ∧
  dispatch lit categoryRouter m path ≠ Some reorderCategories ∧
  dispatch lit taskRouter PUT ["reorder"] = Some updateTask ∧
  dispatch lit categoryRouter PUT ["reorder"] = Some updateCategory.
Proof.
  intros Hlit. split; [|split; [|by split]].
  - destruct m, path as [|x [|y [|z [|w path]]]]; simpl;
      repeat (case_bool_decide; simpl); subst; rewrite ?Hlit; simpl;
      try done;
      repeat (destruct (lit _ _); simpl); done.
  - destruct m, path as [|x [|y [|z path]]]; simpl;
      repeat (case_bool_decide; simpl); subst; rewrite ?Hlit; simpl;
      try done;
      repeat (destruct (lit _ _); simpl); done.
Qed.

Lemma reorder_routes_are_shadowed_witness :
  let lit := λ s x : string, bool_decide (s = x) in
  lit "reorder" "" = false ∧
  dispatch lit taskRouter PUT ["reorder"] ≠ Some reorderTasks ∧
  dispatch lit categoryRouter PUT ["reorder"] ≠ Some reorderCategories ∧
  dispatch lit taskRouter PUT ["reorder"] = Some updateTask ∧
  dispatch lit categoryRouter PUT ["reorder"] = Some updateCategory.
Proof.
  intros lit. split; [reflexivity|].
  exact (reorder_routes_are_shadowed lit PUT ["reorder"] eq_refl).
Defined.

(** ** Pagination *)

Lemma ceil_div_lt (a b p : Z) :
  0 < b → (p < ceil_div a b ↔ p * b < a).
Proof.
  intros Hb. unfold ceil_div. split.
  - intros Hp.
    assert (p + 1 ≤ (a + b - 1) / b) as Hle by lia.
    pose proof (Z.mul_div_le (a + b - 1) b Hb). nia.
  - intros Hp. assert (p + 1 ≤ (a + b - 1) / b); [|lia].
    apply Z.div_le_lower_bound; [done|]. nia.
Qed.

(** X26. [hasNextPage] tells the truth: for a page number and a page
    size of at least 1, the [pagination] block of [GET /api/tasks] has
    [hasNextPage] true exactly when matching tasks remain after the ones
    on the returned page, and [hasPrevPage] true exactly when the page
    number is above 1; the page holds at most [limit] tasks, and exactly
    [limit] whenever [hasNextPage] is true. *)
Theorem hasNextPage_iff_tasks_remain {A} (page limit : Z)
    (matching : list A) :
  1 ≤ page → 1 ≤ limit →
  let r := paginate (Some page) (Some limit) matching in
  (hasNextPage r.2 = true ↔
   drop (Z.to_nat ((page - 1) * limit) + Z.to_nat limit) matching ≠ []) ∧
  (hasPrevPage r.2 = true ↔ 1 < page) ∧
  (length r.1 ≤ Z.to_nat limit)%nat ∧
  (hasNextPage r.2 = true → length r.1 = Z.to_nat limit).
Proof.
  intros Hp Hl r. subst r. unfold paginate. simpl.
  rewrite !Z.ltb_lt, ceil_div_lt by lia.
  assert (drop (Z.to_nat ((page - 1) * limit) + Z.to_nat limit) matching ≠ []
          ↔ page * limit < Z.of_nat (length matching)) as Hmore.
  { rewrite <-length_zero_iff_nil, length_drop. nia. }
  split; [by rewrite Hmore|]. split; [done|].
  rewrite length_take, length_drop. split; [lia|]. nia.
Qed.

Lemma hasNextPage_iff_tasks_remain_witness :
  let matching := [report; gym; taxes] in
  let r := paginate (Some 1) (Some 2) matching in
  1 ≤ 1 ∧ 1 ≤ 2 ∧
  (hasNextPage r.2 = true ↔
   drop (Z.to_nat ((1 - 1) * 2) + Z.to_nat 2) matching ≠ []) ∧
  (hasPrevPage r.2 = true ↔ 1 < 1) ∧
  (length r.1 ≤ Z.to_nat 2)%nat ∧
  (hasNextPage r.2 = true → length r.1 = Z.to_nat 2).
Proof.
  intros matching r.
  assert (1 ≤ 1) as H1 by lia. assert (1 ≤ 2) as H2 by lia.
  split; [exact H1|]. split; [exact H2|].
  exact (hasNextPage_iff_tasks_remain 1 2 matching H1 H2).
Defined.

(** ** The windows of the analytics overview *)

Lemma date_split (t : Date.t) :
  t = t / Date.MS_PER_DAY * Date.MS_PER_DAY + t mod Date.MS_PER_DAY ∧
  0 ≤ t mod Date.MS_PER_DAY < Date.MS_PER_DAY.
Proof.
  assert (0 < Date.MS_PER_DAY) as HD by done.
  pose proof (Z.div_mod t Date.MS_PER_DAY ltac:(lia)).
  pose proof (Z.mod_pos_bound t Date.MS_PER_DAY HD). lia.
Qed.

Lemma day_of_sum (z r : Z) :
  0 ≤ r < Date.MS_PER_DAY →
  (z * Date.MS_PER_DAY + r) / Date.MS_PER_DAY = z.
Proof.
  intros Hr. assert (0 < Date.MS_PER_DAY) as HD by done.
  rewrite Z.add_comm, Z.div_add by lia. rewrite Z.div_small by done. lia.
Qed.

(** Setting the day of the month [k] days back moves the date [k] days
    back. *)
Lemma setDate_back (t : Date.t) (k : Z) :
  Analytics.setDate t (Analytics.getDate t - k) = t - k * Date.MS_PER_DAY.
Proof.
  unfold Analytics.setDate, Analytics.getDate.
  destruct (civil_roundtrip (t / Date.MS_PER_DAY))
    as (y & m & d & -> & _ & _ & Hrt).
  replace (d - k) with (d + - k) by lia.
  rewrite days_from_civil_day, Hrt.
  destruct (date_split t) as [Ht _]. lia.
Qed.

Lemma firstOfMonth_eq (t : Date.t) :
  Analytics.firstOfMonth t =
  (t / Date.MS_PER_DAY - (Analytics.getDate t - 1)) * Date.MS_PER_DAY ∧
  1 ≤ Analytics.getDate t.
Proof.
  unfold Analytics.firstOfMonth, Analytics.getDate.
  destruct (civil_roundtrip (t / Date.MS_PER_DAY))
    as (y & m & d & -> & Hd & _ & Hrt).
  split; [|done]. replace 1 with (d + (1 - d)) at 1 by lia.
  rewrite days_from_civil_day, Hrt. f_equal. lia.
Qed.

Lemma firstOfMonth_le (t : Date.t) : Analytics.firstOfMonth t ≤ t.
Proof.
  destruct (firstOfMonth_eq t) as [-> Hd].
  destruct (date_split t) as [Ht Hr].
  assert (0 < Date.MS_PER_DAY) as HD by done. nia.
Qed.

Lemma getDay_bound (t : Date.t) : 0 ≤ Analytics.getDay t < 7.
Proof. unfold Analytics.getDay. by apply Z.mod_pos_bound. Qed.

Lemma countDocuments_mono (q1 q2 : Task.t → bool)
    (coll : gmap ObjectId Task.t) :
  (∀ x, q1 x = true → q2 x = true) →
  (TaskModel.countDocuments q1 coll ≤ TaskModel.countDocuments q2 coll)%nat.
Proof.
  intros Hq. unfold TaskModel.countDocuments, TaskModel.find.
  rewrite !length_map_to_list. apply map_subseteq_size.
  apply map_subseteq_spec. intros i x.
  rewrite !map_lookup_filter_Some. simpl. intros [Hx H1]. auto.
Qed.

Lemma completedSince_mono userId (d1 d2 : Date.t) x :
  d1 ≤ d2 →
  TaskModel.completedSince_query userId d2 x = true →
  TaskModel.completedSince_query userId d1 x = true.
Proof.
  intros Hle. rewrite !completedSince_query_spec.
  intros (Hu & Hc & c & Hat & Hge). split; [done|]. split; [done|].
  exists c. split; [done|]. lia.
Qed.

(** X27. The overview's "this month" is the month of last Sunday.  The
    handler moves [now] back to the Sunday that began the week (by
    [now.setDate], which changes [now] itself) and then derives the start
    of the month and of the year from it.  So for every clock reading:
    the week starts on that Sunday at the current time of day, not at
    midnight; the month never starts after the week, and whenever the
    week began in the month before (the day of the month is at most the
    day of the week), "this month" starts before the current month does;
    the count for the week never exceeds the one for the month.  On
    Wednesday 2024-01-03 at 12:00Z the three windows start on
    2023-12-31 at 12:00Z, on 2023-12-01 and on 2023-01-01, and a task
    completed on 2023-12-15 counts as completed this month and this
    year. *)
Theorem overview_month_is_the_month_of_last_sunday (now : Date.t) userId
    (coll : gmap ObjectId Task.t) :
  let w := Analytics.windows now in
  Analytics.startOfWeek w = now - Analytics.getDay now * Date.MS_PER_DAY ∧
  Analytics.startOfMonth w ≤ Analytics.startOfWeek w ∧
  (Analytics.getDate now ≤ Analytics.getDay now →
   Analytics.startOfMonth w < Analytics.firstOfMonth now) ∧
  (Analytics.completedThisWeek userId now coll
   ≤ Analytics.completedThisMonth userId now coll)%nat ∧
  Analytics.windows (Date.UTC 2024 1 3 12 0) =
    Analytics.mkWindows (Date.UTC 2023 12 31 12 0) (Date.UTC 2023 12 1 0 0)
      (Date.UTC 2023 1 1 0 0) ∧
  Analytics.completedThisMonth 1%positive (Date.UTC 2024 1 3 12 0) (tasks db5)
    = 1%nat ∧
  Analytics.completedThisYear 1%positive (Date.UTC 2024 1 3 12 0) (tasks db5)
    = 1%nat.
Proof.
  intros w.
  assert (Analytics.startOfWeek w
          = now - Analytics.getDay now * Date.MS_PER_DAY) as Hweek
    by apply setDate_back.
  assert (Analytics.startOfMonth w ≤ Analytics.startOfWeek w) as Hmonth
    by apply firstOfMonth_le.
  split; [done|]. split; [done|]. split; [|split].
  - intros Hd. rewrite Hweek in Hmonth.
    destruct (firstOfMonth_eq now) as [-> _].
    destruct (date_split now) as [Hnow Hr].
    assert (0 < Date.MS_PER_DAY) as HD by done. nia.
  - apply countDocuments_mono. intros x. by apply completedSince_mono.
  - split; [by vm_compute|]. split; by vm_compute.
Qed.

(** ** The client *)

Lemma authReducer_consistent state action :
  AuthContext.consistent state →
  AuthContext.consistent (AuthContext.authReducer state action).
Proof.
  unfold AuthContext.consistent.
  intros (Htoken & Huser & Herror).
  destruct action; simpl; (split; [|split]);
    try done; try (by intros []); try (split; [done|by intros []]);
    try (by split; eauto); eauto.
Qed.

Lemma reachable_consistent (actions : list AuthContext.Action) :
  AuthContext.consistent
    (foldl AuthContext.authReducer AuthContext.initialState actions).
Proof.
  assert (AuthContext.consistent AuthContext.initialState) as Hinit.
  { unfold AuthContext.consistent. simpl. (split; [|split]);
      try done; try (by intros []); try (split; [done|by intros []]). }
  revert Hinit. generalize AuthContext.initialState.
  induction actions as [|a actions IH]; intros state Hs; [done|].
  simpl. apply IH. by apply authReducer_consistent.
Qed.

(** X28. The authentication state stays consistent: in every state the
    reducer reaches from the initial one, by whatever actions,
    [isAuthenticated] is true exactly when a token is held, a user object
    is present whenever it is true, and an error is recorded only while
    it is false.  The converse for the user fails: a profile update that
    arrives after a logout leaves a user object in a state that is not
    authenticated. *)
Theorem auth_state_stays_consistent (actions : list AuthContext.Action)
    (payload : gmap string string) :
  let state :=
    foldl AuthContext.authReducer AuthContext.initialState actions in
  (AuthContext.isAuthenticated state = true ↔
   is_Some (AuthContext.token state)) ∧
  (AuthContext.isAuthenticated state = true →
   is_Some (AuthContext.user state)) ∧
  (is_Some (AuthContext.error state) →
   AuthContext.isAuthenticated state = false) ∧
  let late :=
    foldl AuthContext.authReducer AuthContext.initialState
      (actions ++ [AuthContext.AUTH_LOGOUT;
                   AuthContext.AUTH_UPDATE_PROFILE payload]) in
  AuthContext.user late = Some payload ∧
  AuthContext.isAuthenticated late = false.
Proof.
  intros state.
  destruct (reachable_consistent actions) as (H1 & H2 & H3).
  split; [done|]. split; [done|]. split; [done|].
  intros late. subst late. rewrite foldl_app. simpl.
  by rewrite (right_id_L ∅ (∪)).
Qed.

(** X29. A protected page is rendered only to a signed-in user: in
    every state the reducer reaches, when [ProtectedRoute] renders its
    children, a user object and a token are present, no error is
    recorded, and [PublicRoute] redirects to the dashboard; and the two
    guards never both render their children. *)
Theorem protected_pages_have_a_user (actions : list AuthContext.Action) :
  let state :=
    foldl AuthContext.authReducer AuthContext.initialState actions in
  (AuthContext.ProtectedRoute state = AuthContext.Children →
   is_Some (AuthContext.user state) ∧
   is_Some (AuthContext.token state) ∧
   AuthContext.error state = None ∧
   AuthContext.PublicRoute state = AuthContext.Navigate "/dashboard") ∧
  ¬ (AuthContext.ProtectedRoute state = AuthContext.Children ∧
     AuthContext.PublicRoute state = AuthContext.Children).
Proof.
  intros state.
  destruct (reachable_consistent actions) as (H1 & H2 & H3).
  fold state in H1, H2, H3.
  unfold AuthContext.ProtectedRoute, AuthContext.PublicRoute.
  destruct (AuthContext.isLoading state); [by split; [|intros []]|].
  destruct (AuthContext.isAuthenticated state) eqn:Hauth; simpl.
  - split; [|by intros []]. intros _.
    split; [by apply H2|]. split; [by apply H1|]. split; [|done].
    destruct (AuthContext.error state) as [e|] eqn:He; [|done].
    by specialize (H3 ltac:(by eexists)).
  - by split; [|intros []].
Qed.

(** X30. Which refusals reach the user in the server's words: of a
    failed request the client shows the message of the response body
    only when the status is none of 401, 403, 404 and below 500.  So the
    refusal of the delete guard (status 400, with the number of tasks in
    the category) is shown as the server wrote it, while "Category not
    found" (status 404) is replaced by the client's own text; and only a
    401 clears the stored session. *)
Theorem client_shows_the_servers_refusal env req s c :
  reliable env →
  categories s !! params_id req = Some c →
  Category.userId c = user req →
  referenced (user req) (Category.name c) (tasks s) →
  (∃ r, result (CategoryRoutes.delete env req s) = Ok r ∧
        Api.onRejected (Api.ofResponse r) = ([], message r) ∧
        message r =
          "Cannot delete category. It contains " +:+
          pretty (TaskModel.countDocuments
                    (TaskModel.inCategory_query (user req) (Category.name c))
                    (tasks s)) +:+
          " task(s). Please move or delete the tasks first.") ∧
  Api.onRejected
    (Api.ofResponse (mkResponse 404 false "Category not found"))
    = ([], "The requested resource was not found.") ∧
  ∀ status msg,
    (status ≠ 401 → status ≠ 403 → status ≠ 404 → status < 500 → msg ≠ "" →
     Api.onRejected (Some (status, Some msg)) = ([], msg)) ∧
    (status ≠ 401 → (Api.onRejected (Some (status, Some msg))).1 = []).
Proof.
  intros Hdb Hc Hu Href. split; [|split; [done|]].
  - rewrite (delete_run env req s c) by done. cbv zeta.
    rewrite bool_decide_eq_true_2 by by apply inCategory_referenced.
    eexists. split; [done|]. split; [|done].
    unfold Api.onRejected, Api.ofResponse. by simpl.
  - intros status msg. unfold Api.onRejected. split.
    + intros. rewrite !bool_decide_eq_false_2 by (done || lia).
      unfold CategoryRoutes.or_string. by rewrite bool_decide_eq_false_2.
    + intros. rewrite (bool_decide_eq_false_2 (status = 401)) by done.
      by repeat case_bool_decide.
Qed.

Lemma client_shows_the_servers_refusal_witness :
  reliable env0 ∧
  categories db2 !! params_id delete_work_req = Some work ∧
  Category.userId work = user delete_work_req ∧
  referenced (user delete_work_req) (Category.name work) (tasks db2) ∧
  (∃ r, result (CategoryRoutes.delete env0 delete_work_req db2) = Ok r ∧
        Api.onRejected (Api.ofResponse r) = ([], message r) ∧
        message r =
          "Cannot delete category. It contains " +:+
          pretty (TaskModel.countDocuments
                    (TaskModel.inCategory_query (user delete_work_req)
                       (Category.name work))
                    (tasks db2)) +:+
          " task(s). Please move or delete the tasks first.") ∧
  Api.onRejected
    (Api.ofResponse (mkResponse 404 false "Category not found"))
    = ([], "The requested resource was not found.") ∧
  ∀ status msg,
    (status ≠ 401 → status ≠ 403 → status ≠ 404 → status < 500 → msg ≠ "" →
     Api.onRejected (Some (status, Some msg)) = ([], msg)) ∧
    (status ≠ 401 → (Api.onRejected (Some (status, Some msg))).1 = []).
Proof.
  assert (reliable env0) as H1 by (intros op; reflexivity).
  assert (referenced (user delete_work_req) (Category.name work) (tasks db2))
    as H2.
  { exists 1%positive, report. by split_and!. }
  split; [exact H1|]. split; [reflexivity|]. split; [reflexivity|].
  split; [exact H2|].
  exact (client_shows_the_servers_refusal env0 delete_work_req db2 work
           H1 eq_refl eq_refl H2).
Defined.
